(** * SelectQueryBuilder: query compilation and execution orchestration

    A shallow embedding of [src/query-builder/SelectQueryBuilder.ts]
    (TypeORM).  The builder's expression map is a record, the clause
    compilers are functions into a completion type (a JavaScript call either
    returns a value or throws), and the asynchronous execution methods are
    computations over the chronological trace of calls made to the query
    runner, the result cache and the hydration pipeline.

    Conventions of the embedding:
    - JavaScript numbers held by the pagination and cache slots are modelled
      as integers ([Z]); [NaN] and fractions are outside the model, and
      [undefined]/[null] are both [None];
    - strings are [string], read as UTF-8 text; [Array.prototype.join] is
      [String.concat];
    - a JavaScript object used as an ordered dictionary is an association
      list in insertion order;
    - classes the file imports but does not define (the [QueryBuilder] base
      class, [QueryExpressionMap], drivers, loaders, the result cache) are
      taken as parameters, collected in the records [Collaborators] (what
      compilation calls) and [Environment] (what execution calls). *)

From Stdlib Require Import String Ascii List ZArith Bool Lia DecimalString.
Import ListNotations.
Open Scope string_scope.
Open Scope Z_scope.

Set Implicit Arguments.

(* ===================================================================== *)
(** ** JavaScript values, strings and completions *)
(* ===================================================================== *)

#[local] Set Warnings "-register-all".

Inductive JsValue : Type :=
| JsUndefined
| JsNull
| JsBoolean (b : bool)
| JsNumber (n : Z)
| JsString (s : string)
| JsDate (time : Z)
| JsArray (items : list JsValue)
| JsObject (properties : list (string * JsValue)).

(** Truthiness of a value: [!!v]. *)
Definition truthyValue (v : JsValue) : bool :=
  match v with
  | JsUndefined | JsNull => false
  | JsBoolean b => b
  | JsNumber n => negb (n =? 0)
  | JsString EmptyString => false
  | JsString _ | JsDate _ | JsArray _ | JsObject _ => true
  end.

(** [typeof v === "number"] *)
Definition isNumber (v : JsValue) : bool :=
  match v with JsNumber _ => true | _ => false end.

(** Truthiness of an optional numeric slot: [undefined], [null] and [0] are
    falsy. *)
Definition truthy (slot : option Z) : bool :=
  match slot with
  | Some n => negb (n =? 0)
  | None => false
  end.

(** Truthiness of an optional string: [undefined] and the empty string are
    falsy. *)
Definition truthyString (s : option string) : bool :=
  match s with
  | Some EmptyString => false
  | Some _ => true
  | None => false
  end.

(** Number-to-string conversion of an integer, as in [" LIMIT " + limit]:
    decimal digits with a leading minus sign for a negative number (what
    JavaScript prints for an integer below [10^21] in absolute value). *)
Definition Number_toString (n : Z) : string :=
  NilZero.string_of_int (Z.to_int n).

(** [Array.prototype.join] on an array of strings. *)
Definition join (sep : string) (parts : list string) : string :=
  String.concat sep parts.

(** White space stripped by [String.prototype.trim]: the code points
    TAB, LF, VT, FF, CR, SPACE, U+00A0, U+1680, U+2000 to U+200A, U+2028,
    U+2029, U+202F, U+205F, U+3000 and U+FEFF.  A text is held in UTF-8, so
    a white-space code point is one, two or three bytes. *)
Definition isWhiteSpace (c : ascii) : bool :=
  let n := nat_of_ascii c in
  (Nat.leb 9 n && Nat.leb n 13) || Nat.eqb n 32.

(** U+00A0 is the two bytes [C2 A0]. *)
Definition isWhiteSpace2 (c1 c2 : ascii) : bool :=
  Nat.eqb (nat_of_ascii c1) 194 && Nat.eqb (nat_of_ascii c2) 160.

(** U+1680 is [E1 9A 80]; U+2000 to U+200A, U+2028, U+2029 and U+202F are
    [E2 80 80] to [E2 80 8A], [E2 80 A8], [E2 80 A9] and [E2 80 AF]; U+205F
    is [E2 81 9F]; U+3000 is [E3 80 80]; U+FEFF is [EF BB BF]. *)
Definition isWhiteSpace3 (c1 c2 c3 : ascii) : bool :=
  let n1 := nat_of_ascii c1 in
  let n2 := nat_of_ascii c2 in
  let n3 := nat_of_ascii c3 in
  (Nat.eqb n1 225 && Nat.eqb n2 154 && Nat.eqb n3 128) ||
  (Nat.eqb n1 226 && Nat.eqb n2 128 &&
   ((Nat.leb 128 n3 && Nat.leb n3 138) || Nat.eqb n3 168 || Nat.eqb n3 169 ||
    Nat.eqb n3 175)) ||
  (Nat.eqb n1 226 && Nat.eqb n2 129 && Nat.eqb n3 159) ||
  (Nat.eqb n1 227 && Nat.eqb n2 128 && Nat.eqb n3 128) ||
  (Nat.eqb n1 239 && Nat.eqb n2 187 && Nat.eqb n3 191).

(** A text that is exactly one white-space code point. *)
Definition isWhiteSpaceCodePoint (s : string) : bool :=
  match s with
  | String c1 EmptyString => isWhiteSpace c1
  | String c1 (String c2 EmptyString) => isWhiteSpace2 c1 c2
  | String c1 (String c2 (String c3 EmptyString)) => isWhiteSpace3 c1 c2 c3
  | _ => false
  end.

Fixpoint trimStart (s : string) : string :=
  match s with
  | EmptyString => EmptyString
  | String c1 rest1 =>
      if isWhiteSpace c1 then trimStart rest1
      else
        match rest1 with
        | EmptyString => s
        | String c2 rest2 =>
            if isWhiteSpace2 c1 c2 then trimStart rest2
            else
              match rest2 with
              | EmptyString => s
              | String c3 rest3 =>
                  if isWhiteSpace3 c1 c2 c3 then trimStart rest3 else s
              end
        end
  end.

(** From the end: what is kept of the rest, with the byte before it, is
    dropped when it is one white-space code point. *)
Fixpoint trimEnd (s : string) : string :=
  match s with
  | EmptyString => EmptyString
  | String c rest =>
      let kept := String c (trimEnd rest) in
      if isWhiteSpaceCodePoint kept then EmptyString else kept
  end.

Definition trim (s : string) : string := trimEnd (trimStart s).

(** Whether a text opens with a white-space code point. *)
Definition startsWithWhiteSpace (s : string) : bool :=
  match s with
  | String c1 rest1 =>
      isWhiteSpace c1 ||
      match rest1 with
      | String c2 rest2 =>
          isWhiteSpace2 c1 c2 ||
          match rest2 with
          | String c3 _ => isWhiteSpace3 c1 c2 c3
          | EmptyString => false
          end
      | EmptyString => false
      end
  | EmptyString => false
  end.

(** Whether a text closes with a white-space code point. *)
Fixpoint endsWithWhiteSpace (s : string) : bool :=
  match s with
  | EmptyString => false
  | String _ rest => isWhiteSpaceCodePoint s || endsWithWhiteSpace rest
  end.

(** Whether a text is white-space code points only. *)
Fixpoint allWhiteSpace (s : string) : bool :=
  match s with
  | EmptyString => true
  | String c1 rest1 =>
      if isWhiteSpace c1 then allWhiteSpace rest1
      else
        match rest1 with
        | EmptyString => false
        | String c2 rest2 =>
            if isWhiteSpace2 c1 c2 then allWhiteSpace rest2
            else
              match rest2 with
              | EmptyString => false
              | String c3 rest3 => isWhiteSpace3 c1 c2 c3 && allWhiteSpace rest3
              end
        end
  end.

(** [String.prototype.includes]. *)
Fixpoint includes (needle haystack : string) : bool :=
  prefix needle haystack ||
  match haystack with
  | EmptyString => false
  | String _ rest => includes needle rest
  end.

(** The double-quote character as a one-character string. *)
Definition dquote : string := String (ascii_of_nat 34) EmptyString.

(** The version given to [setLock("optimistic", version)]: a number or a
    [Date] (held as its [getTime()] value). *)
Inductive LockVersion : Type :=
| VersionNumber (n : Z)
| VersionDate (time : Z).

(** Errors a call can throw.  The named errors are the classes the source
    imports from [../error]; [TypeError] is the engine's error on a property
    access through [undefined]; [CollaboratorError] stands for whatever a
    collaborator (driver, cache, loader, transformer) throws. *)
Inductive Error : Type :=
| OptimisticLockCanNotBeUsedError
| PessimisticLockTransactionRequiredError
| NoVersionOrUpdateDateColumnError (entity : string)
| OptimisticLockVersionMismatchError (entity : string)
    (expected : LockVersion) (actual : JsValue)
| OffsetWithoutLimitNotSupportedError
| LockNotSupportedOnGivenDriverError
| EntityNotFoundError
| TypeORMError (message : string)
| TypeError (message : string)
| CollaboratorError (message : string).

(** The completion of a synchronous call: a returned value or a thrown
    error. *)
Inductive Completion (A : Type) : Type :=
| Return (value : A)
| Throw (error : Error).

Arguments Return {A} value.
Arguments Throw {A} error.

Definition bindC {A B : Type} (c : Completion A) (k : A -> Completion B)
  : Completion B :=
  match c with
  | Return a => k a
  | Throw e => Throw e
  end.

(** What a collaborator answers: a value, or a failure of its own.  A
    failure surfaces in the caller as a thrown [CollaboratorError]. *)
Inductive Reply (A : Type) : Type :=
| Replied (value : A)
| Failed (message : string).

Arguments Replied {A} value.
Arguments Failed {A} message.

Definition await {A : Type} (r : Reply A) : Completion A :=
  match r with
  | Replied a => Return a
  | Failed message => Throw (CollaboratorError message)
  end.

Declare Scope completion_scope.
Delimit Scope completion_scope with completion.
Notation "x <- c ;; k" := (bindC c (fun x => k))
  (at level 61, c at next level, right associativity) : completion_scope.

(* ===================================================================== *)
(** ** Data model *)
(* ===================================================================== *)

(** The driver families the source distinguishes with [instanceof]. *)
Inductive Driver : Type :=
| SqlServerDriver
| MysqlDriver
| AuroraDataApiDriver
| SapDriver
| AbstractSqliteDriver
| OracleDriver
| PostgresDriver
| CockroachDriver
| OtherDriver.

Inductive LockMode : Type :=
| optimistic
| pessimistic_read
| pessimistic_write
| dirty_read
| pessimistic_partial_write
| pessimistic_write_or_fail
| for_no_key_update.

Definition LockMode_eqb (a b : LockMode) : bool :=
  match a, b with
  | optimistic, optimistic
  | pessimistic_read, pessimistic_read
  | pessimistic_write, pessimistic_write
  | dirty_read, dirty_read
  | pessimistic_partial_write, pessimistic_partial_write
  | pessimistic_write_or_fail, pessimistic_write_or_fail
  | for_no_key_update, for_no_key_update => true
  | _, _ => false
  end.

(** [expressionMap.lockMode === mode] *)
Definition lockModeIs (slot : option LockMode) (mode : LockMode) : bool :=
  match slot with
  | Some m => LockMode_eqb m mode
  | None => false
  end.

(** Entities and raw rows are JavaScript objects. *)
Definition ObjectLiteral : Type := list (string * JsValue).

Fixpoint getProperty (o : ObjectLiteral) (key : string) : JsValue :=
  match o with
  | [] => JsUndefined
  | (k, v) :: rest => if String.eqb k key then v else getProperty rest key
  end.

(** [o[key] = v]: an existing key keeps its position. *)
Fixpoint setProperty {V : Type} (o : list (string * V)) (key : string) (v : V)
  : list (string * V) :=
  match o with
  | [] => [(key, v)]
  | (k, old) :: rest =>
      if String.eqb k key then (k, v) :: rest
      else (k, old) :: setProperty rest key v
  end.

Fixpoint lookupProperty {V : Type} (o : list (string * V)) (key : string)
  : option V :=
  match o with
  | [] => None
  | (k, v) :: rest => if String.eqb k key then Some v else lookupProperty rest key
  end.

(** [Object.assign(target, source)] *)
Definition assign {V : Type} (target source : list (string * V))
  : list (string * V) :=
  fold_left (fun acc kv => setProperty acc (fst kv) (snd kv)) source target.

Record ColumnMetadata : Type := {
  databaseName : string;
  propertyPath : string;
  (** [column.getEntityValue(entity)] *)
  getEntityValue : ObjectLiteral -> JsValue
}.

Record EntityMetadata : Type := {
  name : string;
  primaryColumns : list ColumnMetadata;
  hasMultiplePrimaryKeys : bool;
  versionColumn : option ColumnMetadata;
  updateDateColumn : option ColumnMetadata
}.

Inductive AliasType : Type := AliasFrom | AliasJoin | AliasOther.

(** An alias of the expression map.  Its target is an entity schema
    ([aliasMetadata]), a table path or a sub-query text. *)
Record Alias : Type := {
  aliasType : AliasType;
  aliasName : string;
  aliasMetadata : option EntityMetadata;
  tablePath : option string;
  aliasSubQuery : option string
}.

Definition hasMetadata (a : Alias) : bool :=
  match aliasMetadata a with Some _ => true | None => false end.

Record SelectQuery : Type := {
  selection : string;
  selectionAliasName : option string;
  virtual : option bool
}.

Inductive JoinDirection : Type := INNER | LEFT.

Record JoinAttribute : Type := {
  direction : JoinDirection;
  entityOrProperty : string;
  joinAliasName : string;
  condition : option string;
  mapToProperty : option string;
  isMappingMany : option bool
}.

(** Deferred relation-id and relation-count loads; only their number
    matters to the code modelled here. *)
Record RelationIdAttribute : Type := { relationIdMapToProperty : string }.
Record RelationCountAttribute : Type := { relationCountMapToProperty : string }.

(** The [type] of a condition entry: ["simple"], ["and"] or ["or"]. *)
Inductive ConditionType : Type := Simple | And | Or.

Record HavingClause : Type := {
  type : ConditionType;
  havingCondition : string
}.

Inductive OrderDirection : Type := ASC | DESC.
Inductive NullsOrder : Type := NULLS_FIRST | NULLS_LAST.

(** A value of an [OrderByCondition]: the string ["ASC"|"DESC"] or the
    object [{ order, nulls }]. *)
Inductive OrderByValue : Type :=
| OrderOnly (order : OrderDirection)
| OrderWithNulls (order : OrderDirection) (nulls : NullsOrder).

Definition OrderByCondition : Type := list (string * OrderByValue).

(* ===================================================================== *)
(** ** The query expression map *)
(* ===================================================================== *)

(** The fields of [QueryExpressionMap] read or written by the code modelled
    here, under the source's names.  The record lives in a module because
    the builder's methods [limit], [offset], [skip], [take] and [cache]
    share their names with the fields they set. *)
Module ExpressionMap.

Record t : Type := {
  mainAlias : option Alias;
  aliases : list Alias;
  selects : list SelectQuery;
  joinAttributes : list JoinAttribute;
  relationIdAttributes : list RelationIdAttribute;
  relationCountAttributes : list RelationCountAttribute;
  havings : list HavingClause;
  groupBys : list string;
  orderBys : OrderByCondition;
  limit : option Z;
  offset : option Z;
  skip : option Z;
  take : option Z;
  lockMode : option LockMode;
  lockVersion : option LockVersion;
  lockTables : option (list string);
  subQuery : bool;
  cache : bool;
  cacheId : option string;
  cacheDuration : option Z;
  useTransaction : bool;
  queryEntity : bool;
  callListeners : bool;
  options : list string;
  parameters : ObjectLiteral;
  nativeParameters : ObjectLiteral;
  extraAppendedAndWhereCondition : option string
}.

Definition set_mainAlias (v : option Alias) (m : t) : t :=
  {| mainAlias := v; aliases := aliases m; selects := selects m;
    joinAttributes := joinAttributes m;
    relationIdAttributes := relationIdAttributes m;
    relationCountAttributes := relationCountAttributes m;
    havings := havings m; groupBys := groupBys m; orderBys := orderBys m;
    limit := limit m; offset := offset m; skip := skip m; take := take m;
    lockMode := lockMode m; lockVersion := lockVersion m;
    lockTables := lockTables m; subQuery := subQuery m; cache := cache m;
    cacheId := cacheId m; cacheDuration := cacheDuration m;
    useTransaction := useTransaction m; queryEntity := queryEntity m;
    callListeners := callListeners m;
    options := options m; parameters := parameters m;
    nativeParameters := nativeParameters m;
    extraAppendedAndWhereCondition := extraAppendedAndWhereCondition m |}.

Definition set_aliases (v : list Alias) (m : t) : t :=
  {| mainAlias := mainAlias m; aliases := v; selects := selects m;
    joinAttributes := joinAttributes m;
    relationIdAttributes := relationIdAttributes m;
    relationCountAttributes := relationCountAttributes m;
    havings := havings m; groupBys := groupBys m; orderBys := orderBys m;
    limit := limit m; offset := offset m; skip := skip m; take := take m;
    lockMode := lockMode m; lockVersion := lockVersion m;
    lockTables := lockTables m; subQuery := subQuery m; cache := cache m;
    cacheId := cacheId m; cacheDuration := cacheDuration m;
    useTransaction := useTransaction m; queryEntity := queryEntity m;
    callListeners := callListeners m;
    options := options m; parameters := parameters m;
    nativeParameters := nativeParameters m;
    extraAppendedAndWhereCondition := extraAppendedAndWhereCondition m |}.

Definition set_selects (v : list SelectQuery) (m : t) : t :=
  {| mainAlias := mainAlias m; aliases := aliases m; selects := v;
    joinAttributes := joinAttributes m;
    relationIdAttributes := relationIdAttributes m;
    relationCountAttributes := relationCountAttributes m;
    havings := havings m; groupBys := groupBys m; orderBys := orderBys m;
    limit := limit m; offset := offset m; skip := skip m; take := take m;
    lockMode := lockMode m; lockVersion := lockVersion m;
    lockTables := lockTables m; subQuery := subQuery m; cache := cache m;
    cacheId := cacheId m; cacheDuration := cacheDuration m;
    useTransaction := useTransaction m; queryEntity := queryEntity m;
    callListeners := callListeners m;
    options := options m; parameters := parameters m;
    nativeParameters := nativeParameters m;
    extraAppendedAndWhereCondition := extraAppendedAndWhereCondition m |}.

Definition set_joinAttributes (v : list JoinAttribute) (m : t) : t :=
  {| mainAlias := mainAlias m; aliases := aliases m; selects := selects m;
    joinAttributes := v; relationIdAttributes := relationIdAttributes m;
    relationCountAttributes := relationCountAttributes m;
    havings := havings m; groupBys := groupBys m; orderBys := orderBys m;
    limit := limit m; offset := offset m; skip := skip m; take := take m;
    lockMode := lockMode m; lockVersion := lockVersion m;
    lockTables := lockTables m; subQuery := subQuery m; cache := cache m;
    cacheId := cacheId m; cacheDuration := cacheDuration m;
    useTransaction := useTransaction m; queryEntity := queryEntity m;
    callListeners := callListeners m;
    options := options m; parameters := parameters m;
    nativeParameters := nativeParameters m;
    extraAppendedAndWhereCondition := extraAppendedAndWhereCondition m |}.

Definition set_relationIdAttributes (v : list RelationIdAttribute) (m : t) : t :=
  {| mainAlias := mainAlias m; aliases := aliases m; selects := selects m;
    joinAttributes := joinAttributes m; relationIdAttributes := v;
    relationCountAttributes := relationCountAttributes m;
    havings := havings m; groupBys := groupBys m; orderBys := orderBys m;
    limit := limit m; offset := offset m; skip := skip m; take := take m;
    lockMode := lockMode m; lockVersion := lockVersion m;
    lockTables := lockTables m; subQuery := subQuery m; cache := cache m;
    cacheId := cacheId m; cacheDuration := cacheDuration m;
    useTransaction := useTransaction m; queryEntity := queryEntity m;
    callListeners := callListeners m;
    options := options m; parameters := parameters m;
    nativeParameters := nativeParameters m;
    extraAppendedAndWhereCondition := extraAppendedAndWhereCondition m |}.

Definition set_relationCountAttributes (v : list RelationCountAttribute) (m : t) : t :=
  {| mainAlias := mainAlias m; aliases := aliases m; selects := selects m;
    joinAttributes := joinAttributes m;
    relationIdAttributes := relationIdAttributes m;
    relationCountAttributes := v; havings := havings m;
    groupBys := groupBys m; orderBys := orderBys m; limit := limit m;
    offset := offset m; skip := skip m; take := take m;
    lockMode := lockMode m; lockVersion := lockVersion m;
    lockTables := lockTables m; subQuery := subQuery m; cache := cache m;
    cacheId := cacheId m; cacheDuration := cacheDuration m;
    useTransaction := useTransaction m; queryEntity := queryEntity m;
    callListeners := callListeners m;
    options := options m; parameters := parameters m;
    nativeParameters := nativeParameters m;
    extraAppendedAndWhereCondition := extraAppendedAndWhereCondition m |}.

Definition set_havings (v : list HavingClause) (m : t) : t :=
  {| mainAlias := mainAlias m; aliases := aliases m; selects := selects m;
    joinAttributes := joinAttributes m;
    relationIdAttributes := relationIdAttributes m;
    relationCountAttributes := relationCountAttributes m; havings := v;
    groupBys := groupBys m; orderBys := orderBys m; limit := limit m;
    offset := offset m; skip := skip m; take := take m;
    lockMode := lockMode m; lockVersion := lockVersion m;
    lockTables := lockTables m; subQuery := subQuery m; cache := cache m;
    cacheId := cacheId m; cacheDuration := cacheDuration m;
    useTransaction := useTransaction m; queryEntity := queryEntity m;
    callListeners := callListeners m;
    options := options m; parameters := parameters m;
    nativeParameters := nativeParameters m;
    extraAppendedAndWhereCondition := extraAppendedAndWhereCondition m |}.

Definition set_groupBys (v : list string) (m : t) : t :=
  {| mainAlias := mainAlias m; aliases := aliases m; selects := selects m;
    joinAttributes := joinAttributes m;
    relationIdAttributes := relationIdAttributes m;
    relationCountAttributes := relationCountAttributes m;
    havings := havings m; groupBys := v; orderBys := orderBys m;
    limit := limit m; offset := offset m; skip := skip m; take := take m;
    lockMode := lockMode m; lockVersion := lockVersion m;
    lockTables := lockTables m; subQuery := subQuery m; cache := cache m;
    cacheId := cacheId m; cacheDuration := cacheDuration m;
    useTransaction := useTransaction m; queryEntity := queryEntity m;
    callListeners := callListeners m;
    options := options m; parameters := parameters m;
    nativeParameters := nativeParameters m;
    extraAppendedAndWhereCondition := extraAppendedAndWhereCondition m |}.

Definition set_orderBys (v : OrderByCondition) (m : t) : t :=
  {| mainAlias := mainAlias m; aliases := aliases m; selects := selects m;
    joinAttributes := joinAttributes m;
    relationIdAttributes := relationIdAttributes m;
    relationCountAttributes := relationCountAttributes m;
    havings := havings m; groupBys := groupBys m; orderBys := v;
    limit := limit m; offset := offset m; skip := skip m; take := take m;
    lockMode := lockMode m; lockVersion := lockVersion m;
    lockTables := lockTables m; subQuery := subQuery m; cache := cache m;
    cacheId := cacheId m; cacheDuration := cacheDuration m;
    useTransaction := useTransaction m; queryEntity := queryEntity m;
    callListeners := callListeners m;
    options := options m; parameters := parameters m;
    nativeParameters := nativeParameters m;
    extraAppendedAndWhereCondition := extraAppendedAndWhereCondition m |}.

Definition set_limit (v : option Z) (m : t) : t :=
  {| mainAlias := mainAlias m; aliases := aliases m; selects := selects m;
    joinAttributes := joinAttributes m;
    relationIdAttributes := relationIdAttributes m;
    relationCountAttributes := relationCountAttributes m;
    havings := havings m; groupBys := groupBys m; orderBys := orderBys m;
    limit := v; offset := offset m; skip := skip m; take := take m;
    lockMode := lockMode m; lockVersion := lockVersion m;
    lockTables := lockTables m; subQuery := subQuery m; cache := cache m;
    cacheId := cacheId m; cacheDuration := cacheDuration m;
    useTransaction := useTransaction m; queryEntity := queryEntity m;
    callListeners := callListeners m;
    options := options m; parameters := parameters m;
    nativeParameters := nativeParameters m;
    extraAppendedAndWhereCondition := extraAppendedAndWhereCondition m |}.

Definition set_offset (v : option Z) (m : t) : t :=
  {| mainAlias := mainAlias m; aliases := aliases m; selects := selects m;
    joinAttributes := joinAttributes m;
    relationIdAttributes := relationIdAttributes m;
    relationCountAttributes := relationCountAttributes m;
    havings := havings m; groupBys := groupBys m; orderBys := orderBys m;
    limit := limit m; offset := v; skip := skip m; take := take m;
    lockMode := lockMode m; lockVersion := lockVersion m;
    lockTables := lockTables m; subQuery := subQuery m; cache := cache m;
    cacheId := cacheId m; cacheDuration := cacheDuration m;
    useTransaction := useTransaction m; queryEntity := queryEntity m;
    callListeners := callListeners m;
    options := options m; parameters := parameters m;
    nativeParameters := nativeParameters m;
    extraAppendedAndWhereCondition := extraAppendedAndWhereCondition m |}.

Definition set_skip (v : option Z) (m : t) : t :=
  {| mainAlias := mainAlias m; aliases := aliases m; selects := selects m;
    joinAttributes := joinAttributes m;
    relationIdAttributes := relationIdAttributes m;
    relationCountAttributes := relationCountAttributes m;
    havings := havings m; groupBys := groupBys m; orderBys := orderBys m;
    limit := limit m; offset := offset m; skip := v; take := take m;
    lockMode := lockMode m; lockVersion := lockVersion m;
    lockTables := lockTables m; subQuery := subQuery m; cache := cache m;
    cacheId := cacheId m; cacheDuration := cacheDuration m;
    useTransaction := useTransaction m; queryEntity := queryEntity m;
    callListeners := callListeners m;
    options := options m; parameters := parameters m;
    nativeParameters := nativeParameters m;
    extraAppendedAndWhereCondition := extraAppendedAndWhereCondition m |}.

Definition set_take (v : option Z) (m : t) : t :=
  {| mainAlias := mainAlias m; aliases := aliases m; selects := selects m;
    joinAttributes := joinAttributes m;
    relationIdAttributes := relationIdAttributes m;
    relationCountAttributes := relationCountAttributes m;
    havings := havings m; groupBys := groupBys m; orderBys := orderBys m;
    limit := limit m; offset := offset m; skip := skip m; take := v;
    lockMode := lockMode m; lockVersion := lockVersion m;
    lockTables := lockTables m; subQuery := subQuery m; cache := cache m;
    cacheId := cacheId m; cacheDuration := cacheDuration m;
    useTransaction := useTransaction m; queryEntity := queryEntity m;
    callListeners := callListeners m;
    options := options m; parameters := parameters m;
    nativeParameters := nativeParameters m;
    extraAppendedAndWhereCondition := extraAppendedAndWhereCondition m |}.

Definition set_lockMode (v : option LockMode) (m : t) : t :=
  {| mainAlias := mainAlias m; aliases := aliases m; selects := selects m;
    joinAttributes := joinAttributes m;
    relationIdAttributes := relationIdAttributes m;
    relationCountAttributes := relationCountAttributes m;
    havings := havings m; groupBys := groupBys m; orderBys := orderBys m;
    limit := limit m; offset := offset m; skip := skip m; take := take m;
    lockMode := v; lockVersion := lockVersion m;
    lockTables := lockTables m; subQuery := subQuery m; cache := cache m;
    cacheId := cacheId m; cacheDuration := cacheDuration m;
    useTransaction := useTransaction m; queryEntity := queryEntity m;
    callListeners := callListeners m;
    options := options m; parameters := parameters m;
    nativeParameters := nativeParameters m;
    extraAppendedAndWhereCondition := extraAppendedAndWhereCondition m |}.

Definition set_lockVersion (v : option LockVersion) (m : t) : t :=
  {| mainAlias := mainAlias m; aliases := aliases m; selects := selects m;
    joinAttributes := joinAttributes m;
    relationIdAttributes := relationIdAttributes m;
    relationCountAttributes := relationCountAttributes m;
    havings := havings m; groupBys := groupBys m; orderBys := orderBys m;
    limit := limit m; offset := offset m; skip := skip m; take := take m;
    lockMode := lockMode m; lockVersion := v; lockTables := lockTables m;
    subQuery := subQuery m; cache := cache m; cacheId := cacheId m;
    cacheDuration := cacheDuration m; useTransaction := useTransaction m;
    queryEntity := queryEntity m; callListeners := callListeners m; options := options m;
    parameters := parameters m; nativeParameters := nativeParameters m;
    extraAppendedAndWhereCondition := extraAppendedAndWhereCondition m |}.

Definition set_lockTables (v : option (list string)) (m : t) : t :=
  {| mainAlias := mainAlias m; aliases := aliases m; selects := selects m;
    joinAttributes := joinAttributes m;
    relationIdAttributes := relationIdAttributes m;
    relationCountAttributes := relationCountAttributes m;
    havings := havings m; groupBys := groupBys m; orderBys := orderBys m;
    limit := limit m; offset := offset m; skip := skip m; take := take m;
    lockMode := lockMode m; lockVersion := lockVersion m; lockTables := v;
    subQuery := subQuery m; cache := cache m; cacheId := cacheId m;
    cacheDuration := cacheDuration m; useTransaction := useTransaction m;
    queryEntity := queryEntity m; callListeners := callListeners m; options := options m;
    parameters := parameters m; nativeParameters := nativeParameters m;
    extraAppendedAndWhereCondition := extraAppendedAndWhereCondition m |}.

Definition set_subQuery (v : bool) (m : t) : t :=
  {| mainAlias := mainAlias m; aliases := aliases m; selects := selects m;
    joinAttributes := joinAttributes m;
    relationIdAttributes := relationIdAttributes m;
    relationCountAttributes := relationCountAttributes m;
    havings := havings m; groupBys := groupBys m; orderBys := orderBys m;
    limit := limit m; offset := offset m; skip := skip m; take := take m;
    lockMode := lockMode m; lockVersion := lockVersion m;
    lockTables := lockTables m; subQuery := v; cache := cache m;
    cacheId := cacheId m; cacheDuration := cacheDuration m;
    useTransaction := useTransaction m; queryEntity := queryEntity m;
    callListeners := callListeners m;
    options := options m; parameters := parameters m;
    nativeParameters := nativeParameters m;
    extraAppendedAndWhereCondition := extraAppendedAndWhereCondition m |}.

Definition set_cache (v : bool) (m : t) : t :=
  {| mainAlias := mainAlias m; aliases := aliases m; selects := selects m;
    joinAttributes := joinAttributes m;
    relationIdAttributes := relationIdAttributes m;
    relationCountAttributes := relationCountAttributes m;
    havings := havings m; groupBys := groupBys m; orderBys := orderBys m;
    limit := limit m; offset := offset m; skip := skip m; take := take m;
    lockMode := lockMode m; lockVersion := lockVersion m;
    lockTables := lockTables m; subQuery := subQuery m; cache := v;
    cacheId := cacheId m; cacheDuration := cacheDuration m;
    useTransaction := useTransaction m; queryEntity := queryEntity m;
    callListeners := callListeners m;
    options := options m; parameters := parameters m;
    nativeParameters := nativeParameters m;
    extraAppendedAndWhereCondition := extraAppendedAndWhereCondition m |}.

Definition set_cacheId (v : option string) (m : t) : t :=
  {| mainAlias := mainAlias m; aliases := aliases m; selects := selects m;
    joinAttributes := joinAttributes m;
    relationIdAttributes := relationIdAttributes m;
    relationCountAttributes := relationCountAttributes m;
    havings := havings m; groupBys := groupBys m; orderBys := orderBys m;
    limit := limit m; offset := offset m; skip := skip m; take := take m;
    lockMode := lockMode m; lockVersion := lockVersion m;
    lockTables := lockTables m; subQuery := subQuery m; cache := cache m;
    cacheId := v; cacheDuration := cacheDuration m;
    useTransaction := useTransaction m; queryEntity := queryEntity m;
    callListeners := callListeners m;
    options := options m; parameters := parameters m;
    nativeParameters := nativeParameters m;
    extraAppendedAndWhereCondition := extraAppendedAndWhereCondition m |}.

Definition set_cacheDuration (v : option Z) (m : t) : t :=
  {| mainAlias := mainAlias m; aliases := aliases m; selects := selects m;
    joinAttributes := joinAttributes m;
    relationIdAttributes := relationIdAttributes m;
    relationCountAttributes := relationCountAttributes m;
    havings := havings m; groupBys := groupBys m; orderBys := orderBys m;
    limit := limit m; offset := offset m; skip := skip m; take := take m;
    lockMode := lockMode m; lockVersion := lockVersion m;
    lockTables := lockTables m; subQuery := subQuery m; cache := cache m;
    cacheId := cacheId m; cacheDuration := v;
    useTransaction := useTransaction m; queryEntity := queryEntity m;
    callListeners := callListeners m;
    options := options m; parameters := parameters m;
    nativeParameters := nativeParameters m;
    extraAppendedAndWhereCondition := extraAppendedAndWhereCondition m |}.

Definition set_useTransaction (v : bool) (m : t) : t :=
  {| mainAlias := mainAlias m; aliases := aliases m; selects := selects m;
    joinAttributes := joinAttributes m;
    relationIdAttributes := relationIdAttributes m;
    relationCountAttributes := relationCountAttributes m;
    havings := havings m; groupBys := groupBys m; orderBys := orderBys m;
    limit := limit m; offset := offset m; skip := skip m; take := take m;
    lockMode := lockMode m; lockVersion := lockVersion m;
    lockTables := lockTables m; subQuery := subQuery m; cache := cache m;
    cacheId := cacheId m; cacheDuration := cacheDuration m;
    useTransaction := v; queryEntity := queryEntity m;
    callListeners := callListeners m;
    options := options m; parameters := parameters m;
    nativeParameters := nativeParameters m;
    extraAppendedAndWhereCondition := extraAppendedAndWhereCondition m |}.

Definition set_queryEntity (v : bool) (m : t) : t :=
  {| mainAlias := mainAlias m; aliases := aliases m; selects := selects m;
    joinAttributes := joinAttributes m;
    relationIdAttributes := relationIdAttributes m;
    relationCountAttributes := relationCountAttributes m;
    havings := havings m; groupBys := groupBys m; orderBys := orderBys m;
    limit := limit m; offset := offset m; skip := skip m; take := take m;
    lockMode := lockMode m; lockVersion := lockVersion m;
    lockTables := lockTables m; subQuery := subQuery m; cache := cache m;
    cacheId := cacheId m; cacheDuration := cacheDuration m;
    useTransaction := useTransaction m; queryEntity := v;
    callListeners := callListeners m;
    options := options m; parameters := parameters m;
    nativeParameters := nativeParameters m;
    extraAppendedAndWhereCondition := extraAppendedAndWhereCondition m |}.

Definition set_options (v : list string) (m : t) : t :=
  {| mainAlias := mainAlias m; aliases := aliases m; selects := selects m;
    joinAttributes := joinAttributes m;
    relationIdAttributes := relationIdAttributes m;
    relationCountAttributes := relationCountAttributes m;
    havings := havings m; groupBys := groupBys m; orderBys := orderBys m;
    limit := limit m; offset := offset m; skip := skip m; take := take m;
    lockMode := lockMode m; lockVersion := lockVersion m;
    lockTables := lockTables m; subQuery := subQuery m; cache := cache m;
    cacheId := cacheId m; cacheDuration := cacheDuration m;
    useTransaction := useTransaction m; queryEntity := queryEntity m;
    callListeners := callListeners m;
    options := v; parameters := parameters m;
    nativeParameters := nativeParameters m;
    extraAppendedAndWhereCondition := extraAppendedAndWhereCondition m |}.

Definition set_parameters (v : ObjectLiteral) (m : t) : t :=
  {| mainAlias := mainAlias m; aliases := aliases m; selects := selects m;
    joinAttributes := joinAttributes m;
    relationIdAttributes := relationIdAttributes m;
    relationCountAttributes := relationCountAttributes m;
    havings := havings m; groupBys := groupBys m; orderBys := orderBys m;
    limit := limit m; offset := offset m; skip := skip m; take := take m;
    lockMode := lockMode m; lockVersion := lockVersion m;
    lockTables := lockTables m; subQuery := subQuery m; cache := cache m;
    cacheId := cacheId m; cacheDuration := cacheDuration m;
    useTransaction := useTransaction m; queryEntity := queryEntity m;
    callListeners := callListeners m;
    options := options m; parameters := v;
    nativeParameters := nativeParameters m;
    extraAppendedAndWhereCondition := extraAppendedAndWhereCondition m |}.

Definition set_nativeParameters (v : ObjectLiteral) (m : t) : t :=
  {| mainAlias := mainAlias m; aliases := aliases m; selects := selects m;
    joinAttributes := joinAttributes m;
    relationIdAttributes := relationIdAttributes m;
    relationCountAttributes := relationCountAttributes m;
    havings := havings m; groupBys := groupBys m; orderBys := orderBys m;
    limit := limit m; offset := offset m; skip := skip m; take := take m;
    lockMode := lockMode m; lockVersion := lockVersion m;
    lockTables := lockTables m; subQuery := subQuery m; cache := cache m;
    cacheId := cacheId m; cacheDuration := cacheDuration m;
    useTransaction := useTransaction m; queryEntity := queryEntity m;
    callListeners := callListeners m;
    options := options m; parameters := parameters m;
    nativeParameters := v;
    extraAppendedAndWhereCondition := extraAppendedAndWhereCondition m |}.

Definition set_extraAppendedAndWhereCondition (v : option string) (m : t) : t :=
  {| mainAlias := mainAlias m; aliases := aliases m; selects := selects m;
    joinAttributes := joinAttributes m;
    relationIdAttributes := relationIdAttributes m;
    relationCountAttributes := relationCountAttributes m;
    havings := havings m; groupBys := groupBys m; orderBys := orderBys m;
    limit := limit m; offset := offset m; skip := skip m; take := take m;
    lockMode := lockMode m; lockVersion := lockVersion m;
    lockTables := lockTables m; subQuery := subQuery m; cache := cache m;
    cacheId := cacheId m; cacheDuration := cacheDuration m;
    useTransaction := useTransaction m; queryEntity := queryEntity m;
    callListeners := callListeners m;
    options := options m; parameters := parameters m;
    nativeParameters := nativeParameters m;
    extraAppendedAndWhereCondition := v |}.

End ExpressionMap.

Definition QueryExpressionMap : Type := ExpressionMap.t.

(* ===================================================================== *)
(** ** Connection, builder and collaborators *)
(* ===================================================================== *)

(** [connection.options.cache] when it is an object. *)
Record CacheOptions : Type := {
  alwaysEnabled : bool;
  ignoreErrors : bool;
  optionsDuration : option Z
}.

(** The empty object used when [connection.options.cache] is not an
    object. *)
Definition noCacheOptions : CacheOptions :=
  {| alwaysEnabled := false; ignoreErrors := false; optionsDuration := None |}.

Record Connection : Type := {
  driver : Driver;
  (** [Some o] when [typeof connection.options.cache === "object"]. *)
  optionsCache : option CacheOptions;
  (** whether [connection.queryResultCache] is defined *)
  queryResultCache : bool
}.

(** A query runner is known by its identity. *)
Definition QueryRunner : Type := nat.

Record SelectQueryBuilder : Type := {
  connection : Connection;
  queryRunner : option QueryRunner;
  expressionMap : QueryExpressionMap
}.

Definition withExpressionMap (qb : SelectQueryBuilder) (m : QueryExpressionMap)
  : SelectQueryBuilder :=
  {| connection := connection qb; queryRunner := queryRunner qb;
     expressionMap := m |}.

(** What the modelled code calls and this file does not define: methods
    inherited from the [QueryBuilder] base class, getters of
    [QueryExpressionMap] and [EntityMetadata], [DriverUtils], the two
    metadata transformers, and the SELECT and JOIN compilers, whose text is
    determined by the entity metadata and relation descriptors of the schema
    provider. *)
Record Collaborators : Type := {
  (** [this.createComment()] *)
  createComment : SelectQueryBuilder -> Reply string;
  (** [this.createWhereExpression()] *)
  createWhereExpression : SelectQueryBuilder -> Reply string;
  (** the body of [createSelectExpression] once the main alias is known *)
  selectFromClause : SelectQueryBuilder -> Alias -> Reply string;
  (** [this.createJoinExpression()] *)
  createJoinExpression : SelectQueryBuilder -> Reply string;
  (** [this.escape(name)] *)
  escape : SelectQueryBuilder -> string -> string;
  (** [this.replacePropertyNames(statement)] *)
  replacePropertyNames : SelectQueryBuilder -> string -> string;
  (** [this.getParameters()] *)
  getParameters : SelectQueryBuilder -> ObjectLiteral;
  (** [driver.escapeQueryWithParameters(sql, parameters, nativeParameters)] *)
  escapeQueryWithParameters :
    Driver -> string -> ObjectLiteral -> ObjectLiteral ->
    Reply (string * list JsValue);
  (** [DriverUtils.buildAlias(driver, alias, column)] *)
  buildAlias : Driver -> string -> string -> string;
  (** the getter [expressionMap.allOrderBys], from what it reads: the
      explicit [orderBys], the main alias (whose entity may declare a
      default ordering) and the options (["disable-global-order"]).  With
      [orderBys] empty the getter reads [mainAlias!.hasMetadata], which fails
      with a [TypeError] on a builder without a main alias: that state is
      outside this function, and the facts that read the getter on its own
      assume a main alias ([getQuery] throws on an unset main alias before
      any clause reads the ordering) *)
  allOrderBys :
    OrderByCondition -> option Alias -> list string -> OrderByCondition;
  (** [metadata.findColumnWithPropertyPath(path)] *)
  findColumnWithPropertyPath : EntityMetadata -> string -> option ColumnMetadata;
  (** the attributes that
      [new RelationIdMetadataToAttributeTransformer(map).transform()] pushes
      on [map.relationIdAttributes] *)
  relationIdMetadataToAttributes :
    QueryExpressionMap -> Reply (list RelationIdAttribute);
  (** the attributes that
      [new RelationCountMetadataToAttributeTransformer(map).transform()]
      pushes on [map.relationCountAttributes] *)
  relationCountMetadataToAttributes :
    QueryExpressionMap -> Reply (list RelationCountAttribute);
  (** [JSON.stringify(value)] *)
  JSON_stringify : JsValue -> string;
  (** [parseInt(value)]; [None] is [NaN] *)
  parseInt : JsValue -> option Z
}.

(** [expressionMap.allOrderBys] *)
Definition allOrderBysOf (C : Collaborators) (m : QueryExpressionMap)
  : OrderByCondition :=
  allOrderBys C (ExpressionMap.orderBys m) (ExpressionMap.mainAlias m)
    (ExpressionMap.options m).

(** Modelled from the spec: the [metadata] getter of [Alias]
    (query-builder/Alias.ts is not part of the file).  An alias targets an
    entity schema, a table path or a sub-query; reading the metadata of an
    alias that has no entity schema fails. *)
Definition Alias_metadata (a : Alias) : Completion EntityMetadata :=
  match aliasMetadata a with
  | Some metadata => Return metadata
  | None =>
      Throw (TypeORMError
               ("Cannot get entity metadata for the given alias " ++ aliasName a))
  end.

(** Modelled from the spec: [setParameters] of the base class; the given
    parameters are merged into the builder's parameter set. *)
Definition setParameters (params : ObjectLiteral) (qb : SelectQueryBuilder)
  : SelectQueryBuilder :=
  withExpressionMap qb
    (ExpressionMap.set_parameters
       (assign (ExpressionMap.parameters (expressionMap qb)) params)
       (expressionMap qb)).

Definition setOptionalParameters (params : option ObjectLiteral)
    (qb : SelectQueryBuilder) : SelectQueryBuilder :=
  match params with
  | Some p => setParameters p qb
  | None => qb
  end.

(* ===================================================================== *)
(** ** Clause compilers *)
(* ===================================================================== *)

(** [" LIMIT " + limit] on a numeric slot. *)
Definition render (slot : option Z) : string :=
  match slot with
  | Some n => Number_toString n
  | None => "undefined"
  end.

Fixpoint mapWithIndex {A B : Type} (f : A -> nat -> B) (index : nat)
    (l : list A) : list B :=
  match l with
  | [] => []
  | x :: rest => f x index :: mapWithIndex f (S index) rest
  end.

Definition OrderDirection_toString (o : OrderDirection) : string :=
  match o with ASC => "ASC" | DESC => "DESC" end.

Definition NullsOrder_toString (n : NullsOrder) : string :=
  match n with NULLS_FIRST => "NULLS FIRST" | NULLS_LAST => "NULLS LAST" end.

Definition JoinDirection_toString (d : JoinDirection) : string :=
  match d with INNER => "INNER" | LEFT => "LEFT" end.

Section Compiler.

Variable C : Collaborators.

Local Open Scope completion_scope.

(** [createSelectExpression]: the guard on the main alias, then the
    metadata-driven selection and FROM list. *)
Definition createSelectExpression (qb : SelectQueryBuilder) : Completion string :=
  match ExpressionMap.mainAlias (expressionMap qb) with
  | None =>
      Throw (TypeORMError
        "Cannot build query because main alias is not set (call qb#from method)")
  | Some a => await (selectFromClause C qb a)
  end.

Definition createGroupByExpression (qb : SelectQueryBuilder) : string :=
  match ExpressionMap.groupBys (expressionMap qb) with
  | [] => ""
  | groupBys => " GROUP BY " ++ replacePropertyNames C qb (join ", " groupBys)
  end.

Definition createOrderByExpression (qb : SelectQueryBuilder) : string :=
  let orderBys := allOrderBysOf C (expressionMap qb) in
  if Nat.ltb 0 (length orderBys) then
    " ORDER BY " ++
    join ", "
      (map (fun entry : string * OrderByValue =>
              let (columnName, value) := entry in
              match value with
              | OrderOnly order =>
                  replacePropertyNames C qb columnName ++ " " ++
                  OrderDirection_toString order
              | OrderWithNulls order nulls =>
                  replacePropertyNames C qb columnName ++ " " ++
                  OrderDirection_toString order ++ " " ++
                  NullsOrder_toString nulls
              end)
         orderBys)
  else "".

Definition createLimitOffsetExpression (qb : SelectQueryBuilder)
  : Completion string :=
  let m := expressionMap qb in
  let fallback :=
    negb (truthy (ExpressionMap.offset m)) &&
    negb (truthy (ExpressionMap.limit m)) &&
    Nat.eqb (length (ExpressionMap.joinAttributes m)) 0 in
  let offset := if fallback then ExpressionMap.skip m else ExpressionMap.offset m in
  let limit := if fallback then ExpressionMap.take m else ExpressionMap.limit m in
  match driver (connection qb) with
  | SqlServerDriver =>
      let prefix :=
        if (truthy limit || truthy offset) &&
           Nat.leb (length (allOrderBysOf C m)) 0
        then " ORDER BY (SELECT NULL)" else "" in
      if truthy limit && truthy offset then
        Return (prefix ++ " OFFSET " ++ render offset ++ " ROWS FETCH NEXT " ++
                render limit ++ " ROWS ONLY")
      else if truthy limit then
        Return (prefix ++ " OFFSET 0 ROWS FETCH NEXT " ++ render limit ++
                " ROWS ONLY")
      else if truthy offset then
        Return (prefix ++ " OFFSET " ++ render offset ++ " ROWS")
      else Return ""
  | MysqlDriver | AuroraDataApiDriver | SapDriver =>
      if truthy limit && truthy offset then
        Return (" LIMIT " ++ render limit ++ " OFFSET " ++ render offset)
      else if truthy limit then
        Return (" LIMIT " ++ render limit)
      else if truthy offset then
        Throw OffsetWithoutLimitNotSupportedError
      else Return ""
  | AbstractSqliteDriver =>
      if truthy limit && truthy offset then
        Return (" LIMIT " ++ render limit ++ " OFFSET " ++ render offset)
      else if truthy limit then
        Return (" LIMIT " ++ render limit)
      else if truthy offset then
        Return (" LIMIT -1 OFFSET " ++ render offset)
      else Return ""
  | OracleDriver =>
      if truthy limit && truthy offset then
        Return (" OFFSET " ++ render offset ++ " ROWS FETCH NEXT " ++
                render limit ++ " ROWS ONLY")
      else if truthy limit then
        Return (" FETCH NEXT " ++ render limit ++ " ROWS ONLY")
      else if truthy offset then
        Return (" OFFSET " ++ render offset ++ " ROWS")
      else Return ""
  | PostgresDriver | CockroachDriver | OtherDriver =>
      if truthy limit && truthy offset then
        Return (" LIMIT " ++ render limit ++ " OFFSET " ++ render offset)
      else if truthy limit then
        Return (" LIMIT " ++ render limit)
      else if truthy offset then
        Return (" OFFSET " ++ render offset)
      else Return ""
  end.

Definition createLockExpression (qb : SelectQueryBuilder) : Completion string :=
  let driver := driver (connection qb) in
  lockTablesClause <-
    match ExpressionMap.lockTables (expressionMap qb) with
    | Some lockTables =>
        match driver with
        | PostgresDriver =>
            if Nat.ltb (length lockTables) 1 then
              Throw (TypeORMError "lockTables cannot be an empty array")
            else Return (" OF " ++ join ", " lockTables)
        | _ => Throw (TypeORMError "Lock tables not supported in selected driver")
        end
    | None => Return ""
    end;;
  match ExpressionMap.lockMode (expressionMap qb) with
  | Some pessimistic_read =>
      match driver with
      | MysqlDriver | AuroraDataApiDriver => Return " LOCK IN SHARE MODE"
      | PostgresDriver => Return (" FOR SHARE" ++ lockTablesClause)
      | OracleDriver => Return " FOR UPDATE"
      | SqlServerDriver => Return ""
      | _ => Throw LockNotSupportedOnGivenDriverError
      end
  | Some pessimistic_write =>
      match driver with
      | MysqlDriver | AuroraDataApiDriver | OracleDriver => Return " FOR UPDATE"
      | PostgresDriver => Return (" FOR UPDATE" ++ lockTablesClause)
      | SqlServerDriver => Return ""
      | _ => Throw LockNotSupportedOnGivenDriverError
      end
  | Some pessimistic_partial_write =>
      match driver with
      | PostgresDriver =>
          Return (" FOR UPDATE" ++ lockTablesClause ++ " SKIP LOCKED")
      | MysqlDriver => Return " FOR UPDATE SKIP LOCKED"
      | _ => Throw LockNotSupportedOnGivenDriverError
      end
  | Some pessimistic_write_or_fail =>
      match driver with
      | PostgresDriver => Return (" FOR UPDATE" ++ lockTablesClause ++ " NOWAIT")
      | MysqlDriver => Return " FOR UPDATE NOWAIT"
      | _ => Throw LockNotSupportedOnGivenDriverError
      end
  | Some for_no_key_update =>
      match driver with
      | PostgresDriver => Return (" FOR NO KEY UPDATE" ++ lockTablesClause)
      | _ => Throw LockNotSupportedOnGivenDriverError
      end
  | _ => Return ""
  end.

Definition createHavingExpression (qb : SelectQueryBuilder) : string :=
  match ExpressionMap.havings (expressionMap qb) with
  | [] => ""
  | havings =>
      let conditions :=
        join " "
          (mapWithIndex
             (fun having index =>
                match type having with
                | And =>
                    (if Nat.ltb 0 index then "AND " else "") ++
                    replacePropertyNames C qb (havingCondition having)
                | Or =>
                    (if Nat.ltb 0 index then "OR " else "") ++
                    replacePropertyNames C qb (havingCondition having)
                | Simple => replacePropertyNames C qb (havingCondition having)
                end)
             0%nat havings) in
      if Nat.eqb (String.length conditions) 0 then ""
      else " HAVING " ++ conditions
  end.

(** [getQuery]: the clause fragments appended in the order of the source,
    trimmed, and parenthesised for a sub-query. *)
Definition getQuery (qb : SelectQueryBuilder) : Completion string :=
  sql <- await (createComment C qb);;
  fragment <- createSelectExpression qb;;
  let sql := sql ++ fragment in
  fragment <- await (createJoinExpression C qb);;
  let sql := sql ++ fragment in
  fragment <- await (createWhereExpression C qb);;
  let sql := sql ++ fragment in
  let sql := sql ++ createGroupByExpression qb in
  let sql := sql ++ createHavingExpression qb in
  let sql := sql ++ createOrderByExpression qb in
  fragment <- createLimitOffsetExpression qb;;
  let sql := sql ++ fragment in
  fragment <- createLockExpression qb;;
  let sql := sql ++ fragment in
  let sql := trim sql in
  Return (if ExpressionMap.subQuery (expressionMap qb)
          then "(" ++ sql ++ ")" else sql).

End Compiler.

(* ===================================================================== *)
(** ** Builder methods that edit the expression map *)
(* ===================================================================== *)

Definition updateExpressionMap (f : QueryExpressionMap -> QueryExpressionMap)
    (qb : SelectQueryBuilder) : SelectQueryBuilder :=
  withExpressionMap qb (f (expressionMap qb)).

(** [select(selection: string, selectionAliasName?)] *)
Definition select (selection : string) (selectionAliasName : option string)
    (qb : SelectQueryBuilder) : SelectQueryBuilder :=
  match selection with
  | EmptyString => qb
  | _ =>
      updateExpressionMap
        (ExpressionMap.set_selects
           [{| selection := selection;
               selectionAliasName := selectionAliasName;
               virtual := None |}]) qb
  end.

(** [addSelect(selection: string, selectionAliasName?)] *)
Definition addSelect (selection : string) (selectionAliasName : option string)
    (qb : SelectQueryBuilder) : SelectQueryBuilder :=
  match selection with
  | EmptyString => qb
  | _ =>
      updateExpressionMap
        (fun m =>
           ExpressionMap.set_selects
             (ExpressionMap.selects m ++
              [{| selection := selection;
                  selectionAliasName := selectionAliasName;
                  virtual := None |}]) m) qb
  end.

(** [str.substr(0, 1) === "(" && str.substr(-1) === ")"] *)
Definition isParenthesised (s : string) : bool :=
  prefix "(" s &&
  match get (Nat.pred (String.length s)) s with
  | Some c => Ascii.eqb c ")"%char
  | None => false
  end.

(** Modelled from the spec: [from(target, aliasName)] for a target given as
    text.  [createFromAlias] and [setMainAlias] belong to the base class and
    the expression map: the alias registry records the backing target (a
    table path or a literal sub-query text), appends the alias to the
    ordered alias sequence and makes it the main alias. *)
Definition from (entityTarget : string) (aliasName : string)
    (qb : SelectQueryBuilder) : SelectQueryBuilder :=
  let isSubquery := isParenthesised entityTarget in
  let alias :=
    {| aliasType := AliasFrom;
       aliasName := aliasName;
       aliasMetadata := None;
       tablePath := if isSubquery then None else Some entityTarget;
       aliasSubQuery := if isSubquery then Some entityTarget else None |} in
  updateExpressionMap
    (fun m =>
       ExpressionMap.set_mainAlias (Some alias)
         (ExpressionMap.set_aliases (ExpressionMap.aliases m ++ [alias]) m)) qb.

(** [having(having, parameters?)] *)
Definition having (having : string) (parameters : option ObjectLiteral)
    (qb : SelectQueryBuilder) : SelectQueryBuilder :=
  setOptionalParameters parameters
    (updateExpressionMap
       (fun m =>
          ExpressionMap.set_havings
            (ExpressionMap.havings m ++
             [{| type := Simple; havingCondition := having |}]) m) qb).

(** [andHaving(having, parameters?)] *)
Definition andHaving (having : string) (parameters : option ObjectLiteral)
    (qb : SelectQueryBuilder) : SelectQueryBuilder :=
  setOptionalParameters parameters
    (updateExpressionMap
       (fun m =>
          ExpressionMap.set_havings
            (ExpressionMap.havings m ++
             [{| type := And; havingCondition := having |}]) m) qb).

(** [orHaving(having, parameters?)] *)
Definition orHaving (having : string) (parameters : option ObjectLiteral)
    (qb : SelectQueryBuilder) : SelectQueryBuilder :=
  setOptionalParameters parameters
    (updateExpressionMap
       (fun m =>
          ExpressionMap.set_havings
            (ExpressionMap.havings m ++
             [{| type := Or; havingCondition := having |}]) m) qb).

(** [groupBy(groupBy?)] *)
Definition groupBy (groupBy : option string) (qb : SelectQueryBuilder)
  : SelectQueryBuilder :=
  match groupBy with
  | Some (String c rest) =>
      updateExpressionMap (ExpressionMap.set_groupBys [String c rest]) qb
  | _ => updateExpressionMap (ExpressionMap.set_groupBys []) qb
  end.

(** The argument forms of [orderBy]. *)
Inductive OrderByArgument : Type :=
| OrderByNothing
| OrderBySort (sort : string) (order : OrderDirection) (nulls : option NullsOrder)
| OrderByObject (order : OrderByCondition).

(** [orderBy(sort?, order = "ASC", nulls?)].  The checks on [order] and
    [nulls] cannot fail on the typed arguments. *)
Definition orderBy (argument : OrderByArgument) (qb : SelectQueryBuilder)
  : SelectQueryBuilder :=
  match argument with
  | OrderByObject sort => updateExpressionMap (ExpressionMap.set_orderBys sort) qb
  | OrderBySort (String c rest) order (Some nulls) =>
      updateExpressionMap
        (ExpressionMap.set_orderBys
           [(String c rest, OrderWithNulls order nulls)]) qb
  | OrderBySort (String c rest) order None =>
      updateExpressionMap
        (ExpressionMap.set_orderBys [(String c rest, OrderOnly order)]) qb
  | _ => updateExpressionMap (ExpressionMap.set_orderBys []) qb
  end.


(** [limit(limit?)]: [normalizeNumber] is the identity on a number or
    [undefined], and the not-a-number check cannot fail on an integer. *)
Definition limit (limit : option Z) (qb : SelectQueryBuilder) : SelectQueryBuilder :=
  updateExpressionMap (ExpressionMap.set_limit limit) qb.

(** [offset(offset?)] *)
Definition offset (offset : option Z) (qb : SelectQueryBuilder)
  : SelectQueryBuilder :=
  updateExpressionMap (ExpressionMap.set_offset offset) qb.

(** [take(take?)] *)
Definition take (take : option Z) (qb : SelectQueryBuilder) : SelectQueryBuilder :=
  updateExpressionMap (ExpressionMap.set_take take) qb.

(** [skip(skip?)] *)
Definition skip (skip : option Z) (qb : SelectQueryBuilder) : SelectQueryBuilder :=
  updateExpressionMap (ExpressionMap.set_skip skip) qb.

(** [setLock(lockMode, lockVersion?, lockTables?)] *)
Definition setLock (lockMode : LockMode) (lockVersion : option LockVersion)
    (lockTables : option (list string)) (qb : SelectQueryBuilder)
  : SelectQueryBuilder :=
  updateExpressionMap
    (fun m =>
       ExpressionMap.set_lockTables lockTables
         (ExpressionMap.set_lockVersion lockVersion
            (ExpressionMap.set_lockMode (Some lockMode) m))) qb.

(** The first argument of [cache]. *)
Inductive CacheArgument : Type :=
| CacheEnabled (enabled : bool)
| CacheMilliseconds (milliseconds : Z)
| CacheId (id : string)
| CacheUndefined.

(** [cache(enabledOrMillisecondsOrId, maybeMilliseconds?)] *)
Definition cache (enabledOrMillisecondsOrId : CacheArgument)
    (maybeMilliseconds : option Z) (qb : SelectQueryBuilder)
  : SelectQueryBuilder :=
  let qb :=
    match enabledOrMillisecondsOrId with
    | CacheEnabled enabled =>
        updateExpressionMap (ExpressionMap.set_cache enabled) qb
    | CacheMilliseconds milliseconds =>
        updateExpressionMap
          (fun m =>
             ExpressionMap.set_cacheDuration (Some milliseconds)
               (ExpressionMap.set_cache true m)) qb
    | CacheId id =>
        updateExpressionMap
          (fun m =>
             ExpressionMap.set_cacheId (Some id) (ExpressionMap.set_cache true m))
          qb
    | CacheUndefined => qb
    end in
  if truthy maybeMilliseconds
  then updateExpressionMap (ExpressionMap.set_cacheDuration maybeMilliseconds) qb
  else qb.

(** [setOption(option)] *)
Definition setOption (option : string) (qb : SelectQueryBuilder)
  : SelectQueryBuilder :=
  updateExpressionMap
    (fun m => ExpressionMap.set_options (ExpressionMap.options m ++ [option]) m) qb.

(** Modelled from the spec: [setNativeParameters] of the base class. *)
Definition setNativeParameters (params : ObjectLiteral) (qb : SelectQueryBuilder)
  : SelectQueryBuilder :=
  updateExpressionMap
    (fun m =>
       ExpressionMap.set_nativeParameters
         (assign (ExpressionMap.nativeParameters m) params) m) qb.

(** [mergeExpressionMap({ extraAppendedAndWhereCondition: condition })] *)
Definition mergeExtraAppendedAndWhereCondition (condition : string)
    (qb : SelectQueryBuilder) : SelectQueryBuilder :=
  updateExpressionMap
    (ExpressionMap.set_extraAppendedAndWhereCondition (Some condition)) qb.

(** [clone()]: a builder over a copy of the expression map.  Records are
    values, so the copy is the builder itself. *)
Definition clone (qb : SelectQueryBuilder) : SelectQueryBuilder := qb.

(** Modelled from the spec: the expression map of a fresh builder
    ([new QueryExpressionMap(connection)] is not part of the file): no
    alias, empty ordered collections, nothing requested. *)
Definition newExpressionMap : QueryExpressionMap :=
  {| ExpressionMap.mainAlias := None;
     ExpressionMap.aliases := [];
     ExpressionMap.selects := [];
     ExpressionMap.joinAttributes := [];
     ExpressionMap.relationIdAttributes := [];
     ExpressionMap.relationCountAttributes := [];
     ExpressionMap.havings := [];
     ExpressionMap.groupBys := [];
     ExpressionMap.orderBys := [];
     ExpressionMap.limit := None;
     ExpressionMap.offset := None;
     ExpressionMap.skip := None;
     ExpressionMap.take := None;
     ExpressionMap.lockMode := None;
     ExpressionMap.lockVersion := None;
     ExpressionMap.lockTables := None;
     ExpressionMap.subQuery := false;
     ExpressionMap.cache := false;
     ExpressionMap.cacheId := None;
     ExpressionMap.cacheDuration := None;
     ExpressionMap.useTransaction := false;
     ExpressionMap.queryEntity := false;
     ExpressionMap.callListeners := true;
     ExpressionMap.options := [];
     ExpressionMap.parameters := [];
     ExpressionMap.nativeParameters := [];
     ExpressionMap.extraAppendedAndWhereCondition := None |}.

(** [new SelectQueryBuilder(connection, queryRunner)] *)
Definition newSelectQueryBuilder (connection : Connection)
    (queryRunner : QueryRunner) : SelectQueryBuilder :=
  {| connection := connection;
     queryRunner := Some queryRunner;
     expressionMap := newExpressionMap |}.

(* ===================================================================== *)
(** ** The head of the SELECT clause *)
(* ===================================================================== *)

(** The three properties of the expression map that
    [createSelectDistinctExpression] destructures:
    [const {selectDistinct, selectDistinctOn, maxExecutionTime} = this.expressionMap].
    A fresh expression map holds [false], [[]] and [0]. *)
Module SelectHead.

Record t : Type := {
  selectDistinct : bool;
  selectDistinctOn : list string;
  maxExecutionTime : Z
}.

End SelectHead.

(** [maxExecutionTime(milliseconds)] *)
Definition maxExecutionTime (milliseconds : Z) (head : SelectHead.t)
  : SelectHead.t :=
  {| SelectHead.selectDistinct := SelectHead.selectDistinct head;
     SelectHead.selectDistinctOn := SelectHead.selectDistinctOn head;
     SelectHead.maxExecutionTime := milliseconds |}.

(** [distinct(distinct = true)] *)
Definition distinct (distinct : option bool) (head : SelectHead.t)
  : SelectHead.t :=
  {| SelectHead.selectDistinct :=
       match distinct with Some b => b | None => true end;
     SelectHead.selectDistinctOn := SelectHead.selectDistinctOn head;
     SelectHead.maxExecutionTime := SelectHead.maxExecutionTime head |}.

(** [distinctOn(distinctOn)] *)
Definition distinctOn (distinctOn : list string) (head : SelectHead.t)
  : SelectHead.t :=
  {| SelectHead.selectDistinct := SelectHead.selectDistinct head;
     SelectHead.selectDistinctOn := distinctOn;
     SelectHead.maxExecutionTime := SelectHead.maxExecutionTime head |}.

(** [createSelectDistinctExpression()], on the builder and the three
    properties it reads. *)
Definition createSelectDistinctExpression (C : Collaborators)
    (qb : SelectQueryBuilder) (head : SelectHead.t) : string :=
  let select := "SELECT " in
  let select :=
    if 0 <? SelectHead.maxExecutionTime head then
      match driver (connection qb) with
      | MysqlDriver =>
          select ++ "/*+ MAX_EXECUTION_TIME(" ++
          Number_toString (SelectHead.maxExecutionTime head) ++ ") */ "
      | _ => select
      end
    else select in
  if match driver (connection qb) with PostgresDriver => true | _ => false end &&
     Nat.ltb 0 (length (SelectHead.selectDistinctOn head))
  then
    "SELECT DISTINCT ON (" ++
    join ", " (map (replacePropertyNames C qb) (SelectHead.selectDistinctOn head)) ++
    ") "
  else if SelectHead.selectDistinct head then "SELECT DISTINCT "
  else select.

(* ===================================================================== *)
(** ** Count expression and the ordering of the distinct-id query *)
(* ===================================================================== *)

Fixpoint mapC {A B : Type} (f : A -> Completion B) (l : list A)
  : Completion (list B) :=
  match l with
  | [] => Return []
  | x :: rest =>
      bindC (f x) (fun y => bindC (mapC f rest) (fun ys => Return (y :: ys)))
  end.

(** [s.indexOf(".") !== -1], with the text before and after the first dot:
    [s.split(".")[0]] and [s.split(".").slice(1).join(".")]. *)
Fixpoint splitAtDot (s : string) : option (string * string) :=
  match s with
  | EmptyString => None
  | String c rest =>
      if Ascii.eqb c "."%char then Some (EmptyString, rest)
      else
        match splitAtDot rest with
        | Some (before, after) => Some (String c before, after)
        | None => None
        end
  end.

(** Modelled from the spec: [expressionMap.findAliasByName(name)]
    ([QueryExpressionMap] is not part of the file): the lookup fails when
    no alias has the name. *)
Definition findAliasByName (m : QueryExpressionMap) (aliasName' : string)
  : Completion Alias :=
  match find (fun a => String.eqb (aliasName a) aliasName')
             (ExpressionMap.aliases m) with
  | Some a => Return a
  | None =>
      Throw (TypeORMError
               (dquote ++ aliasName' ++ dquote ++
                " alias was not found. Maybe you forgot to join it?"))
  end.

Section Synthesis.

Variable C : Collaborators.

Local Open Scope completion_scope.

(** [this.expressionMap.mainAlias!]: the access through an unset main alias
    is the engine's [TypeError]. *)
Definition mainAlias_ (qb : SelectQueryBuilder) : Completion Alias :=
  match ExpressionMap.mainAlias (expressionMap qb) with
  | Some a => Return a
  | None => Throw (TypeError "Cannot read properties of undefined")
  end.

Definition computeCountExpression (qb : SelectQueryBuilder) : Completion string :=
  a <- mainAlias_ qb;;
  let mainAlias := aliasName a in
  metadata <- Alias_metadata a;;
  let primaryColumns := primaryColumns metadata in
  let distinctAlias := escape C qb mainAlias in
  let column (c : ColumnMetadata) :=
    distinctAlias ++ "." ++ escape C qb (databaseName c) in
  let m := expressionMap qb in
  if Nat.eqb (length (ExpressionMap.joinAttributes m)) 0 &&
     Nat.eqb (length (ExpressionMap.relationIdAttributes m)) 0 &&
     Nat.eqb (length (ExpressionMap.relationCountAttributes m)) 0
  then Return "COUNT(1)"
  else
    match driver (connection qb) with
    | CockroachDriver | PostgresDriver =>
        Return ("COUNT(DISTINCT(" ++ join ", " (map column primaryColumns) ++ "))")
    | MysqlDriver =>
        Return ("COUNT(DISTINCT " ++ join ", " (map column primaryColumns) ++ ")")
    | SqlServerDriver =>
        let columnsExpression := join ", '|;|', " (map column primaryColumns) in
        if Nat.eqb (length primaryColumns) 1
        then Return ("COUNT(DISTINCT(" ++ columnsExpression ++ "))")
        else Return ("COUNT(DISTINCT(CONCAT(" ++ columnsExpression ++ ")))")
    | _ =>
        Return ("COUNT(DISTINCT(" ++
                join " || '|;|' || " (map column primaryColumns) ++ "))")
    end.

(** The column an order criterion [alias.propertyPath] refers to in the
    derived table, as both passes of
    [createOrderByCombinedWithSelectExpression] compute it. *)
Definition derivedOrderColumn (qb : SelectQueryBuilder) (parentAlias : string)
    (aliasName' propertyPath' : string) : Completion string :=
  alias <- findAliasByName (expressionMap qb) aliasName';;
  metadata <- Alias_metadata alias;;
  match findColumnWithPropertyPath C metadata propertyPath' with
  | Some column =>
      Return (escape C qb parentAlias ++ "." ++
              escape C qb
                (buildAlias C (driver (connection qb)) aliasName'
                   (databaseName column)))
  | None => Throw (TypeError "Cannot read properties of undefined")
  end.

(** [selects.find(select => select.selection === c || select.aliasName === c)] *)
Definition isSelected (qb : SelectQueryBuilder) (orderCriteria : string) : bool :=
  existsb
    (fun s : SelectQuery =>
       String.eqb (selection s) orderCriteria ||
       match selectionAliasName s with
       | Some a => String.eqb a orderCriteria
       | None => false
       end)
    (ExpressionMap.selects (expressionMap qb)).

Definition createOrderByCombinedWithSelectExpression (qb : SelectQueryBuilder)
    (parentAlias : string) : Completion (string * OrderByCondition) :=
  let orderBys := allOrderBysOf C (expressionMap qb) in
  selected <-
    mapC (fun entry : string * OrderByValue =>
            let orderCriteria := fst entry in
            match splitAtDot orderCriteria with
            | Some (aliasName', propertyPath') =>
                derivedOrderColumn qb parentAlias aliasName' propertyPath'
            | None =>
                if isSelected qb orderCriteria
                then Return (escape C qb parentAlias ++ "." ++ orderCriteria)
                else Return ""
            end)
         orderBys;;
  let selectString := join ", " selected in
  renamed <-
    mapC (fun entry : string * OrderByValue =>
            let (orderCriteria, value) := entry in
            match splitAtDot orderCriteria with
            | Some (aliasName', propertyPath') =>
                key <- derivedOrderColumn qb parentAlias aliasName' propertyPath';;
                Return (key, value)
            | None =>
                if isSelected qb orderCriteria
                then Return (escape C qb parentAlias ++ "." ++ orderCriteria, value)
                else Return (orderCriteria, value)
            end)
         orderBys;;
  let orderByObject :=
    fold_left (fun o kv => setProperty o (fst kv) (snd kv)) renamed [] in
  Return (selectString, orderByObject).

(** Modelled from the spec: [getQueryAndParameters] of the base class: the
    compiled SQL text of [getQuery] with the parameter list in the
    driver's placeholder convention. *)
Definition getQueryAndParameters (qb : SelectQueryBuilder)
  : Completion (string * list JsValue) :=
  query <- getQuery C qb;;
  let parameters := getParameters C qb in
  await (escapeQueryWithParameters C (driver (connection qb)) query parameters
           (ExpressionMap.nativeParameters (expressionMap qb))).

(** The selections and ordering of the distinct-id query, from the mapping
    over [metadata.primaryColumns] in [executeEntitiesAndRawResults]. *)
Fixpoint distinctQuerySelects (qb : SelectQueryBuilder) (mainAliasName : string)
    (primaryColumns : list ColumnMetadata) (orderBys : OrderByCondition)
  : list string * OrderByCondition :=
  match primaryColumns with
  | [] => ([], orderBys)
  | primaryColumn :: rest =>
      let distinctAlias := escape C qb "distinctAlias" in
      let columnAlias :=
        escape C qb
          (buildAlias C (driver (connection qb)) mainAliasName
             (databaseName primaryColumn)) in
      let orderBys :=
        match lookupProperty orderBys columnAlias with
        | Some _ => orderBys
        | None => setProperty orderBys columnAlias (OrderOnly ASC)
        end in
      let alias :=
        buildAlias C (driver (connection qb)) ("ids_" ++ mainAliasName)
          (databaseName primaryColumn) in
      let (selects, orderBys) :=
        distinctQuerySelects qb mainAliasName rest orderBys in
      ((distinctAlias ++ "." ++ columnAlias ++ " as " ++ dquote ++ alias ++ dquote)
         :: selects, orderBys)
  end.

(** The builder of the first query of the two-query pagination. *)
Definition distinctIdsBuilder (qb : SelectQueryBuilder) (queryRunner : QueryRunner)
    (mainAlias : Alias) : Completion SelectQueryBuilder :=
  ordering <- createOrderByCombinedWithSelectExpression qb "distinctAlias";;
  let (selects, orderBys) := ordering in
  metadata <- Alias_metadata mainAlias;;
  let mainAliasName := aliasName mainAlias in
  let (querySelects, orderBys) :=
    distinctQuerySelects qb mainAliasName (primaryColumns metadata) orderBys in
  let m := expressionMap qb in
  inner <- getQuery C (orderBy OrderByNothing (clone qb));;
  Return
    (setNativeParameters (ExpressionMap.nativeParameters m)
       (setParameters (getParameters C qb)
          (cache
             (if ExpressionMap.cache m then CacheEnabled true
              else match ExpressionMap.cacheId m with
                   | Some id => CacheId id
                   | None => CacheUndefined
                   end)
             (ExpressionMap.cacheDuration m)
             (orderBy (OrderByObject orderBys)
                (limit (ExpressionMap.take m)
                   (offset (ExpressionMap.skip m)
                      (from ("(" ++ inner ++ ")") "distinctAlias"
                         (addSelect selects None
                            (select ("DISTINCT " ++ join ", " querySelects) None
                               (newSelectQueryBuilder (connection qb)
                                  queryRunner)))))))))).

(** The condition and parameters that restrict the second query to the
    primary keys found by the first. *)
Definition distinctIdsCondition (qb : SelectQueryBuilder) (mainAlias : Alias)
    (metadata : EntityMetadata) (rawResults : list ObjectLiteral)
  : Completion (string * ObjectLiteral) :=
  let mainAliasName := aliasName mainAlias in
  if hasMultiplePrimaryKeys metadata then
    let perRow :=
      mapWithIndex
        (fun (result : ObjectLiteral) index =>
           map (fun primaryColumn =>
                  let paramKey :=
                    "orm_distinct_ids_" ++ Number_toString (Z.of_nat index) ++
                    "_" ++ databaseName primaryColumn in
                  (paramKey,
                   getProperty result
                     ("ids_" ++ mainAliasName ++ "_" ++ databaseName primaryColumn),
                   mainAliasName ++ "." ++ propertyPath primaryColumn ++ "=:" ++
                   paramKey))
               (primaryColumns metadata))
        0%nat rawResults in
    let condition :=
      join " OR " (map (fun row => join " AND " (map snd row)) perRow) in
    let parameters :=
      fold_left (fun o kv => setProperty o (fst (fst kv)) (snd (fst kv)))
        (concat perRow) [] in
    Return (condition, parameters)
  else
    match primaryColumns metadata with
    | [] => Throw (TypeError "Cannot read properties of undefined")
    | first :: _ =>
        let alias :=
          buildAlias C (driver (connection qb)) ("ids_" ++ mainAliasName)
            (databaseName first) in
        let ids := map (fun result => getProperty result alias) rawResults in
        let areAllNumbers := forallb isNumber ids in
        if areAllNumbers then
          Return
            (mainAliasName ++ "." ++ propertyPath first ++ " IN (" ++
             join ", "
               (map (fun id => match id with
                               | JsNumber n => Number_toString n
                               | _ => ""
                               end) ids) ++ ")",
             [])
        else
          Return
            (mainAliasName ++ "." ++ propertyPath first ++
             " IN (:...orm_distinct_ids)",
             [("orm_distinct_ids", JsArray ids)])
    end.

End Synthesis.

(* ===================================================================== *)
(** ** Asynchronous calls: the trace of collaborator calls *)
(* ===================================================================== *)

(** [QueryResultCacheOptions]: the argument of [getFromCache] and
    [storeInCache], and the entry a cache lookup returns. *)
Record QueryResultCacheOptions : Type := {
  identifier : option string;
  query : string;
  time : option Z;
  duration : Z;
  result : option string
}.

(** A call made to a collaborator at run time.  [Query] is the builder's
    own [queryRunner.query]; the cache and the loaders are handed the query
    runner, and what they do with it is inside their calls. *)
Inductive Event : Type :=
| CreateQueryRunner
| StartTransaction (queryRunner : QueryRunner)
| CommitTransaction (queryRunner : QueryRunner)
| RollbackTransaction (queryRunner : QueryRunner)
| Release (queryRunner : QueryRunner)
| Query (queryRunner : QueryRunner) (sql : string) (parameters : list JsValue)
| GetFromCache (options : QueryResultCacheOptions)
| IsExpired (saved : QueryResultCacheOptions)
| StoreInCache (options : QueryResultCacheOptions)
    (saved : option QueryResultCacheOptions)
| LoadRelationIds (rawResults : list ObjectLiteral)
| LoadRelationCounts (rawResults : list ObjectLiteral)
| Transform (rawResults : list ObjectLiteral)
| LoadSeparateRelations (entities : list ObjectLiteral)
| BroadcastLoad (entities : list ObjectLiteral).

(** The calls made so far, oldest first. *)
Definition Trace : Type := list Event.

(** The run-time collaborators: query runner, result cache and hydration
    pipeline.  What each answers may depend on everything that happened
    before the call. *)
Record Environment : Type := {
  (** [connection.createQueryRunner("slave")] *)
  connection_createQueryRunner : Trace -> Reply QueryRunner;
  (** [queryRunner.isTransactionActive] *)
  queryRunner_isTransactionActive : Trace -> QueryRunner -> bool;
  queryRunner_startTransaction : Trace -> QueryRunner -> Reply unit;
  queryRunner_commitTransaction : Trace -> QueryRunner -> Reply unit;
  queryRunner_rollbackTransaction : Trace -> QueryRunner -> Reply unit;
  queryRunner_release : Trace -> QueryRunner -> Reply unit;
  (** [(await queryRunner.query(sql, parameters, true)).records] *)
  queryRunner_query :
    Trace -> QueryRunner -> string -> list JsValue -> Reply (list ObjectLiteral);
  queryResultCache_getFromCache :
    Trace -> QueryResultCacheOptions -> Reply (option QueryResultCacheOptions);
  queryResultCache_isExpired : Trace -> QueryResultCacheOptions -> Reply bool;
  queryResultCache_storeInCache :
    Trace -> QueryResultCacheOptions -> option QueryResultCacheOptions ->
    Reply unit;
  (** [JSON.parse(saved.result)] *)
  JSON_parse : option string -> Reply (list ObjectLiteral);
  (** [new Date().getTime()] *)
  Date_now : Trace -> Z;
  relationIdLoader_load :
    Trace -> list ObjectLiteral -> Reply (list ObjectLiteral);
  relationCountLoader_load :
    Trace -> list ObjectLiteral -> Reply (list ObjectLiteral);
  (** [transformer.transform(rawResults, mainAlias)] *)
  transformer_transform :
    Trace -> QueryExpressionMap -> list ObjectLiteral -> list ObjectLiteral ->
    list ObjectLiteral -> Reply (list ObjectLiteral);
  (** [relationSeparateLoader.load(entities)], which completes the entities
      in place: the reply is the entities as they are afterwards *)
  relationSeparateLoader_load :
    Trace -> list ObjectLiteral -> Reply (list ObjectLiteral);
  (** [queryRunner.broadcaster.broadcast("Load", metadata, entities)] *)
  broadcaster_broadcastLoad : Trace -> list ObjectLiteral -> Reply unit
}.

(** An asynchronous method: from the calls made so far to a completion and
    the calls made by then.  A thrown error keeps the calls made before it. *)
Definition Async (A : Type) : Type := Trace -> Completion A * Trace.

Definition ret {A : Type} (a : A) : Async A := fun t => (Return a, t).

Definition throw {A : Type} (e : Error) : Async A := fun t => (Throw e, t).

Definition bind {A B : Type} (c : Async A) (k : A -> Async B) : Async B :=
  fun t =>
    match c t with
    | (Return a, t') => k a t'
    | (Throw e, t') => (Throw e, t')
    end.

(** A synchronous call inside an asynchronous method. *)
Definition sync {A : Type} (c : Completion A) : Async A := fun t => (c, t).

(** A call to a collaborator: the call is recorded, and the collaborator
    answers from what happened before. *)
Definition call {A : Type} (event : Event) (reply : Trace -> Reply A) : Async A :=
  fun t => (await (reply t), (t ++ [event])%list).

(** [try { c } catch (error) { handler(error) }] *)
Definition tryCatch {A : Type} (c : Async A) (handler : Error -> Async A)
  : Async A :=
  fun t =>
    match c t with
    | (Return a, t') => (Return a, t')
    | (Throw e, t') => handler e t'
    end.

(** [try { c } finally { finalizer }] *)
Definition tryFinally {A : Type} (c : Async A) (finalizer : Async unit)
  : Async A :=
  fun t =>
    match c t with
    | (completion, t') =>
        match finalizer t' with
        | (Return _, t'') => (completion, t'')
        | (Throw e, t'') => (Throw e, t'')
        end
    end.

Declare Scope async_scope.
Delimit Scope async_scope with async.
Notation "x <- c ;; k" := (bind c (fun x => k))
  (at level 61, c at next level, right associativity) : async_scope.
Notation "c ;; k" := (bind c (fun _ => k))
  (at level 61, right associativity) : async_scope.

(* ===================================================================== *)
(** ** Execution *)
(* ===================================================================== *)

(** The value of [getRawAndEntities] and [executeEntitiesAndRawResults]. *)
Record EntitiesAndRaw : Type := {
  entities : list ObjectLiteral;
  raw : list ObjectLiteral
}.

(** What the cache lookup of [loadRawResults] leaves behind: the parsed
    rows it returns at once, the saved entry it found (if any) with
    [cacheError] still [false], or [cacheError = true]. *)
Inductive CacheLookup : Type :=
| Cached (records : list ObjectLiteral)
| NotCached (savedQueryResultCacheOptions : option QueryResultCacheOptions)
| CacheError.

Definition isPessimistic (lockMode : option LockMode) : bool :=
  lockModeIs lockMode pessimistic_read ||
  lockModeIs lockMode pessimistic_write ||
  lockModeIs lockMode pessimistic_partial_write ||
  lockModeIs lockMode pessimistic_write_or_fail ||
  lockModeIs lockMode for_no_key_update.

(** Truthiness of [expressionMap.lockVersion]: unset and the number [0]
    are falsy, a [Date] is an object. *)
Definition truthyLockVersion (lockVersion : option LockVersion) : bool :=
  match lockVersion with
  | Some (VersionNumber n) => negb (n =? 0)
  | Some (VersionDate _) => true
  | None => false
  end.

(** [queryRunner !== this.queryRunner] *)
Definition isOwnQueryRunner (qb : SelectQueryBuilder) (queryRunner' : QueryRunner)
  : bool :=
  match queryRunner qb with
  | Some given => negb (Nat.eqb given queryRunner')
  | None => true
  end.

Section Execution.

Variable C : Collaborators.
Variable E : Environment.

Local Open Scope async_scope.

(** [this.queryRunner || this.connection.createQueryRunner("slave")] *)
Definition obtainQueryRunner (qb : SelectQueryBuilder) : Async QueryRunner :=
  match queryRunner qb with
  | Some given => ret given
  | None => call CreateQueryRunner (connection_createQueryRunner E)
  end.

(** [queryRunner.isTransactionActive] *)
Definition isTransactionActive (queryRunner : QueryRunner) : Async bool :=
  fun t => (Return (queryRunner_isTransactionActive E t queryRunner), t).

Definition startTransaction (queryRunner : QueryRunner) : Async unit :=
  call (StartTransaction queryRunner)
    (fun t => queryRunner_startTransaction E t queryRunner).

Definition commitTransaction (queryRunner : QueryRunner) : Async unit :=
  call (CommitTransaction queryRunner)
    (fun t => queryRunner_commitTransaction E t queryRunner).

Definition rollbackTransaction (queryRunner : QueryRunner) : Async unit :=
  call (RollbackTransaction queryRunner)
    (fun t => queryRunner_rollbackTransaction E t queryRunner).

Definition release (queryRunner : QueryRunner) : Async unit :=
  call (Release queryRunner) (fun t => queryRunner_release E t queryRunner).

(** The frame shared by [getRawMany], [getRawAndEntities], [getCount] and
    [getManyAndCount] around their own work [body]:
<<
    let transactionStartedByUs = false;
    try {
        if (useTransaction === true && queryRunner.isTransactionActive === false) {
            await queryRunner.startTransaction();
            transactionStartedByUs = true;
        }
        const results = body;
        if (transactionStartedByUs) await queryRunner.commitTransaction();
        return results;
    } catch (error) {
        if (transactionStartedByUs) {
            try { await queryRunner.rollbackTransaction(); } catch (rollbackError) { }
        }
        throw error;
    } finally {
        if (queryRunner !== this.queryRunner) await queryRunner.release();
    }
>>
    An error of [startTransaction] reaches the handler with
    [transactionStartedByUs] still [false], so it is rethrown as it is. *)
Definition inOwnTransaction {A : Type} (qb : SelectQueryBuilder)
    (queryRunner : QueryRunner) (body : Async A) : Async A :=
  tryFinally
    (active <- isTransactionActive queryRunner;;
     transactionStartedByUs <-
       (if ExpressionMap.useTransaction (expressionMap qb) && negb active
        then startTransaction queryRunner;; ret true
        else ret false);;
     tryCatch
       (results <- body;;
        (if transactionStartedByUs : bool
         then commitTransaction queryRunner else ret tt);;
        ret results)
       (fun error =>
          (if transactionStartedByUs : bool
           then tryCatch (rollbackTransaction queryRunner) (fun _ => ret tt)
           else ret tt);;
          throw error))
    (if isOwnQueryRunner qb queryRunner then release queryRunner else ret tt).

Definition cacheOptionsOf (qb : SelectQueryBuilder) : CacheOptions :=
  match optionsCache (connection qb) with
  | Some o => o
  | None => noCacheOptions
  end.

(** [connection.queryResultCache && (expressionMap.cache || cacheOptions.alwaysEnabled)] *)
Definition cachingActive (qb : SelectQueryBuilder) : bool :=
  queryResultCache (connection qb) &&
  (ExpressionMap.cache (expressionMap qb) || alwaysEnabled (cacheOptionsOf qb)).

(** [expressionMap.cacheDuration || cacheOptions.duration || 1000] *)
Definition cacheDurationOf (qb : SelectQueryBuilder) : Z :=
  match ExpressionMap.cacheDuration (expressionMap qb),
        optionsDuration (cacheOptionsOf qb) with
  | Some d, other =>
      if negb (d =? 0) then d
      else match other with
           | Some o => if negb (o =? 0) then o else 1000
           | None => 1000
           end
  | None, Some o => if negb (o =? 0) then o else 1000
  | None, None => 1000
  end.

(** The body of the [try] block around [getFromCache] in
    [loadRawResults]. *)
Definition readFromCache (qb : SelectQueryBuilder) (queryId : string)
  : Async CacheLookup :=
  let options :=
    {| identifier := ExpressionMap.cacheId (expressionMap qb);
       query := queryId;
       time := None;
       duration := cacheDurationOf qb;
       result := None |} in
  savedQueryResultCacheOptions <-
    call (GetFromCache options)
      (fun t => queryResultCache_getFromCache E t options);;
  match savedQueryResultCacheOptions with
  | Some saved =>
      expired <-
        call (IsExpired saved) (fun t => queryResultCache_isExpired E t saved);;
      if negb expired then
        records <- sync (await (JSON_parse E (result saved)));;
        ret (Cached records)
      else ret (NotCached savedQueryResultCacheOptions)
  | None => ret (NotCached None)
  end.

(** That [try] block with its [catch]. *)
Definition lookupInCache (qb : SelectQueryBuilder) (queryId : string)
  : Async CacheLookup :=
  tryCatch (readFromCache qb queryId)
    (fun error =>
       if negb (ignoreErrors (cacheOptionsOf qb)) then throw error
       else ret CacheError).

(** The body of the [try] block around [storeInCache] in
    [loadRawResults]. *)
Definition writeToCache (qb : SelectQueryBuilder) (queryId : string)
    (savedQueryResultCacheOptions : option QueryResultCacheOptions)
    (records : list ObjectLiteral) : Async unit :=
  fun t =>
    let options :=
      {| identifier := ExpressionMap.cacheId (expressionMap qb);
         query := queryId;
         time := Some (Date_now E t);
         duration := cacheDurationOf qb;
         result := Some (JSON_stringify C (JsArray (map JsObject records))) |} in
    call (StoreInCache options savedQueryResultCacheOptions)
      (fun t' =>
         queryResultCache_storeInCache E t' options savedQueryResultCacheOptions)
      t.

(** That [try] block with its [catch]. *)
Definition storeInCache (qb : SelectQueryBuilder) (queryId : string)
    (savedQueryResultCacheOptions : option QueryResultCacheOptions)
    (records : list ObjectLiteral) : Async unit :=
  tryCatch (writeToCache qb queryId savedQueryResultCacheOptions records)
    (fun error =>
       if negb (ignoreErrors (cacheOptionsOf qb)) then throw error else ret tt).

(** The text under which a query is cached:
    [sql + " -- PARAMETERS: " + JSON.stringify(parameters)]. *)
Definition queryIdOf (sql : string) (parameters : list JsValue) : string :=
  sql ++ " -- PARAMETERS: " ++ JSON_stringify C (JsArray parameters).

(** [queryRunner.query(sql, parameters, true)], read at [records]. *)
Definition runQuery (queryRunner : QueryRunner) (sql : string)
    (parameters : list JsValue) : Async (list ObjectLiteral) :=
  call (Query queryRunner sql parameters)
    (fun t => queryRunner_query E t queryRunner sql parameters).

(** [loadRawResults(queryRunner)] *)
Definition loadRawResults (qb : SelectQueryBuilder) (queryRunner : QueryRunner)
  : Async (list ObjectLiteral) :=
  compiled <- sync (getQueryAndParameters C qb);;
  let (sql, parameters) := compiled : string * list JsValue in
  let queryId := queryIdOf sql parameters in
  lookup <-
    (if cachingActive qb then lookupInCache qb queryId else ret (NotCached None));;
  match lookup with
  | Cached records => ret records
  | NotCached savedQueryResultCacheOptions =>
      records <- runQuery queryRunner sql parameters;;
      (if cachingActive qb
       then storeInCache qb queryId savedQueryResultCacheOptions records
       else ret tt);;
      ret records
  | CacheError => runQuery queryRunner sql parameters
  end.

(** [getRawMany()] *)
Definition getRawMany (qb : SelectQueryBuilder) : Async (list ObjectLiteral) :=
  if lockModeIs (ExpressionMap.lockMode (expressionMap qb)) optimistic then
    throw OptimisticLockCanNotBeUsedError
  else
    let qb := updateExpressionMap (ExpressionMap.set_queryEntity false) qb in
    queryRunner <- obtainQueryRunner qb;;
    inOwnTransaction qb queryRunner (loadRawResults qb queryRunner).

(** [getRawOne()] *)
Definition getRawOne (qb : SelectQueryBuilder) : Async (option ObjectLiteral) :=
  results <- getRawMany qb;;
  ret (hd_error results).

(** [executeCountQuery(queryRunner)]; [None] is [NaN]. *)
Definition executeCountQuery (qb : SelectQueryBuilder) (queryRunner : QueryRunner)
  : Async (option Z) :=
  countSql <- sync (computeCountExpression C qb);;
  results <-
    loadRawResults
      (setOption "disable-global-order"
         (select countSql (Some "cnt")
            (take None
               (skip None
                  (limit None
                     (offset None
                        (groupBy None (orderBy OrderByNothing (clone qb)))))))))
      queryRunner;;
  match results with
  | [] => ret (Some 0)
  | first :: _ =>
      if negb (truthyValue (getProperty first "cnt")) then ret (Some 0)
      else ret (parseInt C (getProperty first "cnt"))
  end.

(** The hydration of a non-empty row set at the end of
    [executeEntitiesAndRawResults]: one call to each loader and to the
    transformer.  The loaders were built on the query runner and may send
    queries of their own, which are not told apart here. *)
Definition hydrate (qb : SelectQueryBuilder) (mainAlias : Alias)
    (rawResults : list ObjectLiteral) : Async (list ObjectLiteral) :=
  rawRelationIdResults <-
    call (LoadRelationIds rawResults)
      (fun t => relationIdLoader_load E t rawResults);;
  rawRelationCountResults <-
    call (LoadRelationCounts rawResults)
      (fun t => relationCountLoader_load E t rawResults);;
  entities <-
    call (Transform rawResults)
      (fun t =>
         transformer_transform E t (expressionMap qb) rawRelationIdResults
           rawRelationCountResults rawResults);;
  entities <-
    call (LoadSeparateRelations entities)
      (fun t => relationSeparateLoader_load E t entities);;
  (if ExpressionMap.callListeners (expressionMap qb) && hasMetadata mainAlias
   then call (BroadcastLoad entities)
          (fun t => broadcaster_broadcastLoad E t entities)
   else ret tt);;
  ret entities.

(** The lock preconditions at the head of [executeEntitiesAndRawResults]. *)
Definition checkLockPreconditions (qb : SelectQueryBuilder) (mainAlias : Alias)
    (queryRunner : QueryRunner) : Async unit :=
  active <- isTransactionActive queryRunner;;
  if isPessimistic (ExpressionMap.lockMode (expressionMap qb)) && negb active
  then throw PessimisticLockTransactionRequiredError
  else if lockModeIs (ExpressionMap.lockMode (expressionMap qb)) optimistic then
    metadata <- sync (Alias_metadata mainAlias);;
    match versionColumn metadata, updateDateColumn metadata with
    | None, None => throw (NoVersionOrUpdateDateColumnError (name metadata))
    | _, _ => ret tt
    end
  else ret tt.

(** The builder after [relationIdMetadataTransformer.transform()] and
    [relationCountMetadataTransformer.transform()], which push attributes on
    [this.expressionMap]. *)
Definition transformRelationMetadata (qb : SelectQueryBuilder)
  : Completion SelectQueryBuilder :=
  bindC (await (relationIdMetadataToAttributes C (expressionMap qb)))
    (fun relationIds =>
       let qb :=
         updateExpressionMap
           (fun m =>
              ExpressionMap.set_relationIdAttributes
                (ExpressionMap.relationIdAttributes m ++ relationIds) m) qb in
       bindC (await (relationCountMetadataToAttributes C (expressionMap qb)))
         (fun relationCounts =>
            Return
              (updateExpressionMap
                 (fun m =>
                    ExpressionMap.set_relationCountAttributes
                      (ExpressionMap.relationCountAttributes m ++ relationCounts)
                      m) qb))).

(** The two queries of a paginated, joined selection: the distinct primary
    keys of the page, then the rows of these keys. *)
Definition loadPaginatedRawResults (qb : SelectQueryBuilder) (mainAlias : Alias)
    (queryRunner : QueryRunner) : Async (list ObjectLiteral) :=
  idsBuilder <- sync (distinctIdsBuilder C qb queryRunner mainAlias);;
  metadata <- sync (Alias_metadata mainAlias);;
  rawResults <- getRawMany idsBuilder;;
  if Nat.ltb 0 (length rawResults) then
    restriction <- sync (distinctIdsCondition C qb mainAlias metadata rawResults);;
    let (condition, parameters) := restriction : string * ObjectLiteral in
    loadRawResults
      (setParameters parameters
         (mergeExtraAppendedAndWhereCondition condition (clone qb)))
      queryRunner
  else ret rawResults.

(** [executeEntitiesAndRawResults(queryRunner)].  The two metadata
    transformers edit [this.expressionMap]; the builder as the call leaves
    it is returned beside the result. *)
Definition executeEntitiesAndRawResults (qb : SelectQueryBuilder)
    (queryRunner : QueryRunner) : Async (EntitiesAndRaw * SelectQueryBuilder) :=
  match ExpressionMap.mainAlias (expressionMap qb) with
  | None =>
      throw (TypeORMError
               ("Alias is not set. Use " ++ dquote ++ "from" ++ dquote ++
                " method to set an alias."))
  | Some mainAlias =>
      checkLockPreconditions qb mainAlias queryRunner;;
      qb <- sync (transformRelationMetadata qb);;
      let m := expressionMap qb in
      rawResults <-
        (if (truthy (ExpressionMap.skip m) || truthy (ExpressionMap.take m)) &&
            Nat.ltb 0 (length (ExpressionMap.joinAttributes m))
         then loadPaginatedRawResults qb mainAlias queryRunner
         else loadRawResults qb queryRunner);;
      entities <-
        (if Nat.ltb 0 (length rawResults)
         then hydrate qb mainAlias rawResults
         else ret []);;
      ret ({| raw := rawResults; entities := entities |}, qb)
  end.

(** [getRawAndEntities()] *)
Definition getRawAndEntities (qb : SelectQueryBuilder) : Async EntitiesAndRaw :=
  queryRunner <- obtainQueryRunner qb;;
  inOwnTransaction qb queryRunner
    (let qb := updateExpressionMap (ExpressionMap.set_queryEntity true) qb in
     results <- executeEntitiesAndRawResults qb queryRunner;;
     ret (fst results)).

(** [getOne()] *)
Definition getOne (qb : SelectQueryBuilder) : Async (option ObjectLiteral) :=
  results <- getRawAndEntities qb;;
  match hd_error (entities results) with
  | Some entity =>
      let m := expressionMap qb in
      if lockModeIs (ExpressionMap.lockMode m) optimistic &&
         truthyLockVersion (ExpressionMap.lockVersion m)
      then
        mainAlias <- sync (mainAlias_ qb);;
        metadata <- sync (Alias_metadata mainAlias);;
        match ExpressionMap.lockVersion m with
        | Some (VersionDate expected) =>
            match updateDateColumn metadata with
            | None => throw (TypeError "Cannot read properties of undefined")
            | Some column =>
                match getEntityValue column entity with
                | JsDate actual =>
                    if negb (actual =? expected) then
                      throw (OptimisticLockVersionMismatchError (name metadata)
                               (VersionDate expected) (JsDate actual))
                    else ret (Some entity)
                | _ => throw (TypeError "actualVersion.getTime is not a function")
                end
            end
        | Some (VersionNumber expected) =>
            match versionColumn metadata with
            | None => throw (TypeError "Cannot read properties of undefined")
            | Some column =>
                match getEntityValue column entity with
                | JsNumber actual =>
                    if negb (actual =? expected) then
                      throw (OptimisticLockVersionMismatchError (name metadata)
                               (VersionNumber expected) (JsNumber actual))
                    else ret (Some entity)
                | actualVersion =>
                    throw (OptimisticLockVersionMismatchError (name metadata)
                             (VersionNumber expected) actualVersion)
                end
            end
        | None => ret (Some entity)
        end
      else ret (Some entity)
  | None => ret None
  end.

(** [getOneOrFail()] *)
Definition getOneOrFail (qb : SelectQueryBuilder) : Async ObjectLiteral :=
  entity <- getOne qb;;
  match entity with
  | Some found => ret found
  | None => throw EntityNotFoundError
  end.

(** [getMany()] *)
Definition getMany (qb : SelectQueryBuilder) : Async (list ObjectLiteral) :=
  if lockModeIs (ExpressionMap.lockMode (expressionMap qb)) optimistic then
    throw OptimisticLockCanNotBeUsedError
  else
    results <- getRawAndEntities qb;;
    ret (entities results).

(** [getCount()] *)
Definition getCount (qb : SelectQueryBuilder) : Async (option Z) :=
  if lockModeIs (ExpressionMap.lockMode (expressionMap qb)) optimistic then
    throw OptimisticLockCanNotBeUsedError
  else
    queryRunner <- obtainQueryRunner qb;;
    inOwnTransaction qb queryRunner
      (let qb := updateExpressionMap (ExpressionMap.set_queryEntity false) qb in
       executeCountQuery qb queryRunner).

(** [getManyAndCount()] *)
Definition getManyAndCount (qb : SelectQueryBuilder)
  : Async (list ObjectLiteral * option Z) :=
  if lockModeIs (ExpressionMap.lockMode (expressionMap qb)) optimistic then
    throw OptimisticLockCanNotBeUsedError
  else
    queryRunner <- obtainQueryRunner qb;;
    inOwnTransaction qb queryRunner
      (let qb := updateExpressionMap (ExpressionMap.set_queryEntity true) qb in
       executed <- executeEntitiesAndRawResults qb queryRunner;;
       let (entitiesAndRaw, qb) := executed : EntitiesAndRaw * SelectQueryBuilder in
       let qb := updateExpressionMap (ExpressionMap.set_queryEntity false) qb in
       let cacheId := ExpressionMap.cacheId (expressionMap qb) in
       let qb :=
         updateExpressionMap
           (ExpressionMap.set_cacheId
              (if truthyString cacheId
               then match cacheId with
                    | Some id => Some (id ++ "-count")
                    | None => None
                    end
               else cacheId)) qb in
       count <- executeCountQuery qb queryRunner;;
       ret (entities entitiesAndRaw, count)).

End Execution.

(* ===================================================================== *)
(** ** Properties stated by the specification *)
(* ===================================================================== *)

(** The dialects without an offset-only form: the MySQL family. *)
Definition lacksOffsetWithoutLimit (d : Driver) : bool :=
  match d with
  | MysqlDriver | AuroraDataApiDriver | SapDriver => true
  | _ => false
  end.

(** The invariant the specification states for [havings]: a ["simple"]
    entry appears only as the first element. *)
Definition simpleOnlyFirst (havings : list HavingClause) : Prop :=
  forall index clause,
    nth_error havings index = Some clause ->
    type clause = Simple -> index = 0%nat.

(** The columns of a distinct count, as [computeCountExpression] writes
    them. *)
Definition countedColumns (C : Collaborators) (qb : SelectQueryBuilder)
    (a : Alias) (metadata : EntityMetadata) : list string :=
  map (fun c => escape C qb (aliasName a) ++ "." ++ escape C qb (databaseName c))
    (primaryColumns metadata).

(** No join and no deferred relation-id or relation-count attribute. *)
Definition nothingJoined (m : QueryExpressionMap) : Prop :=
  ExpressionMap.joinAttributes m = [] /\
  ExpressionMap.relationIdAttributes m = [] /\
  ExpressionMap.relationCountAttributes m = [].

(** The count of distinct primary-key columns in the specification's words:
    a multi-column DISTINCT where the dialect has one (PostgreSQL and
    CockroachDB as a tuple, MySQL as a list), otherwise a concatenation
    ([CONCAT] on SQL Server, [||] elsewhere), and a single primary-key column
    is never concatenated. *)
Definition distinctPrimaryKeyCount (d : Driver) (columns : list string) : string :=
  match d with
  | PostgresDriver | CockroachDriver =>
      "COUNT(DISTINCT(" ++ join ", " columns ++ "))"
  | MysqlDriver => "COUNT(DISTINCT " ++ join ", " columns ++ ")"
  | SqlServerDriver =>
      match columns with
      | [column] => "COUNT(DISTINCT(" ++ column ++ "))"
      | _ => "COUNT(DISTINCT(CONCAT(" ++ join ", '|;|', " columns ++ ")))"
      end
  | _ =>
      match columns with
      | [column] => "COUNT(DISTINCT(" ++ column ++ "))"
      | _ => "COUNT(DISTINCT(" ++ join " || '|;|' || " columns ++ "))"
      end
  end.

(** Every error but the optimistic version mismatch. *)
Definition benign (e : Error) : Prop :=
  match e with
  | OptimisticLockVersionMismatchError _ _ _ => False
  | _ => True
  end.

(** A call that never throws the version mismatch. *)
Definition quietC {A : Type} (c : Completion A) : Prop :=
  forall e, c = Throw e -> benign e.

Definition quiet {A : Type} (c : Async A) : Prop :=
  forall t e t', c t = (Throw e, t') -> benign e.

(** A method that adds to the trace only calls that satisfy [P]. *)
Definition emits {A : Type} (P : Event -> Prop) (c : Async A) : Prop :=
  forall t completion t1,
    c t = (completion, t1) ->
    exists events, t1 = (t ++ events)%list /\ Forall P events.

(** A call that, if it is a query, is the compiled query [compiled] on
    [queryRunner']. *)
Definition isQueryOf (queryRunner' : QueryRunner)
    (compiled : Completion (string * list JsValue)) (event : Event) : Prop :=
  match event with
  | Query runner sql parameters =>
      runner = queryRunner' /\ compiled = Return (sql, parameters)
  | _ => True
  end.

(** The first entity of a completed [getRawAndEntities], if any. *)
Definition firstEntityOf (run : Completion EntitiesAndRaw * Trace)
  : Completion (option ObjectLiteral) * Trace :=
  match run with
  | (Return results, t) => (Return (hd_error (entities results)), t)
  | (Throw e, t) => (Throw e, t)
  end.

(* ===================================================================== *)
(** ** Further properties of the code *)
(* ===================================================================== *)

(** Whether [createLimitOffsetExpression] compiles [skip] and [take] in
    place of [offset] and [limit]: neither of the two is set and nothing is
    joined. *)
Definition usesSkipAndTake (m : QueryExpressionMap) : bool :=
  negb (truthy (ExpressionMap.offset m)) &&
  negb (truthy (ExpressionMap.limit m)) &&
  Nat.eqb (length (ExpressionMap.joinAttributes m)) 0.

(** The offset and the limit that [createLimitOffsetExpression] compiles. *)
Definition compiledOffset (m : QueryExpressionMap) : option Z :=
  if usesSkipAndTake m then ExpressionMap.skip m else ExpressionMap.offset m.

Definition compiledLimit (m : QueryExpressionMap) : option Z :=
  if usesSkipAndTake m then ExpressionMap.take m else ExpressionMap.limit m.

(** The lock modes a dialect accepts: every mode on PostgreSQL; the shared
    and exclusive row locks on MySQL, Aurora Data API, Oracle and SQL
    Server; skip-locked and no-wait on MySQL; ["optimistic"] and
    ["dirty_read"], which add no lock clause, everywhere. *)
Definition supportsLock (d : Driver) (mode : LockMode) : bool :=
  match mode, d with
  | (optimistic | dirty_read), _ => true
  | _, PostgresDriver => true
  | (pessimistic_read | pessimistic_write),
    (MysqlDriver | AuroraDataApiDriver | OracleDriver | SqlServerDriver) => true
  | (pessimistic_partial_write | pessimistic_write_or_fail), MysqlDriver => true
  | _, _ => false
  end.

(** The combinator written before a HAVING condition that is not the
    first. *)
Definition havingCombinator (clause : HavingClause) : string :=
  match type clause with
  | And => "AND "
  | Or => "OR "
  | Simple => ""
  end.

(** A text without white space at either end: it neither opens nor closes
    with a white-space code point. *)
Definition isTrimmed (s : string) : Prop :=
  startsWithWhiteSpace s = false /\ endsWithWhiteSpace s = false.





(** The builder whose compiled query [executeCountQuery] loads. *)
Definition countQueryBuilder (qb : SelectQueryBuilder) (countSql : string)
  : SelectQueryBuilder :=
  setOption "disable-global-order"
    (select countSql (Some "cnt")
       (take None
          (skip None
             (limit None
                (offset None
                   (groupBy None (orderBy OrderByNothing (clone qb)))))))).

(** A call that neither creates nor releases a query runner. *)
Definition keepsQueryRunner (event : Event) : Prop :=
  match event with
  | CreateQueryRunner | Release _ => False
  | _ => True
  end.

(** A call that neither starts, commits nor rolls back a transaction. *)
Definition outsideTransaction (event : Event) : Prop :=
  match event with
  | StartTransaction _ | CommitTransaction _ | RollbackTransaction _ => False
  | _ => True
  end.

(** A call that is not a query, or is the compiled query of a builder with
    no LIMIT/OFFSET clause, no GROUP BY clause and no explicit ordering. *)
Definition isPlainQueryOn (C : Collaborators) (queryRunner' : QueryRunner)
    (event : Event) : Prop :=
  match event with
  | Query runner sql parameters =>
      runner = queryRunner' /\
      exists builder,
        getQueryAndParameters C builder = Return (sql, parameters) /\
        createLimitOffsetExpression C builder = Return "" /\
        createGroupByExpression C builder = "" /\
        ExpressionMap.orderBys (expressionMap builder) = [] /\
        In "disable-global-order" (ExpressionMap.options (expressionMap builder))
  | _ => True
  end.

(** Whether a call is a query the builder sends itself:
    [queryRunner.query] in [loadRawResults].  The result cache and the
    loaders of the hydration are handed the query runner; what they send
    through it is part of their calls. *)
Definition isQuery (event : Event) : bool :=
  match event with
  | Query _ _ _ => true
  | _ => false
  end.

(** The number of the builder's own queries among calls. *)
Definition queriesIn (events : list Event) : nat :=
  length (filter isQuery events).

(** A method that, on every run, sends at most [n] queries of its own. *)
Definition dispatchesAtMost {A : Type} (n : nat) (c : Async A) : Prop :=
  forall t completion t1,
    c t = (completion, t1) ->
    exists events, t1 = (t ++ events)%list /\ (queriesIn events <= n)%nat.

(** A call on the data path: a query, a cache call or a step of the
    hydration. *)
Definition isDataCall (event : Event) : Prop :=
  match event with
  | CreateQueryRunner | Release _
  | StartTransaction _ | CommitTransaction _ | RollbackTransaction _ => False
  | _ => True
  end.

(** A trace that extends [t] by the creation of a query runner, calls that
    neither create nor release one, and the release of [queryRunner'] as the
    last call. *)
Definition ownsRunnerThroughout (t : Trace) (queryRunner' : QueryRunner)
    (trace : Trace) : Prop :=
  exists events,
    trace = (t ++ CreateQueryRunner :: events ++ [Release queryRunner'])%list /\
    Forall keepsQueryRunner events.

(* ===================================================================== *)
(** ** Concrete collaborators and builders *)
(* ===================================================================== *)

Module Scenario.

(** A collaborator set that renders plainly: no escaping, no property
    renaming, parameters passed in order. *)
Definition plain : Collaborators :=
  {| createComment := fun _ => Replied "";
     createWhereExpression :=
       fun qb =>
         match ExpressionMap.extraAppendedAndWhereCondition (expressionMap qb) with
         | Some c => Replied (" WHERE " ++ c)
         | None => Replied ""
         end;
     selectFromClause :=
       fun qb a =>
         Replied
           ("SELECT " ++
            match ExpressionMap.selects (expressionMap qb) with
            | [] => "*"
            | selects => join ", " (map selection selects)
            end ++ " FROM " ++
            match aliasSubQuery a, tablePath a with
            | Some text, _ => text
            | None, Some path => path
            | None, None =>
                match aliasMetadata a with
                | Some metadata => name metadata
                | None => ""
                end
            end ++ " " ++ aliasName a);
     createJoinExpression :=
       fun qb =>
         Replied
           (join " "
              (map (fun j =>
                      " " ++ JoinDirection_toString (direction j) ++ " JOIN " ++
                      entityOrProperty j ++ " " ++ joinAliasName j)
                 (ExpressionMap.joinAttributes (expressionMap qb))));
     escape := fun _ s => s;
     replacePropertyNames := fun _ s => s;
     getParameters := fun qb => ExpressionMap.parameters (expressionMap qb);
     escapeQueryWithParameters :=
       fun _ sql parameters _ => Replied (sql, map snd parameters);
     buildAlias := fun _ alias column => alias ++ "_" ++ column;
     allOrderBys := fun orderBys _ _ => orderBys;
     findColumnWithPropertyPath :=
       fun metadata path =>
         find (fun c => String.eqb (propertyPath c) path) (primaryColumns metadata);
     relationIdMetadataToAttributes := fun _ => Replied [];
     relationCountMetadataToAttributes := fun _ => Replied [];
     JSON_stringify := fun _ => "[]";
     parseInt := fun v => match v with JsNumber n => Some n | _ => None end |}.

Definition idColumn : ColumnMetadata :=
  {| databaseName := "id"; propertyPath := "id";
     getEntityValue := fun entity => getProperty entity "id" |}.

Definition versionColumn' : ColumnMetadata :=
  {| databaseName := "version"; propertyPath := "version";
     getEntityValue := fun entity => getProperty entity "version" |}.

Definition postMetadata : EntityMetadata :=
  {| name := "post";
     primaryColumns := [idColumn];
     hasMultiplePrimaryKeys := false;
     versionColumn := Some versionColumn';
     updateDateColumn := None |}.

Definition postAlias : Alias :=
  {| aliasType := AliasFrom; aliasName := "p";
     aliasMetadata := Some postMetadata;
     tablePath := None; aliasSubQuery := None |}.

Definition categoryJoin : JoinAttribute :=
  {| direction := LEFT; entityOrProperty := "category"; joinAliasName := "c";
     condition := None; mapToProperty := None; isMappingMany := None |}.

Definition connectionTo (d : Driver) : Connection :=
  {| driver := d; optionsCache := None; queryResultCache := false |}.

(** A builder that was given runner [7] and never called [from]. *)
Definition blank (d : Driver) : SelectQueryBuilder :=
  newSelectQueryBuilder (connectionTo d) 7%nat.

(** [blank] after [from(Post, "p")]. *)
Definition posts (d : Driver) : SelectQueryBuilder :=
  updateExpressionMap
    (fun m =>
       ExpressionMap.set_mainAlias (Some postAlias)
         (ExpressionMap.set_aliases [postAlias] m)) (blank d).

(** [posts] after [leftJoin("category", "c")]. *)
Definition postsWithCategory (d : Driver) : SelectQueryBuilder :=
  updateExpressionMap (ExpressionMap.set_joinAttributes [categoryJoin]) (posts d).

(** A page window answers [ids] to a query that selects DISTINCT and
    [rows] to any other; the cache, when asked, fails to read or to store as
    the two flags say; no transaction is ever active. *)
Definition answering (ids rows : list ObjectLiteral)
    (readFails storeFails : bool) : Environment :=
  {| connection_createQueryRunner := fun _ => Replied 1%nat;
     queryRunner_isTransactionActive := fun _ _ => false;
     queryRunner_startTransaction := fun _ _ => Replied tt;
     queryRunner_commitTransaction := fun _ _ => Replied tt;
     queryRunner_rollbackTransaction := fun _ _ => Replied tt;
     queryRunner_release := fun _ _ => Replied tt;
     queryRunner_query :=
       fun _ _ sql _ => Replied (if includes "DISTINCT" sql then ids else rows);
     queryResultCache_getFromCache :=
       fun _ _ => if readFails : bool then Failed "cache read" else Replied None;
     queryResultCache_isExpired := fun _ _ => Replied true;
     queryResultCache_storeInCache :=
       fun _ _ _ => if storeFails : bool then Failed "cache store" else Replied tt;
     JSON_parse := fun _ => Replied [];
     Date_now := fun t => Z.of_nat (length t);
     relationIdLoader_load := fun _ _ => Replied [];
     relationCountLoader_load := fun _ _ => Replied [];
     transformer_transform := fun _ _ _ _ rawResults => Replied rawResults;
     relationSeparateLoader_load := fun _ entities => Replied entities;
     broadcaster_broadcastLoad := fun _ _ => Replied tt |}.

Definition firstPost : ObjectLiteral :=
  [("p_id", JsNumber 1); ("p_version", JsNumber 3);
   ("id", JsNumber 1); ("version", JsNumber 3)].

(** A connection with a result cache whose policy is given by
    [ignoreErrors]. *)
Definition cachedConnection (d : Driver) (ignore : bool) : Connection :=
  {| driver := d;
     optionsCache :=
       Some {| alwaysEnabled := true; ignoreErrors := ignore;
               optionsDuration := None |};
     queryResultCache := true |}.

(** [posts] over a connection with a result cache. *)
Definition cachedPosts (ignore : bool) : SelectQueryBuilder :=
  {| connection := cachedConnection PostgresDriver ignore;
     queryRunner := Some 7%nat;
     expressionMap := expressionMap (posts PostgresDriver) |}.

(** The row of the distinct-id query for [firstPost]. *)
Definition firstPostId : ObjectLiteral := [("ids_p_id", JsNumber 1)].

(** [postsWithCategory] after [take(5)]: a page of joined posts. *)
Definition page : SelectQueryBuilder :=
  take (Some 5) (postsWithCategory PostgresDriver).

(** [postsWithCategory] after [skip(0)]. *)
Definition fromTheStart : SelectQueryBuilder :=
  skip (Some 0) (postsWithCategory PostgresDriver).

(** [posts] on a builder that was given no query runner, after
    [useTransaction(true)]. *)
Definition transactionalPosts : SelectQueryBuilder :=
  {| connection := connectionTo PostgresDriver;
     queryRunner := None;
     expressionMap :=
       ExpressionMap.set_useTransaction true
         (expressionMap (posts PostgresDriver)) |}.

(** A grouped, ordered, limited and locked selection used as a
    sub-query. *)
Definition busiest : SelectQueryBuilder :=
  updateExpressionMap (ExpressionMap.set_subQuery true)
    (setLock pessimistic_write None None
       (limit (Some 10)
          (orderBy (OrderBySort "p.id" DESC None)
             (having "COUNT(c.id) > 1" None
                (groupBy (Some "p.id") (postsWithCategory PostgresDriver)))))).

(** The builder of the first query of [page]. *)
Definition pageIdsBuilder : SelectQueryBuilder :=
  match distinctIdsBuilder plain page 7%nat postAlias with
  | Return idsBuilder => idsBuilder
  | Throw _ => page
  end.


(** A cache that holds [saved] for every query, expired or not as the flag
    says, and parses it to [parsed]; the driver answers [rows]. *)
Definition remembering (saved : QueryResultCacheOptions) (expired : bool)
    (parsed rows : list ObjectLiteral) : Environment :=
  {| connection_createQueryRunner := fun _ => Replied 1%nat;
     queryRunner_isTransactionActive := fun _ _ => false;
     queryRunner_startTransaction := fun _ _ => Replied tt;
     queryRunner_commitTransaction := fun _ _ => Replied tt;
     queryRunner_rollbackTransaction := fun _ _ => Replied tt;
     queryRunner_release := fun _ _ => Replied tt;
     queryRunner_query := fun _ _ _ _ => Replied rows;
     queryResultCache_getFromCache := fun _ _ => Replied (Some saved);
     queryResultCache_isExpired := fun _ _ => Replied expired;
     queryResultCache_storeInCache := fun _ _ _ => Replied tt;
     JSON_parse := fun _ => Replied parsed;
     Date_now := fun t => Z.of_nat (length t);
     relationIdLoader_load := fun _ _ => Replied [];
     relationCountLoader_load := fun _ _ => Replied [];
     transformer_transform := fun _ _ _ _ rawResults => Replied rawResults;
     relationSeparateLoader_load := fun _ entities => Replied entities;
     broadcaster_broadcastLoad := fun _ _ => Replied tt |}.

(** A cache entry saved for the query of [posts]. *)
Definition savedPosts : QueryResultCacheOptions :=
  {| identifier := None;
     query := "SELECT * FROM post p -- PARAMETERS: []";
     time := Some 1; duration := 1000; result := Some "[post 1]" |}.


(** An entity without a version column and without an update-date
    column. *)
Definition tagMetadata : EntityMetadata :=
  {| name := "tag";
     primaryColumns := [idColumn];
     hasMultiplePrimaryKeys := false;
     versionColumn := None;
     updateDateColumn := None |}.

Definition tagAlias : Alias :=
  {| aliasType := AliasFrom; aliasName := "t";
     aliasMetadata := Some tagMetadata;
     tablePath := None; aliasSubQuery := None |}.

(** [blank] after [from(Tag, "t")]. *)
Definition tags : SelectQueryBuilder :=
  updateExpressionMap
    (fun m =>
       ExpressionMap.set_mainAlias (Some tagAlias)
         (ExpressionMap.set_aliases [tagAlias] m)) (blank PostgresDriver).

(** An entity with an update-date column and no version column. *)
Definition updatedAtColumn : ColumnMetadata :=
  {| databaseName := "updatedAt"; propertyPath := "updatedAt";
     getEntityValue := fun entity => getProperty entity "updatedAt" |}.

Definition articleMetadata : EntityMetadata :=
  {| name := "article";
     primaryColumns := [idColumn];
     hasMultiplePrimaryKeys := false;
     versionColumn := None;
     updateDateColumn := Some updatedAtColumn |}.

Definition articleAlias : Alias :=
  {| aliasType := AliasFrom; aliasName := "a";
     aliasMetadata := Some articleMetadata;
     tablePath := None; aliasSubQuery := None |}.

(** [blank] after [from(Article, "a")]. *)
Definition articles : SelectQueryBuilder :=
  updateExpressionMap
    (fun m =>
       ExpressionMap.set_mainAlias (Some articleAlias)
         (ExpressionMap.set_aliases [articleAlias] m)) (blank PostgresDriver).

(** An article last updated at time [1700000000000]. *)
Definition firstArticle : ObjectLiteral :=
  [("id", JsNumber 1); ("updatedAt", JsDate 1700000000000)].

(** The no-break space U+00A0, in UTF-8. *)
Definition noBreakSpace : string :=
  String (ascii_of_nat 194) (String (ascii_of_nat 160) EmptyString).

(** A sub-query whose last clause, the HAVING condition as the caller
    wrote it, ends with a blank, a no-break space and a blank. *)
Definition padded : SelectQueryBuilder :=
  updateExpressionMap (ExpressionMap.set_subQuery true)
    (having ("COUNT(c.id) > 1 " ++ noBreakSpace ++ " ") None
       (groupBy (Some "p.id") (postsWithCategory PostgresDriver))).

(** [blank] after [from("posts_tbl", "p")]: the main alias is a table, not
    an entity. *)
Definition postsTable : SelectQueryBuilder :=
  from "posts_tbl" "p" (blank PostgresDriver).

End Scenario.

(* ===================================================================== *)
(** ** Strings *)
(* ===================================================================== *)

Lemma prefix_append (x rest : string) : prefix x (x ++ rest) = true.
Proof.
  induction x as [|c x IH]; simpl.
  - destruct rest; reflexivity.
  - destruct (ascii_dec c c) as [_|Hne]; [exact IH | contradiction].
Qed.

Lemma includes_unfold (x s : string) :
  includes x s =
  prefix x s ||
  match s with
  | EmptyString => false
  | String _ rest => includes x rest
  end.
Proof. destruct s; reflexivity. Qed.

Lemma includes_here (x rest : string) : includes x (x ++ rest) = true.
Proof. rewrite includes_unfold, prefix_append. reflexivity. Qed.

Lemma includes_later (x s : string) (c : ascii) :
  includes x s = true -> includes x (String c s) = true.
Proof.
  intros H. rewrite includes_unfold, H. apply orb_true_r.
Qed.

Lemma includes_append (x before rest : string) :
  includes x (before ++ x ++ rest) = true.
Proof.
  induction before as [|c before IH].
  - simpl. apply includes_here.
  - simpl. apply includes_later, IH.
Qed.

Lemma includes_at_end (x before : string) : includes x (before ++ x) = true.
Proof.
  induction before as [|c before IH]; simpl.
  - rewrite includes_unfold.
    replace (prefix x x) with true; [reflexivity|].
    symmetry. induction x as [|a x IHx]; simpl; [reflexivity|].
    destruct (ascii_dec a a); [exact IHx | contradiction].
  - apply includes_later, IH.
Qed.

Lemma append_assoc (a b c : string) : (a ++ b) ++ c = a ++ b ++ c.
Proof.
  induction a as [|x a IH]; simpl; [reflexivity | now rewrite IH].
Qed.

Lemma append_empty_r (a : string) : a ++ "" = a.
Proof.
  induction a as [|x a IH]; simpl; [reflexivity | now rewrite IH].
Qed.

(** *** White space and [trim] *)

Lemma isWhiteSpace2_lead (c1 c2 : ascii) :
  isWhiteSpace2 c1 c2 = true -> isWhiteSpace c1 = false.
Proof.
  unfold isWhiteSpace2, isWhiteSpace. intros H.
  apply andb_true_iff in H. destruct H as [H _]. apply Nat.eqb_eq in H.
  rewrite H. reflexivity.
Qed.

Lemma isWhiteSpace3_lead (c1 c2 c3 : ascii) :
  isWhiteSpace3 c1 c2 c3 = true ->
  isWhiteSpace c1 = false /\ isWhiteSpace2 c1 c2 = false.
Proof.
  unfold isWhiteSpace3, isWhiteSpace2, isWhiteSpace. cbv zeta. intros H.
  repeat (apply orb_true_iff in H; destruct H as [H|H]);
    repeat (apply andb_true_iff in H; destruct H as [H ?]);
    apply Nat.eqb_eq in H; rewrite H; split; reflexivity.
Qed.

Lemma allWhiteSpace_app (leading rest : string) :
  allWhiteSpace leading = true -> allWhiteSpace rest = true ->
  allWhiteSpace (leading ++ rest) = true.
Proof.
  intros Hleading Hrest.
  remember (String.length leading) as n eqn:Hn.
  revert leading Hn Hleading.
  induction n as [n IH] using lt_wf_ind. intros leading Hn Hleading.
  destruct leading as [|c1 rest1]; [exact Hrest|].
  cbn [append allWhiteSpace] in *.
  destruct (isWhiteSpace c1).
  { apply (IH (String.length rest1)); [subst n; simpl; lia | reflexivity | exact Hleading]. }
  destruct rest1 as [|c2 rest2]; [discriminate Hleading|].
  cbn [append] in *.
  destruct (isWhiteSpace2 c1 c2).
  { apply (IH (String.length rest2)); [subst n; simpl; lia | reflexivity | exact Hleading]. }
  destruct rest2 as [|c3 rest3]; [discriminate Hleading|].
  cbn [append] in *.
  apply andb_true_iff in Hleading. destruct Hleading as [H3 Hleading].
  rewrite H3. cbn [andb].
  apply (IH (String.length rest3)); [subst n; simpl; lia | reflexivity | exact Hleading].
Qed.

Lemma allWhiteSpace_codePoint (s : string) :
  isWhiteSpaceCodePoint s = true -> allWhiteSpace s = true.
Proof.
  destruct s as [|c1 [|c2 [|c3 [|c4 rest]]]]; simpl; try discriminate.
  - intros ->. reflexivity.
  - intros H. rewrite (isWhiteSpace2_lead _ _ H), H. reflexivity.
  - intros H. destruct (isWhiteSpace3_lead _ _ _ H) as [H1 H2].
    rewrite H1, H2, H. reflexivity.
Qed.

Lemma trimStart_decompose (s : string) :
  exists leading, s = leading ++ trimStart s /\ allWhiteSpace leading = true.
Proof.
  remember (String.length s) as n eqn:Hn. revert s Hn.
  induction n as [n IH] using lt_wf_ind. intros s Hn.
  destruct s as [|c1 rest1]; [exists ""; split; reflexivity|].
  cbn [trimStart].
  destruct (isWhiteSpace c1) eqn:H1.
  { destruct (IH (String.length rest1) ltac:(subst n; simpl; lia) rest1 eq_refl)
      as (leading & Hsplit & Hblank).
    exists (String c1 leading). split.
    - simpl. rewrite <- Hsplit. reflexivity.
    - simpl. rewrite H1. exact Hblank. }
  destruct rest1 as [|c2 rest2]; [exists ""; split; reflexivity|].
  destruct (isWhiteSpace2 c1 c2) eqn:H2.
  { destruct (IH (String.length rest2) ltac:(subst n; simpl; lia) rest2 eq_refl)
      as (leading & Hsplit & Hblank).
    exists (String c1 (String c2 leading)). split.
    - simpl. rewrite <- Hsplit. reflexivity.
    - simpl. rewrite H1, H2. exact Hblank. }
  destruct rest2 as [|c3 rest3]; [exists ""; split; reflexivity|].
  destruct (isWhiteSpace3 c1 c2 c3) eqn:H3; [|exists ""; split; reflexivity].
  destruct (IH (String.length rest3) ltac:(subst n; simpl; lia) rest3 eq_refl)
    as (leading & Hsplit & Hblank).
  exists (String c1 (String c2 (String c3 leading))). split.
  - simpl. rewrite <- Hsplit. reflexivity.
  - simpl. rewrite H1, H2, H3. exact Hblank.
Qed.

Lemma trimStart_clean (s : string) : startsWithWhiteSpace (trimStart s) = false.
Proof.
  remember (String.length s) as n eqn:Hn. revert s Hn.
  induction n as [n IH] using lt_wf_ind. intros s Hn.
  destruct s as [|c1 rest1]; [reflexivity|].
  cbn [trimStart].
  destruct (isWhiteSpace c1) eqn:H1.
  { apply (IH (String.length rest1)); [subst n; simpl; lia | reflexivity]. }
  destruct rest1 as [|c2 rest2]; [simpl; rewrite H1; reflexivity|].
  destruct (isWhiteSpace2 c1 c2) eqn:H2.
  { apply (IH (String.length rest2)); [subst n; simpl; lia | reflexivity]. }
  destruct rest2 as [|c3 rest3]; [simpl; rewrite H1, H2; reflexivity|].
  destruct (isWhiteSpace3 c1 c2 c3) eqn:H3.
  { apply (IH (String.length rest3)); [subst n; simpl; lia | reflexivity]. }
  simpl. rewrite H1, H2, H3. reflexivity.
Qed.

Lemma trimEnd_decompose (s : string) :
  exists trailing, s = trimEnd s ++ trailing /\ allWhiteSpace trailing = true.
Proof.
  induction s as [|c rest IH]; [exists ""; split; reflexivity|].
  destruct IH as (trailing & Hsplit & Hblank).
  cbn [trimEnd]. cbv zeta.
  destruct (isWhiteSpaceCodePoint (String c (trimEnd rest))) eqn:Hpoint.
  - exists (String c (trimEnd rest) ++ trailing). split.
    + simpl. rewrite <- Hsplit. reflexivity.
    + apply allWhiteSpace_app; [apply allWhiteSpace_codePoint, Hpoint | exact Hblank].
  - exists trailing. split; [|exact Hblank].
    simpl. rewrite <- Hsplit. reflexivity.
Qed.

Lemma trimEnd_clean (s : string) : endsWithWhiteSpace (trimEnd s) = false.
Proof.
  induction s as [|c rest IH]; [reflexivity|].
  cbn [trimEnd]. cbv zeta.
  destruct (isWhiteSpaceCodePoint (String c (trimEnd rest))) eqn:Hpoint;
    [reflexivity|].
  cbn [endsWithWhiteSpace]. rewrite Hpoint, IH. reflexivity.
Qed.

Lemma startsWithWhiteSpace_prefix (before after : string) :
  startsWithWhiteSpace (before ++ after) = false ->
  startsWithWhiteSpace before = false.
Proof.
  destruct before as [|c1 [|c2 [|c3 rest]]]; simpl; try reflexivity.
  - intros H. apply orb_false_iff in H. destruct H as [-> _]. reflexivity.
  - intros H. apply orb_false_iff in H. destruct H as [-> H].
    apply orb_false_iff in H. destruct H as [-> _]. reflexivity.
  - intros H. exact H.
Qed.

(** [trim] removes white space at both ends and nothing else: what is
    left neither opens nor closes with white space. *)
Lemma trim_spec (s : string) :
  (exists leading trailing,
     s = leading ++ trim s ++ trailing /\
     allWhiteSpace leading = true /\ allWhiteSpace trailing = true) /\
  startsWithWhiteSpace (trim s) = false /\
  endsWithWhiteSpace (trim s) = false.
Proof.
  unfold trim.
  destruct (trimStart_decompose s) as (leading & Hleading & Hblank).
  destruct (trimEnd_decompose (trimStart s)) as (trailing & Htrailing & Hblank').
  split; [|split].
  - exists leading, trailing. split; [|split; assumption].
    rewrite <- Htrailing. exact Hleading.
  - apply startsWithWhiteSpace_prefix with (after := trailing).
    rewrite <- Htrailing. apply trimStart_clean.
  - apply trimEnd_clean.
Qed.

(* ===================================================================== *)
(** ** Clause compilation *)
(* ===================================================================== *)

Section CompilerFacts.

Variable C : Collaborators.

Lemma truthy_zero : truthy (Some 0) = false.
Proof. reflexivity. Qed.

Lemma truthy_positive (n : Z) : 0 < n -> truthy (Some n) = true.
Proof.
  intros H. unfold truthy. destruct (Z.eqb_spec n 0); [lia | reflexivity].
Qed.

(** C3.  With a positive [offset] and no [limit], the MySQL family (MySQL,
    Aurora Data API, SAP) throws [OffsetWithoutLimitNotSupportedError];
    every other dialect returns a clause that contains [OFFSET m], and
    SQLite's clause is [LIMIT -1 OFFSET m]. *)
Theorem offset_without_limit (qb : SelectQueryBuilder) (m : Z) :
  ExpressionMap.offset (expressionMap qb) = Some m ->
  0 < m ->
  ExpressionMap.limit (expressionMap qb) = None ->
  (lacksOffsetWithoutLimit (driver (connection qb)) = true ->
   createLimitOffsetExpression C qb = Throw OffsetWithoutLimitNotSupportedError) /\
  (lacksOffsetWithoutLimit (driver (connection qb)) = false ->
   exists clause,
     createLimitOffsetExpression C qb = Return clause /\
     includes ("OFFSET " ++ Number_toString m) clause = true) /\
  (driver (connection qb) = AbstractSqliteDriver ->
   createLimitOffsetExpression C qb =
   Return (" LIMIT -1 OFFSET " ++ Number_toString m)).
Proof.
  intros Hoffset Hpos Hlimit.
  assert (Hm : (m =? 0) = false) by (apply Z.eqb_neq; lia).
  unfold createLimitOffsetExpression, truthy.
  rewrite Hoffset, Hlimit, Hm. simpl. rewrite ?Hm. simpl.
  repeat split.
  - destruct (driver (connection qb)); simpl; intros H;
      try discriminate H; reflexivity.
  - destruct (driver (connection qb)); simpl; intros H; try discriminate H.
    + destruct (Nat.leb (length (allOrderBysOf C (expressionMap qb))) 0);
        eexists; (split; [reflexivity|]).
      * exact (includes_append ("OFFSET " ++ Number_toString m) " ORDER BY (SELECT NULL) " " ROWS").
      * exact (includes_append ("OFFSET " ++ Number_toString m) " " " ROWS").
    + eexists; split; [reflexivity|].
      exact (includes_at_end ("OFFSET " ++ Number_toString m) " LIMIT -1 ").
    + eexists; split; [reflexivity|].
      exact (includes_append ("OFFSET " ++ Number_toString m) " " " ROWS").
    + eexists; split; [reflexivity|]. exact (includes_at_end ("OFFSET " ++ Number_toString m) " ").
    + eexists; split; [reflexivity|]. exact (includes_at_end ("OFFSET " ++ Number_toString m) " ").
    + eexists; split; [reflexivity|]. exact (includes_at_end ("OFFSET " ++ Number_toString m) " ").
  - intros ->. reflexivity.
Qed.

(** With [offset] at zero the clause is the one compiled with [offset]
    unset, whatever the limit. *)
Lemma offset_zero_like_unset (qb : SelectQueryBuilder) :
  createLimitOffsetExpression C (offset (Some 0) qb) =
  createLimitOffsetExpression C (offset None qb).
Proof.
  unfold createLimitOffsetExpression. simpl.
  destruct (truthy (ExpressionMap.limit (expressionMap qb))) eqn:Hlimit;
    destruct (Nat.eqb (length (ExpressionMap.joinAttributes (expressionMap qb))) 0);
    simpl; rewrite ?Hlimit; simpl; try reflexivity;
    destruct (driver (connection qb)); simpl; rewrite ?andb_false_r;
    reflexivity.
Qed.

(** C4 (amended).  On every dialect [limit=5, offset=0] compiles to the
    clause of [limit=5] with [offset] unset; on every dialect but SQL Server
    that clause has no OFFSET at all.  (SQL Server's limit-only form is
    [OFFSET 0 ROWS FETCH NEXT 5 ROWS ONLY].) *)
Theorem limit_with_offset_zero (qb : SelectQueryBuilder) :
  createLimitOffsetExpression C (offset (Some 0) (limit (Some 5) qb)) =
  createLimitOffsetExpression C (offset None (limit (Some 5) qb)) /\
  (driver (connection qb) <> SqlServerDriver ->
   exists clause,
     createLimitOffsetExpression C (offset (Some 0) (limit (Some 5) qb)) =
     Return clause /\
     includes "OFFSET" clause = false).
Proof.
  split; [reflexivity|].
  intros Hdriver. unfold createLimitOffsetExpression. simpl.
  destruct (driver (connection qb)); try contradiction;
    eexists; (split; [reflexivity | vm_compute; reflexivity]).
Qed.

(** C5.  When every clause compiler returns, [getQuery] returns the
    fragments concatenated in the order comment, SELECT, JOIN, WHERE,
    GROUP BY, HAVING, ORDER BY, LIMIT/OFFSET, LOCK, trimmed, and in
    parentheses exactly when the model is a sub-query.  Trimmed: the
    concatenation is the returned text between two runs of white space,
    and the returned text neither opens nor closes with white space. *)
Theorem getQuery_fixed_order (qb : SelectQueryBuilder)
    (comment selectClause joinClause whereClause limitOffset lock : string) :
  createComment C qb = Replied comment ->
  createSelectExpression C qb = Return selectClause ->
  createJoinExpression C qb = Replied joinClause ->
  createWhereExpression C qb = Replied whereClause ->
  createLimitOffsetExpression C qb = Return limitOffset ->
  createLockExpression qb = Return lock ->
  let fragments :=
    comment ++ selectClause ++ joinClause ++ whereClause ++
    createGroupByExpression C qb ++ createHavingExpression C qb ++
    createOrderByExpression C qb ++ limitOffset ++ lock in
  let sql := trim fragments in
  (exists leading trailing,
     fragments = leading ++ sql ++ trailing /\
     allWhiteSpace leading = true /\ allWhiteSpace trailing = true) /\
  startsWithWhiteSpace sql = false /\
  endsWithWhiteSpace sql = false /\
  getQuery C qb =
  Return (if ExpressionMap.subQuery (expressionMap qb)
          then "(" ++ sql ++ ")" else sql).
Proof.
  intros Hcomment Hselect Hjoin Hwhere Hlimit Hlock fragments sql.
  destruct (trim_spec fragments) as (Hsplit & Hstart & Hend).
  split; [exact Hsplit|]. split; [exact Hstart|]. split; [exact Hend|].
  subst sql fragments. unfold getQuery.
  rewrite Hcomment, Hselect, Hjoin, Hwhere, Hlimit, Hlock. simpl.
  rewrite !append_assoc. reflexivity.
Qed.

(** A distinct count never reads [COUNT(1)]. *)
Lemma distinctPrimaryKeyCount_not_plain (d : Driver) (columns : list string) :
  distinctPrimaryKeyCount d columns <> "COUNT(1)".
Proof.
  destruct d; simpl; try discriminate;
    destruct columns as [|c [|c' rest]]; discriminate.
Qed.

Lemma nothingJoined_decide (m : QueryExpressionMap) :
  Nat.eqb (length (ExpressionMap.joinAttributes m)) 0 &&
  Nat.eqb (length (ExpressionMap.relationIdAttributes m)) 0 &&
  Nat.eqb (length (ExpressionMap.relationCountAttributes m)) 0 = true <->
  nothingJoined m.
Proof.
  unfold nothingJoined.
  destruct (ExpressionMap.joinAttributes m), (ExpressionMap.relationIdAttributes m),
    (ExpressionMap.relationCountAttributes m); simpl;
    split; intros H; try discriminate H; try reflexivity;
    try (repeat split; reflexivity);
    destruct H as (H1 & H2 & H3); discriminate.
Qed.

(** The code's distinct count is the one the specification describes. *)
Lemma computeCountExpression_cases (qb : SelectQueryBuilder) (a : Alias)
    (metadata : EntityMetadata) :
  ExpressionMap.mainAlias (expressionMap qb) = Some a ->
  aliasMetadata a = Some metadata ->
  computeCountExpression C qb =
  Return
    (if Nat.eqb (length (ExpressionMap.joinAttributes (expressionMap qb))) 0 &&
        Nat.eqb (length (ExpressionMap.relationIdAttributes (expressionMap qb))) 0 &&
        Nat.eqb (length (ExpressionMap.relationCountAttributes (expressionMap qb))) 0
     then "COUNT(1)"
     else distinctPrimaryKeyCount (driver (connection qb))
            (countedColumns C qb a metadata)).
Proof.
  intros Halias Hmetadata.
  unfold computeCountExpression, mainAlias_, Alias_metadata, countedColumns.
  rewrite Halias. simpl. rewrite Hmetadata. simpl.
  destruct (_ && _ && _); [reflexivity|].
  destruct (driver (connection qb)); simpl; try reflexivity;
    destruct (primaryColumns metadata) as [|c [|c' rest]]; reflexivity.
Qed.

(** C2.  For a model whose main alias is set and carries entity metadata,
    [computeCountExpression] returns [COUNT(1)] exactly when there is no
    join, no relation-id and no relation-count attribute, and otherwise the
    count of distinct primary-key columns: multi-column DISTINCT on
    PostgreSQL, CockroachDB and MySQL, CONCAT on SQL Server and [||]
    elsewhere, a single primary-key column never being concatenated. *)
Theorem count_expression (qb : SelectQueryBuilder) (a : Alias)
    (metadata : EntityMetadata) :
  ExpressionMap.mainAlias (expressionMap qb) = Some a ->
  aliasMetadata a = Some metadata ->
  (computeCountExpression C qb = Return "COUNT(1)" <->
   nothingJoined (expressionMap qb)) /\
  (~ nothingJoined (expressionMap qb) ->
   computeCountExpression C qb =
   Return (distinctPrimaryKeyCount (driver (connection qb))
             (countedColumns C qb a metadata))).
Proof.
  intros Halias Hmetadata.
  rewrite (computeCountExpression_cases qb Halias Hmetadata).
  pose proof (nothingJoined_decide (expressionMap qb)) as Hdecide.
  destruct (_ && _ && _).
  - split; [|intros Hnot; exfalso; apply Hnot, Hdecide; reflexivity].
    split; [intros _; apply Hdecide; reflexivity | reflexivity].
  - split; [|reflexivity].
    split.
    + intros H. injection H as H.
      exfalso. exact (distinctPrimaryKeyCount_not_plain _ _ H).
    + intros H. apply Hdecide in H. discriminate H.
Qed.

End CompilerFacts.

(* ===================================================================== *)
(** ** The havings sequence *)
(* ===================================================================== *)

Lemma havings_setOptionalParameters (parameters : option ObjectLiteral)
    (qb : SelectQueryBuilder) :
  ExpressionMap.havings (expressionMap (setOptionalParameters parameters qb)) =
  ExpressionMap.havings (expressionMap qb).
Proof. destruct parameters; reflexivity. Qed.

Lemma havings_having (condition' : string) (parameters : option ObjectLiteral)
    (qb : SelectQueryBuilder) :
  ExpressionMap.havings (expressionMap (having condition' parameters qb)) =
  (ExpressionMap.havings (expressionMap qb) ++
   [{| type := Simple; havingCondition := condition' |}])%list.
Proof. unfold having. rewrite havings_setOptionalParameters. reflexivity. Qed.

Lemma havings_andHaving (condition' : string) (parameters : option ObjectLiteral)
    (qb : SelectQueryBuilder) :
  ExpressionMap.havings (expressionMap (andHaving condition' parameters qb)) =
  (ExpressionMap.havings (expressionMap qb) ++
   [{| type := And; havingCondition := condition' |}])%list.
Proof. unfold andHaving. rewrite havings_setOptionalParameters. reflexivity. Qed.

Lemma havings_orHaving (condition' : string) (parameters : option ObjectLiteral)
    (qb : SelectQueryBuilder) :
  ExpressionMap.havings (expressionMap (orHaving condition' parameters qb)) =
  (ExpressionMap.havings (expressionMap qb) ++
   [{| type := Or; havingCondition := condition' |}])%list.
Proof. unfold orHaving. rewrite havings_setOptionalParameters. reflexivity. Qed.

(** Appending an entry that is not ["simple"] keeps the invariant. *)
Lemma simpleOnlyFirst_append (havings : list HavingClause) (clause : HavingClause) :
  simpleOnlyFirst havings -> type clause <> Simple ->
  simpleOnlyFirst (havings ++ [clause]).
Proof.
  intros Hinv Hclause index found Hfound Hsimple.
  destruct (Nat.lt_ge_cases index (length havings)) as [Hlt|Hge].
  - rewrite nth_error_app1 in Hfound by exact Hlt. eauto.
  - rewrite nth_error_app2 in Hfound by exact Hge.
    destruct (index - length havings)%nat as [|n]; simpl in Hfound.
    + injection Hfound as <-. contradiction.
    + destruct n; discriminate.
Qed.

(** [andHaving] and [orHaving] keep the invariant, and [having] establishes
    it on a builder without havings. *)
Lemma andHaving_keeps_invariant (condition' : string)
    (parameters : option ObjectLiteral) (qb : SelectQueryBuilder) :
  simpleOnlyFirst (ExpressionMap.havings (expressionMap qb)) ->
  simpleOnlyFirst
    (ExpressionMap.havings (expressionMap (andHaving condition' parameters qb))).
Proof.
  intros H. rewrite havings_andHaving.
  apply simpleOnlyFirst_append; [exact H | discriminate].
Qed.

Lemma orHaving_keeps_invariant (condition' : string)
    (parameters : option ObjectLiteral) (qb : SelectQueryBuilder) :
  simpleOnlyFirst (ExpressionMap.havings (expressionMap qb)) ->
  simpleOnlyFirst
    (ExpressionMap.havings (expressionMap (orHaving condition' parameters qb))).
Proof.
  intros H. rewrite havings_orHaving.
  apply simpleOnlyFirst_append; [exact H | discriminate].
Qed.

Lemma having_first_keeps_invariant (condition' : string)
    (parameters : option ObjectLiteral) (qb : SelectQueryBuilder) :
  ExpressionMap.havings (expressionMap qb) = [] ->
  simpleOnlyFirst
    (ExpressionMap.havings (expressionMap (having condition' parameters qb))).
Proof.
  intros H. rewrite havings_having, H. intros [|[|index]] clause Hfound _;
    [reflexivity | discriminate | discriminate].
Qed.

(** C8.  [having] pushes its ["simple"] entry without clearing the list:
    after [having(first)] and [having(second)], on any builder, a
    ["simple"] entry stands behind the first position. *)
Theorem having_twice_breaks_invariant (qb : SelectQueryBuilder)
    (first second : string) (parameters parameters' : option ObjectLiteral) :
  ~ simpleOnlyFirst
      (ExpressionMap.havings
         (expressionMap (having second parameters' (having first parameters qb)))).
Proof.
  rewrite !havings_having. intros Hinv.
  set (before := ExpressionMap.havings (expressionMap qb)) in *.
  specialize (Hinv (S (length before))
                {| type := Simple; havingCondition := second |}).
  assert (Hzero : S (length before) = 0%nat); [|discriminate Hzero].
  apply Hinv; [|reflexivity].
  rewrite nth_error_app2 by (rewrite length_app; cbn [length]; lia).
  replace (S (length before) -
           length (before ++ [{| type := Simple; havingCondition := first |}]))%nat
    with 0%nat by (rewrite length_app; cbn [length]; lia).
  reflexivity.
Qed.

(** The HAVING clause compiled after the two calls joins the two conditions
    with a blank only. *)
Example having_twice_compiled :
  createHavingExpression Scenario.plain
    (having "SUM(p.views) < 9" None
       (having "COUNT(c.id) > 1" None (Scenario.posts PostgresDriver))) =
  " HAVING COUNT(c.id) > 1 SUM(p.views) < 9".
Proof. reflexivity. Qed.

(* ===================================================================== *)
(** ** Execution: lock preconditions *)
(* ===================================================================== *)

Section ExecutionFacts.

Variable C : Collaborators.
Variable E : Environment.

(** C6.  With the lock mode ["optimistic"], [getRawMany], [getMany],
    [getCount] and [getManyAndCount] throw
    [OptimisticLockCanNotBeUsedError] and leave the trace as it was: no
    query runner is created and nothing is dispatched. *)
Theorem optimistic_lock_rejected (qb : SelectQueryBuilder) (t : Trace) :
  ExpressionMap.lockMode (expressionMap qb) = Some optimistic ->
  getRawMany C E qb t = (Throw OptimisticLockCanNotBeUsedError, t) /\
  getMany C E qb t = (Throw OptimisticLockCanNotBeUsedError, t) /\
  getCount C E qb t = (Throw OptimisticLockCanNotBeUsedError, t) /\
  getManyAndCount C E qb t = (Throw OptimisticLockCanNotBeUsedError, t).
Proof.
  intros Hlock.
  unfold getRawMany, getMany, getCount, getManyAndCount.
  rewrite Hlock. repeat split.
Qed.

(** The five pessimistic lock modes. *)
Lemma isPessimistic_modes (mode : LockMode) :
  In mode [pessimistic_read; pessimistic_write; pessimistic_partial_write;
           pessimistic_write_or_fail; for_no_key_update] ->
  isPessimistic (Some mode) = true.
Proof.
  simpl. intros [<-|[<-|[<-|[<-|[<-|[]]]]]]; reflexivity.
Qed.

(** C7 (amended).  With a main alias set, a pessimistic lock mode and a
    query runner without an active transaction,
    [executeEntitiesAndRawResults] throws
    [PessimisticLockTransactionRequiredError] and leaves the trace as it
    was. *)
Theorem pessimistic_lock_requires_transaction (qb : SelectQueryBuilder)
    (mainAlias : Alias) (mode : LockMode) (queryRunner : QueryRunner)
    (t : Trace) :
  ExpressionMap.mainAlias (expressionMap qb) = Some mainAlias ->
  ExpressionMap.lockMode (expressionMap qb) = Some mode ->
  In mode [pessimistic_read; pessimistic_write; pessimistic_partial_write;
           pessimistic_write_or_fail; for_no_key_update] ->
  queryRunner_isTransactionActive E t queryRunner = false ->
  executeEntitiesAndRawResults C E qb queryRunner t =
  (Throw PessimisticLockTransactionRequiredError, t).
Proof.
  intros Halias Hlock Hmode Hinactive.
  unfold executeEntitiesAndRawResults. rewrite Halias.
  unfold bind, checkLockPreconditions, bind, isTransactionActive.
  rewrite Hinactive, Hlock, (isPessimistic_modes Hmode). reflexivity.
Qed.

(* --------------------------------------------------------------------- *)
(** *** Result cache *)

(** C9.  With the result cache active and the query compiled:
    - an error thrown while reading from the cache is rethrown when the
      policy is strict ([ignoreErrors] unset); otherwise the driver query
      is dispatched next and its completion is the result;
    - an error thrown while storing the rows of a dispatched query is
      rethrown when the policy is strict; otherwise the rows are
      returned. *)
Theorem cache_errors_follow_policy (qb : SelectQueryBuilder)
    (queryRunner : QueryRunner) (sql : string) (parameters : list JsValue) :
  getQueryAndParameters C qb = Return (sql, parameters) ->
  cachingActive qb = true ->
  let queryId := queryIdOf C sql parameters in
  (forall t error t1,
     readFromCache E qb queryId t = (Throw error, t1) ->
     loadRawResults C E qb queryRunner t =
     if ignoreErrors (cacheOptionsOf qb)
     then (await (queryRunner_query E t1 queryRunner sql parameters),
           (t1 ++ [Query queryRunner sql parameters])%list)
     else (Throw error, t1)) /\
  (forall t saved t1 records error t2,
     readFromCache E qb queryId t = (Return (NotCached saved), t1) ->
     queryRunner_query E t1 queryRunner sql parameters = Replied records ->
     writeToCache C E qb queryId saved records
       (t1 ++ [Query queryRunner sql parameters])%list = (Throw error, t2) ->
     loadRawResults C E qb queryRunner t =
     if ignoreErrors (cacheOptionsOf qb)
     then (Return records, t2)
     else (Throw error, t2)).
Proof.
  intros Hcompiled Hactive queryId. split.
  - intros t error t1 Hread.
    unfold loadRawResults, bind, sync. rewrite Hcompiled, Hactive.
    unfold lookupInCache, tryCatch. fold queryId. rewrite Hread.
    destruct (ignoreErrors (cacheOptionsOf qb)); reflexivity.
  - intros t saved t1 records error t2 Hread Hquery Hwrite.
    unfold loadRawResults, bind, sync. rewrite Hcompiled, Hactive.
    unfold lookupInCache, tryCatch at 1. fold queryId. rewrite Hread.
    unfold runQuery, call. rewrite Hquery. simpl.
    unfold storeInCache, tryCatch. rewrite Hwrite.
    destruct (ignoreErrors (cacheOptionsOf qb)); reflexivity.
Qed.

(* --------------------------------------------------------------------- *)
(** *** Which errors a method can throw *)

Lemma bindC_Return {A B : Type} (c : Completion A) (k : A -> Completion B)
    (b : B) :
  bindC c k = Return b -> exists a, c = Return a /\ k a = Return b.
Proof.
  destruct c as [a|e]; simpl; intros H; [|discriminate H].
  exists a. split; [reflexivity | exact H].
Qed.

Lemma quietC_Return {A : Type} (a : A) : quietC (Return a).
Proof. intros e H. discriminate H. Qed.

Lemma quietC_Throw {A : Type} (e : Error) : benign e -> quietC (@Throw A e).
Proof. intros He e' H. injection H as <-. exact He. Qed.

Lemma quietC_await {A : Type} (r : Reply A) : quietC (await r).
Proof. destruct r; intros e H; [discriminate H | injection H as <-; exact I]. Qed.

Lemma quietC_bind {A B : Type} (c : Completion A) (k : A -> Completion B) :
  quietC c -> (forall a, quietC (k a)) -> quietC (bindC c k).
Proof.
  intros Hc Hk e H. destruct c as [a|e']; simpl in H.
  - exact (Hk a e H).
  - injection H as <-. apply Hc. reflexivity.
Qed.

Lemma quietC_mapC {A B : Type} (f : A -> Completion B) (l : list A) :
  (forall a, quietC (f a)) -> quietC (mapC f l).
Proof.
  intros Hf. induction l as [|x l IH]; simpl.
  - apply quietC_Return.
  - apply quietC_bind; [apply Hf | intros y].
    apply quietC_bind; [exact IH | intros ys; apply quietC_Return].
Qed.

Ltac quietC_step :=
  match goal with
  | |- quietC (Return _) => apply quietC_Return
  | |- quietC (Throw _) => apply quietC_Throw; exact I
  | |- quietC (await _) => apply quietC_await
  | |- quietC (bindC _ _) => apply quietC_bind; [|intros ?]
  | |- quietC (mapC _ _) => apply quietC_mapC; intros ?
  | |- quietC (match ?x with _ => _ end) => destruct x
  end.

Lemma quietC_Alias_metadata (a : Alias) : quietC (Alias_metadata a).
Proof. unfold Alias_metadata. repeat quietC_step. Qed.

Lemma quietC_mainAlias_ (qb : SelectQueryBuilder) : quietC (mainAlias_ qb).
Proof. unfold mainAlias_. repeat quietC_step. Qed.

Lemma quietC_findAliasByName (m : QueryExpressionMap) (n : string) :
  quietC (findAliasByName m n).
Proof. unfold findAliasByName. repeat quietC_step. Qed.

Lemma quietC_createSelectExpression (qb : SelectQueryBuilder) :
  quietC (createSelectExpression C qb).
Proof. unfold createSelectExpression. repeat quietC_step. Qed.

Lemma quietC_createLimitOffsetExpression (qb : SelectQueryBuilder) :
  quietC (createLimitOffsetExpression C qb).
Proof. unfold createLimitOffsetExpression. repeat quietC_step. Qed.

Lemma quietC_createLockExpression (qb : SelectQueryBuilder) :
  quietC (createLockExpression qb).
Proof. unfold createLockExpression. repeat quietC_step. Qed.

Lemma quietC_getQuery (qb : SelectQueryBuilder) : quietC (getQuery C qb).
Proof.
  unfold getQuery.
  repeat first
    [ apply quietC_createSelectExpression
    | apply quietC_createLimitOffsetExpression
    | apply quietC_createLockExpression
    | quietC_step ].
Qed.

Lemma quietC_getQueryAndParameters (qb : SelectQueryBuilder) :
  quietC (getQueryAndParameters C qb).
Proof.
  unfold getQueryAndParameters.
  repeat first [ apply quietC_getQuery | quietC_step ].
Qed.

Lemma quietC_computeCountExpression (qb : SelectQueryBuilder) :
  quietC (computeCountExpression C qb).
Proof.
  unfold computeCountExpression.
  repeat first
    [ apply quietC_mainAlias_ | apply quietC_Alias_metadata | quietC_step ].
Qed.

Lemma quietC_derivedOrderColumn (qb : SelectQueryBuilder)
    (parentAlias aliasName' propertyPath' : string) :
  quietC (derivedOrderColumn C qb parentAlias aliasName' propertyPath').
Proof.
  unfold derivedOrderColumn.
  repeat first
    [ apply quietC_findAliasByName | apply quietC_Alias_metadata | quietC_step ].
Qed.

Lemma quietC_createOrderByCombinedWithSelectExpression (qb : SelectQueryBuilder)
    (parentAlias : string) :
  quietC (createOrderByCombinedWithSelectExpression C qb parentAlias).
Proof.
  unfold createOrderByCombinedWithSelectExpression.
  repeat first [ apply quietC_derivedOrderColumn | quietC_step ].
Qed.

Lemma quietC_distinctIdsBuilder (qb : SelectQueryBuilder)
    (queryRunner : QueryRunner) (a : Alias) :
  quietC (distinctIdsBuilder C qb queryRunner a).
Proof.
  unfold distinctIdsBuilder.
  repeat first
    [ apply quietC_createOrderByCombinedWithSelectExpression
    | apply quietC_Alias_metadata
    | apply quietC_getQuery
    | quietC_step ].
Qed.

Lemma quietC_distinctIdsCondition (qb : SelectQueryBuilder) (a : Alias)
    (metadata : EntityMetadata) (rawResults : list ObjectLiteral) :
  quietC (distinctIdsCondition C qb a metadata rawResults).
Proof. unfold distinctIdsCondition. repeat quietC_step. Qed.

Lemma quietC_transformRelationMetadata (qb : SelectQueryBuilder) :
  quietC (transformRelationMetadata C qb).
Proof. unfold transformRelationMetadata. repeat quietC_step. Qed.

Lemma quiet_ret {A : Type} (a : A) : quiet (ret a).
Proof. intros t e t' H. discriminate H. Qed.

Lemma quiet_throw {A : Type} (e : Error) : benign e -> quiet (@throw A e).
Proof. intros He t e' t' H. injection H as <- _. exact He. Qed.

Lemma quiet_sync {A : Type} (c : Completion A) : quietC c -> quiet (sync c).
Proof. intros Hc t e t' H. injection H as H _. exact (Hc e H). Qed.

Lemma quiet_call {A : Type} (event : Event) (reply : Trace -> Reply A) :
  quiet (call event reply).
Proof.
  intros t e t' H. unfold call in H. injection H as H _.
  exact (@quietC_await _ (reply t) e H).
Qed.

Lemma quiet_bind {A B : Type} (c : Async A) (k : A -> Async B) :
  quiet c -> (forall a, quiet (k a)) -> quiet (bind c k).
Proof.
  intros Hc Hk t e t' H. unfold bind in H.
  destruct (c t) as [[a|e'] t1] eqn:Hct.
  - exact (Hk a t1 e t' H).
  - injection H as <- _. exact (Hc t e' t1 Hct).
Qed.

Lemma quiet_tryCatch {A : Type} (c : Async A) (handler : Error -> Async A) :
  quiet c -> (forall e, benign e -> quiet (handler e)) ->
  quiet (tryCatch c handler).
Proof.
  intros Hc Hhandler t e t' H. unfold tryCatch in H.
  destruct (c t) as [[a|e'] t1] eqn:Hct.
  - discriminate H.
  - exact (Hhandler e' (Hc t e' t1 Hct) t1 e t' H).
Qed.

Lemma quiet_tryFinally {A : Type} (c : Async A) (finalizer : Async unit) :
  quiet c -> quiet finalizer -> quiet (tryFinally c finalizer).
Proof.
  intros Hc Hfinalizer t e t' H. unfold tryFinally in H.
  destruct (c t) as [completion t1] eqn:Hct.
  destruct (finalizer t1) as [[[]|e'] t2] eqn:Hft.
  - injection H as -> _. exact (Hc t e t1 Hct).
  - injection H as <- _. exact (Hfinalizer t1 e' t2 Hft).
Qed.

Lemma quiet_isTransactionActive (queryRunner : QueryRunner) :
  quiet (isTransactionActive E queryRunner).
Proof. intros t e t' H. discriminate H. Qed.

Ltac quiet_step :=
  match goal with
  | |- quiet (ret _) => apply quiet_ret
  | |- quiet (throw _) => apply quiet_throw; exact I
  | |- quiet (sync _) => apply quiet_sync
  | |- quiet (call _ _) => apply quiet_call
  | |- quiet (isTransactionActive _ _) => apply quiet_isTransactionActive
  | |- quiet (bind _ _) => apply quiet_bind; [|intros ?]
  | |- quiet (tryFinally _ _) => apply quiet_tryFinally
  | |- quiet (match ?x with _ => _ end) => destruct x
  end.

Lemma quiet_obtainQueryRunner (qb : SelectQueryBuilder) :
  quiet (obtainQueryRunner E qb).
Proof. unfold obtainQueryRunner. repeat quiet_step. Qed.

Lemma quiet_inOwnTransaction {A : Type} (qb : SelectQueryBuilder)
    (queryRunner : QueryRunner) (body : Async A) :
  quiet body -> quiet (inOwnTransaction E qb queryRunner body).
Proof.
  intros Hbody.
  unfold inOwnTransaction, startTransaction, commitTransaction,
    rollbackTransaction, release.
  repeat first
    [ exact Hbody
    | apply quiet_tryCatch; [|intros ? ?]
    | apply quiet_throw; assumption
    | quiet_step ].
Qed.

Lemma quiet_lookupInCache (qb : SelectQueryBuilder) (queryId : string) :
  quiet (lookupInCache E qb queryId).
Proof.
  unfold lookupInCache, readFromCache.
  repeat first
    [ apply quiet_tryCatch; [|intros ? ?]
    | apply quiet_throw; assumption
    | apply quietC_await
    | quiet_step ].
Qed.

Lemma quiet_storeInCache (qb : SelectQueryBuilder) (queryId : string)
    (saved : option QueryResultCacheOptions) (records : list ObjectLiteral) :
  quiet (storeInCache C E qb queryId saved records).
Proof.
  unfold storeInCache.
  apply quiet_tryCatch.
  - intros t e t' H. unfold writeToCache in H.
    exact (@quiet_call _ _ _ t e t' H).
  - intros e He. destruct (negb _); [apply quiet_throw; exact He | apply quiet_ret].
Qed.

Lemma quiet_loadRawResults (qb : SelectQueryBuilder) (queryRunner : QueryRunner) :
  quiet (loadRawResults C E qb queryRunner).
Proof.
  unfold loadRawResults, runQuery.
  repeat first
    [ apply quietC_getQueryAndParameters
    | apply quiet_lookupInCache
    | apply quiet_storeInCache
    | quiet_step ].
Qed.

Lemma quiet_getRawMany (qb : SelectQueryBuilder) : quiet (getRawMany C E qb).
Proof.
  unfold getRawMany.
  repeat first
    [ apply quiet_obtainQueryRunner
    | apply quiet_inOwnTransaction
    | apply quiet_loadRawResults
    | quiet_step ].
Qed.

Lemma quiet_hydrate (qb : SelectQueryBuilder) (a : Alias)
    (rawResults : list ObjectLiteral) :
  quiet (hydrate E qb a rawResults).
Proof. unfold hydrate. repeat quiet_step. Qed.

Lemma quiet_executeEntitiesAndRawResults (qb : SelectQueryBuilder)
    (queryRunner : QueryRunner) :
  quiet (executeEntitiesAndRawResults C E qb queryRunner).
Proof.
  unfold executeEntitiesAndRawResults, checkLockPreconditions,
    loadPaginatedRawResults.
  repeat first
    [ apply quietC_Alias_metadata
    | apply quietC_transformRelationMetadata
    | apply quietC_distinctIdsBuilder
    | apply quietC_distinctIdsCondition
    | apply quiet_getRawMany
    | apply quiet_loadRawResults
    | apply quiet_hydrate
    | quiet_step ].
Qed.

Lemma quiet_getRawAndEntities (qb : SelectQueryBuilder) :
  quiet (getRawAndEntities C E qb).
Proof.
  unfold getRawAndEntities.
  repeat first
    [ apply quiet_obtainQueryRunner
    | apply quiet_inOwnTransaction
    | apply quiet_executeEntitiesAndRawResults
    | quiet_step ].
Qed.

(* --------------------------------------------------------------------- *)
(** *** [getOne] *)

(** C10.  When the lock mode is not ["optimistic"], or the stored lock
    version is unset or the number [0], or no entity is found, [getOne]
    completes as [getRawAndEntities] does, with the first entity (if any),
    and does not throw [OptimisticLockVersionMismatchError]. *)
Theorem getOne_skips_version_check (qb : SelectQueryBuilder) (t : Trace) :
  ExpressionMap.lockMode (expressionMap qb) <> Some optimistic \/
  ExpressionMap.lockVersion (expressionMap qb) = None \/
  ExpressionMap.lockVersion (expressionMap qb) = Some (VersionNumber 0) \/
  (forall results t',
     getRawAndEntities C E qb t = (Return results, t') ->
     entities results = []) ->
  getOne C E qb t = firstEntityOf (getRawAndEntities C E qb t) /\
  forall entity expected actual t',
    getOne C E qb t <>
    (Throw (OptimisticLockVersionMismatchError entity expected actual), t').
Proof.
  intros Hcases.
  assert (Hsame : getOne C E qb t = firstEntityOf (getRawAndEntities C E qb t)).
  { unfold getOne, bind, firstEntityOf.
    destruct (getRawAndEntities C E qb t) as [[results|e] t1] eqn:Hrun;
      [|reflexivity].
    destruct (hd_error (entities results)) as [entity|] eqn:Hfirst;
      [|reflexivity].
    destruct Hcases as [Hmode|[Hversion|[Hversion|Hnone]]].
    - replace (lockModeIs (ExpressionMap.lockMode (expressionMap qb)) optimistic)
        with false; [reflexivity|].
      destruct (ExpressionMap.lockMode (expressionMap qb)) as [[]|];
        try reflexivity. contradiction Hmode. reflexivity.
    - rewrite Hversion. simpl. rewrite andb_false_r. reflexivity.
    - rewrite Hversion. simpl. rewrite andb_false_r. reflexivity.
    - rewrite (Hnone results t1 eq_refl) in Hfirst. discriminate Hfirst. }
  split; [exact Hsame|].
  intros entity expected actual t' Hthrown.
  rewrite Hsame in Hthrown. unfold firstEntityOf in Hthrown.
  destruct (getRawAndEntities C E qb t) as [[results|e] t1] eqn:Hrun;
    [discriminate Hthrown|].
  injection Hthrown as -> _.
  exact (@quiet_getRawAndEntities qb t _ t1 Hrun).
Qed.

(* --------------------------------------------------------------------- *)
(** *** What a raw load dispatches *)

Lemma emits_nothing {A : Type} (P : Event -> Prop) (c : Async A) :
  (forall t, snd (c t) = t) -> emits P c.
Proof.
  intros Hc t completion t1 H. specialize (Hc t). rewrite H in Hc. simpl in Hc.
  subst t1. exists []. split; [symmetry; apply app_nil_r | constructor].
Qed.

Lemma emits_ret {A : Type} (P : Event -> Prop) (a : A) : emits P (ret a).
Proof. apply emits_nothing. reflexivity. Qed.

Lemma emits_throw {A : Type} (P : Event -> Prop) (e : Error) :
  emits P (@throw A e).
Proof. apply emits_nothing. reflexivity. Qed.

Lemma emits_sync {A : Type} (P : Event -> Prop) (c : Completion A) :
  emits P (sync c).
Proof. apply emits_nothing. reflexivity. Qed.

Lemma emits_call {A : Type} (P : Event -> Prop) (event : Event)
    (reply : Trace -> Reply A) :
  P event -> emits P (call event reply).
Proof.
  intros Hevent t completion t1 H. injection H as _ <-.
  exists [event]. split; [reflexivity | repeat constructor; exact Hevent].
Qed.

Lemma emits_bind {A B : Type} (P : Event -> Prop) (c : Async A)
    (k : A -> Async B) :
  emits P c -> (forall a, emits P (k a)) -> emits P (bind c k).
Proof.
  intros Hc Hk t completion t2 H. unfold bind in H.
  destruct (c t) as [[a|e] t1] eqn:Hct;
    destruct (Hc t _ t1 Hct) as (events & -> & Hevents).
  - destruct (Hk a _ _ _ H) as (events' & -> & Hevents').
    exists (events ++ events')%list.
    split; [symmetry; apply app_assoc | apply Forall_app; split; assumption].
  - injection H as _ <-. exists events. split; [reflexivity | exact Hevents].
Qed.

Lemma emits_bind_sync {A B : Type} (P : Event -> Prop) (c : Completion A)
    (k : A -> Async B) :
  (forall a, c = Return a -> emits P (k a)) -> emits P (bind (sync c) k).
Proof.
  intros Hk t completion t1 H. unfold bind, sync in H.
  destruct c as [a|e].
  - exact (Hk a eq_refl _ _ _ H).
  - injection H as _ <-.
    exists []. split; [symmetry; apply app_nil_r | constructor].
Qed.

Lemma emits_tryCatch {A : Type} (P : Event -> Prop) (c : Async A)
    (handler : Error -> Async A) :
  emits P c -> (forall e, emits P (handler e)) -> emits P (tryCatch c handler).
Proof.
  intros Hc Hhandler t completion t2 H. unfold tryCatch in H.
  destruct (c t) as [[a|e] t1] eqn:Hct;
    destruct (Hc t _ t1 Hct) as (events & -> & Hevents).
  - injection H as _ <-. exists events. split; [reflexivity | exact Hevents].
  - destruct (Hhandler e _ _ _ H) as (events' & -> & Hevents').
    exists (events ++ events')%list.
    split; [symmetry; apply app_assoc | apply Forall_app; split; assumption].
Qed.

Lemma emits_writeToCache (P : Event -> Prop) (qb : SelectQueryBuilder)
    (queryId : string) (saved : option QueryResultCacheOptions)
    (records : list ObjectLiteral) :
  (forall options, P (StoreInCache options saved)) ->
  emits P (writeToCache C E qb queryId saved records).
Proof.
  intros Hevent t completion t1 H. unfold writeToCache, call in H.
  injection H as _ <-.
  eexists [_]. split; [reflexivity | repeat constructor; apply Hevent].
Qed.

Ltac emits_step :=
  match goal with
  | |- emits _ (ret _) => apply emits_ret
  | |- emits _ (throw _) => apply emits_throw
  | |- emits _ (sync _) => apply emits_sync
  | |- emits _ (call _ _) => apply emits_call
  | |- emits _ (writeToCache _ _ _ _ _ _) => apply emits_writeToCache; intros ?
  | |- emits _ (bind (sync _) _) => apply emits_bind_sync; intros ? ?
  | |- emits _ (bind _ _) => apply emits_bind; [|intros ?]
  | |- emits _ (tryCatch _ _) => apply emits_tryCatch; [|intros ?]
  | |- emits _ (match ?x with _ => _ end) => destruct x eqn:?
  end.

(** [loadRawResults] dispatches no query but the compiled query of its
    builder, on the runner it was given. *)
Lemma loadRawResults_dispatches (qb : SelectQueryBuilder)
    (queryRunner' : QueryRunner) :
  emits (isQueryOf queryRunner' (getQueryAndParameters C qb))
    (loadRawResults C E qb queryRunner').
Proof.
  unfold loadRawResults, lookupInCache, readFromCache, storeInCache, runQuery.
  repeat first
    [ emits_step
    | exact I
    | (split; [reflexivity | congruence]) ].
Qed.

(** On a builder that was given its query runner, asks for no transaction
    and holds no optimistic lock, [getRawMany] is the raw load. *)
Lemma getRawMany_on_given_runner (qb : SelectQueryBuilder)
    (queryRunner' : QueryRunner) (t : Trace) :
  queryRunner qb = Some queryRunner' ->
  ExpressionMap.useTransaction (expressionMap qb) = false ->
  ExpressionMap.lockMode (expressionMap qb) = None ->
  getRawMany C E qb t =
  loadRawResults C E
    (updateExpressionMap (ExpressionMap.set_queryEntity false) qb)
    queryRunner' t.
Proof.
  intros Hrunner Htransaction Hlock.
  unfold getRawMany. rewrite Hlock. simpl.
  unfold obtainQueryRunner, inOwnTransaction, isOwnQueryRunner. simpl.
  rewrite Hrunner, Htransaction.
  unfold tryFinally, bind, isTransactionActive, tryCatch, ret. simpl.
  rewrite Nat.eqb_refl. simpl.
  destruct (loadRawResults C E _ queryRunner' t) as [[records|error] t1];
    reflexivity.
Qed.

(* --------------------------------------------------------------------- *)
(** *** Two-query pagination *)

(** The metadata transformers leave everything but the relation-id and
    relation-count attributes as it was. *)
Lemma transformRelationMetadata_frame (qb transformed : SelectQueryBuilder) :
  transformRelationMetadata C qb = Return transformed ->
  connection transformed = connection qb /\
  queryRunner transformed = queryRunner qb /\
  ExpressionMap.skip (expressionMap transformed) =
    ExpressionMap.skip (expressionMap qb) /\
  ExpressionMap.take (expressionMap transformed) =
    ExpressionMap.take (expressionMap qb) /\
  ExpressionMap.joinAttributes (expressionMap transformed) =
    ExpressionMap.joinAttributes (expressionMap qb).
Proof.
  unfold transformRelationMetadata. intros H.
  destruct (relationIdMetadataToAttributes C (expressionMap qb)); simpl in H;
    [|discriminate H].
  destruct (relationCountMetadataToAttributes C _); simpl in H; [|discriminate H].
  injection H as <-. repeat split.
Qed.

(** The builder of the first query selects DISTINCT, is windowed by the
    caller's [skip] and [take], holds the caller's query runner, has no
    lock mode, asks for no transaction and already has [queryEntity]
    unset. *)
Lemma distinctIdsBuilder_shape (qb idsBuilder : SelectQueryBuilder)
    (queryRunner' : QueryRunner) (a : Alias) :
  distinctIdsBuilder C qb queryRunner' a = Return idsBuilder ->
  (exists columns others,
     ExpressionMap.selects (expressionMap idsBuilder) =
     {| selection := "DISTINCT " ++ columns;
        selectionAliasName := None; virtual := None |} :: others) /\
  ExpressionMap.offset (expressionMap idsBuilder) =
    ExpressionMap.skip (expressionMap qb) /\
  ExpressionMap.limit (expressionMap idsBuilder) =
    ExpressionMap.take (expressionMap qb) /\
  ExpressionMap.lockMode (expressionMap idsBuilder) = None /\
  ExpressionMap.useTransaction (expressionMap idsBuilder) = false /\
  updateExpressionMap (ExpressionMap.set_queryEntity false) idsBuilder =
    idsBuilder /\
  queryRunner idsBuilder = Some queryRunner'.
Proof.
  unfold distinctIdsBuilder. intros H.
  apply bindC_Return in H. destruct H as ([selects orderBys] & _ & H).
  apply bindC_Return in H. destruct H as (metadata & _ & H).
  destruct (distinctQuerySelects C qb (aliasName a) (primaryColumns metadata)
              orderBys) as [querySelects orderBys'].
  apply bindC_Return in H. destruct H as (inner & _ & H).
  injection H as <-.
  unfold cache.
  destruct selects as [|c rest];
    (destruct (ExpressionMap.cache (expressionMap qb));
       [|destruct (ExpressionMap.cacheId (expressionMap qb))]);
    destruct (truthy (ExpressionMap.cacheDuration (expressionMap qb)));
    (split; [|split; [|split; [|split; [|split; [|split]]]]]);
    try (vm_compute; reflexivity);
    exists (join ", " querySelects);
    first
      [ exists []; vm_compute; reflexivity
      | exists [{| selection := String c rest; selectionAliasName := None;
                   virtual := None |}];
        vm_compute; reflexivity ].
Qed.

(** C1 (amended).  On a model with a main alias that passes the lock
    preconditions and the metadata transformers, with [skip] or [take] set
    to a non-zero value and at least one join, once the builder of the
    distinct primary-key window query is built,
    [executeEntitiesAndRawResults] runs that query first: an error of it
    is the error of the call, and when it returns zero rows the call
    returns right then, with no raw rows and no entities, having
    dispatched no query but the compiled distinct-id query. *)
Theorem paginated_join_runs_distinct_ids_query (qb : SelectQueryBuilder)
    (mainAlias : Alias) (queryRunner' : QueryRunner) (t : Trace)
    (transformed idsBuilder : SelectQueryBuilder) :
  ExpressionMap.mainAlias (expressionMap qb) = Some mainAlias ->
  checkLockPreconditions E qb mainAlias queryRunner' t = (Return tt, t) ->
  transformRelationMetadata C qb = Return transformed ->
  truthy (ExpressionMap.skip (expressionMap qb)) ||
  truthy (ExpressionMap.take (expressionMap qb)) = true ->
  ExpressionMap.joinAttributes (expressionMap qb) <> [] ->
  distinctIdsBuilder C transformed queryRunner' mainAlias = Return idsBuilder ->
  ((exists columns others,
      ExpressionMap.selects (expressionMap idsBuilder) =
      {| selection := "DISTINCT " ++ columns;
         selectionAliasName := None; virtual := None |} :: others) /\
   ExpressionMap.offset (expressionMap idsBuilder) =
     ExpressionMap.skip (expressionMap qb) /\
   ExpressionMap.limit (expressionMap idsBuilder) =
     ExpressionMap.take (expressionMap qb)) /\
  (forall error t1,
     getRawMany C E idsBuilder t = (Throw error, t1) ->
     executeEntitiesAndRawResults C E qb queryRunner' t = (Throw error, t1)) /\
  (forall t1,
     getRawMany C E idsBuilder t = (Return [], t1) ->
     executeEntitiesAndRawResults C E qb queryRunner' t =
     (Return ({| entities := []; raw := [] |}, transformed), t1) /\
     exists events,
       t1 = (t ++ events)%list /\
       Forall (isQueryOf queryRunner' (getQueryAndParameters C idsBuilder))
         events).
Proof.
  intros Halias Hlocks Htransformed Hwindow Hjoins Hbuilder.
  pose proof Htransformed as Hframe.
  apply transformRelationMetadata_frame in Hframe.
  destruct Hframe as (_ & _ & Hskip & Htake & Hjoined).
  pose proof Hbuilder as Hshape.
  apply distinctIdsBuilder_shape in Hshape.
  destruct Hshape
    as (Hselects & Hoffset & Hlimit & Hunlocked & Hplain & Hraw & Hgiven).
  assert (Hmetadata : exists metadata, Alias_metadata mainAlias = Return metadata).
  { unfold distinctIdsBuilder in Hbuilder.
    apply bindC_Return in Hbuilder. destruct Hbuilder as ([? ?] & _ & Hrest).
    apply bindC_Return in Hrest. destruct Hrest as (metadata & Hfound & _).
    exists metadata. exact Hfound. }
  destruct Hmetadata as [metadata Hmetadata].
  assert (Hpaginated :
    (truthy (ExpressionMap.skip (expressionMap transformed)) ||
     truthy (ExpressionMap.take (expressionMap transformed))) &&
    Nat.ltb 0 (length (ExpressionMap.joinAttributes (expressionMap transformed)))
    = true).
  { rewrite Hskip, Htake, Hjoined, Hwindow.
    destruct (ExpressionMap.joinAttributes (expressionMap qb));
      [contradiction | reflexivity]. }
  assert (Hrun : forall completion t1,
    getRawMany C E idsBuilder t = (completion, t1) ->
    executeEntitiesAndRawResults C E qb queryRunner' t =
    match completion with
    | Return [] => (Return ({| entities := []; raw := [] |}, transformed), t1)
    | Return (_ :: _) => executeEntitiesAndRawResults C E qb queryRunner' t
    | Throw error => (Throw error, t1)
    end).
  { intros completion t1 Hids.
    destruct completion as [[|row rows]|error]; [| reflexivity |];
      unfold executeEntitiesAndRawResults; rewrite Halias;
      unfold bind at 1; rewrite Hlocks;
      unfold bind at 1, sync at 1; rewrite Htransformed;
      unfold bind at 1; rewrite Hpaginated;
      unfold loadPaginatedRawResults, bind, sync;
      rewrite Hbuilder, Hmetadata, Hids; reflexivity. }
  split; [|split].
  - rewrite Hoffset, Hlimit, Hskip, Htake. repeat split. exact Hselects.
  - intros error t1 Hids. exact (Hrun _ _ Hids).
  - intros t1 Hids. split; [exact (Hrun _ _ Hids)|].
    rewrite (getRawMany_on_given_runner idsBuilder t Hgiven Hplain Hunlocked),
      Hraw in Hids.
    exact (loadRawResults_dispatches idsBuilder queryRunner' t Hids).
Qed.

End ExecutionFacts.

(* ===================================================================== *)
(** ** Further facts: the LIMIT/OFFSET clause *)
(* ===================================================================== *)

Section LimitOffsetFacts.

Variable C : Collaborators.

(** X1.  On a builder whose main alias is set,
    [createLimitOffsetExpression] throws nothing but
    [OffsetWithoutLimitNotSupportedError], and throws it exactly on the
    MySQL family (MySQL, Aurora Data API, SAP) when the offset it compiles
    is set and the limit it compiles is not; [skip] without [take] on a
    builder without joins, limit and offset is such a case.  (Without a
    main alias the [allOrderBys] getter, which SQL Server reads, fails on
    the unset alias.) *)
Theorem limit_offset_throws_iff (qb : SelectQueryBuilder) (e : Error) :
  ExpressionMap.mainAlias (expressionMap qb) <> None ->
  createLimitOffsetExpression C qb = Throw e <->
  e = OffsetWithoutLimitNotSupportedError /\
  lacksOffsetWithoutLimit (driver (connection qb)) = true /\
  truthy (compiledLimit (expressionMap qb)) = false /\
  truthy (compiledOffset (expressionMap qb)) = true.
Proof.
  intros _.
  unfold createLimitOffsetExpression, compiledLimit, compiledOffset,
    usesSkipAndTake.
  cbv zeta.
  set (o := if _ && _ && _ then ExpressionMap.skip _ else ExpressionMap.offset _).
  set (l := if _ && _ && _ then ExpressionMap.take _ else ExpressionMap.limit _).
  destruct (driver (connection qb)), (truthy l), (truthy o); simpl;
    (split;
     [ intros H; try discriminate H; injection H as <-; repeat split
     | intros (-> & Hd & Hl & Ho); try discriminate; reflexivity ]).
Qed.

(** X2.  On a builder without joins, with neither [offset] nor [limit] set
    (or set to zero), [skip] and [take] compile as [offset] and [limit] of
    the same values do. *)
Theorem skip_take_compile_as_offset_limit (qb : SelectQueryBuilder) :
  ExpressionMap.joinAttributes (expressionMap qb) = [] ->
  truthy (ExpressionMap.offset (expressionMap qb)) = false ->
  truthy (ExpressionMap.limit (expressionMap qb)) = false ->
  createLimitOffsetExpression C qb =
  createLimitOffsetExpression C
    (limit (ExpressionMap.take (expressionMap qb))
       (offset (ExpressionMap.skip (expressionMap qb)) qb)).
Proof.
  intros Hjoins Hoffset Hlimit.
  unfold createLimitOffsetExpression, allOrderBysOf. simpl.
  rewrite Hjoins, Hoffset, Hlimit. simpl.
  destruct (truthy (ExpressionMap.skip (expressionMap qb))) eqn:Hskip,
    (truthy (ExpressionMap.take (expressionMap qb))) eqn:Htake;
    simpl; rewrite ?Hskip, ?Htake; reflexivity.
Qed.

(** X3.  On a builder with at least one join, [skip] and [take] never
    reach the LIMIT/OFFSET clause: whatever they are set to, the clause is
    the one compiled before. *)
Theorem skip_take_ignored_with_joins (qb : SelectQueryBuilder)
    (skipped taken : option Z) :
  ExpressionMap.joinAttributes (expressionMap qb) <> [] ->
  createLimitOffsetExpression C (skip skipped (take taken qb)) =
  createLimitOffsetExpression C qb.
Proof.
  intros Hjoins.
  unfold createLimitOffsetExpression, allOrderBysOf. simpl.
  destruct (ExpressionMap.joinAttributes (expressionMap qb)) as [|j joins];
    [contradiction|].
  simpl. rewrite !andb_false_r. reflexivity.
Qed.

(** X4.  On SQL Server, for a builder whose main alias is set, the clause
    compiles, and it opens with the placeholder [ORDER BY (SELECT NULL)]
    exactly when a limit or an offset is compiled and the query has no
    ordering of its own.  (Without a main alias the [allOrderBys] getter
    fails on the unset alias.) *)
Theorem sqlserver_dummy_order_by (qb : SelectQueryBuilder) :
  driver (connection qb) = SqlServerDriver ->
  ExpressionMap.mainAlias (expressionMap qb) <> None ->
  exists clause,
    createLimitOffsetExpression C qb = Return clause /\
    (prefix " ORDER BY (SELECT NULL)" clause = true <->
     allOrderBysOf C (expressionMap qb) = [] /\
     truthy (compiledLimit (expressionMap qb)) ||
     truthy (compiledOffset (expressionMap qb)) = true).
Proof.
  intros Hdriver _.
  unfold createLimitOffsetExpression, compiledLimit, compiledOffset,
    usesSkipAndTake.
  cbv zeta. rewrite Hdriver.
  set (o := if _ && _ && _ then ExpressionMap.skip _ else ExpressionMap.offset _).
  set (l := if _ && _ && _ then ExpressionMap.take _ else ExpressionMap.limit _).
  destruct (allOrderBysOf C (expressionMap qb)) as [|entry entries];
    destruct (truthy l), (truthy o); simpl;
    eexists; (split; [reflexivity|]); simpl;
    (split; [intros H; try discriminate H; split; reflexivity
            | intros [H1 H2]; try discriminate H1; try discriminate H2;
              reflexivity]).
Qed.

End LimitOffsetFacts.

(* ===================================================================== *)
(** ** Further facts: the lock clause *)
(* ===================================================================== *)

(** X5.  Lock tables are refused on every dialect but PostgreSQL, and an
    empty list of lock tables is refused on PostgreSQL, whatever the lock
    mode is (also when none is set). *)
Theorem lock_tables_rejected (qb : SelectQueryBuilder) (tables : list string) :
  ExpressionMap.lockTables (expressionMap qb) = Some tables ->
  driver (connection qb) <> PostgresDriver \/ tables = [] ->
  createLockExpression qb =
  Throw (TypeORMError
           match driver (connection qb) with
           | PostgresDriver => "lockTables cannot be an empty array"
           | _ => "Lock tables not supported in selected driver"
           end).
Proof.
  intros Htables Hcase. unfold createLockExpression. rewrite Htables.
  destruct Hcase as [Hdriver| ->].
  - destruct (driver (connection qb)); try reflexivity. contradiction.
  - destruct (driver (connection qb)); reflexivity.
Qed.

(** X6.  [createLockExpression] throws
    [LockNotSupportedOnGivenDriverError] exactly when no lock tables are
    given and the lock mode is one the dialect does not accept: PostgreSQL
    accepts every mode; MySQL the four row locks but not
    ["for_no_key_update"]; Aurora Data API, Oracle and SQL Server only
    ["pessimistic_read"] and ["pessimistic_write"]; the other dialects no
    pessimistic mode; ["optimistic"] and ["dirty_read"] never throw. *)
Theorem lock_not_supported_iff (qb : SelectQueryBuilder) :
  createLockExpression qb = Throw LockNotSupportedOnGivenDriverError <->
  ExpressionMap.lockTables (expressionMap qb) = None /\
  exists mode,
    ExpressionMap.lockMode (expressionMap qb) = Some mode /\
    supportsLock (driver (connection qb)) mode = false.
Proof.
  unfold createLockExpression.
  destruct (ExpressionMap.lockTables (expressionMap qb)) as [tables|].
  - split.
    + destruct (driver (connection qb)); simpl; try discriminate.
      destruct (Nat.ltb (length tables) 1); simpl; [discriminate|].
      destruct (ExpressionMap.lockMode (expressionMap qb)) as [[]|]; discriminate.
    + intros [H _]. discriminate H.
  - simpl. split.
    + intros H. split; [reflexivity|].
      destruct (ExpressionMap.lockMode (expressionMap qb)) as [mode|];
        [|discriminate H].
      exists mode. split; [reflexivity|].
      destruct mode, (driver (connection qb)); try discriminate H; reflexivity.
    + intros (_ & mode & -> & Hmode).
      destruct mode, (driver (connection qb)); try discriminate Hmode;
        reflexivity.
Qed.

(** X7.  On PostgreSQL, with a non-empty list of lock tables, every
    pessimistic lock mode compiles to a clause that names the tables:
    it contains [OF] followed by the tables separated by commas. *)
Theorem postgres_lock_names_tables (qb : SelectQueryBuilder) (mode : LockMode)
    (table : string) (tables : list string) :
  driver (connection qb) = PostgresDriver ->
  ExpressionMap.lockTables (expressionMap qb) = Some (table :: tables) ->
  ExpressionMap.lockMode (expressionMap qb) = Some mode ->
  isPessimistic (Some mode) = true ->
  exists clause,
    createLockExpression qb = Return clause /\
    includes (" OF " ++ join ", " (table :: tables)) clause = true.
Proof.
  intros Hdriver Htables Hmode Hpessimistic.
  unfold createLockExpression. rewrite Hdriver, Htables, Hmode.
  cbn [length Nat.ltb Nat.leb bindC].
  set (named := " OF " ++ join ", " (table :: tables)).
  destruct mode; try discriminate Hpessimistic;
    eexists; (split; [reflexivity|]).
  - exact (includes_at_end named " FOR SHARE").
  - exact (includes_at_end named " FOR UPDATE").
  - exact (includes_append named " FOR UPDATE" " SKIP LOCKED").
  - exact (includes_append named " FOR UPDATE" " NOWAIT").
  - exact (includes_at_end named " FOR NO KEY UPDATE").
Qed.

(* ===================================================================== *)
(** ** Further facts: the HAVING clause and the trimmed query *)
(* ===================================================================== *)

Section ClauseFacts.

Variable C : Collaborators.

(** Behind the first position the index test of [createHavingExpression]
    always holds. *)
Lemma mapWithIndex_later (qb : SelectQueryBuilder) (index : nat)
    (havings : list HavingClause) :
  mapWithIndex
    (fun having index =>
       match type having with
       | And =>
           (if Nat.ltb 0 index then "AND " else "") ++
           replacePropertyNames C qb (havingCondition having)
       | Or =>
           (if Nat.ltb 0 index then "OR " else "") ++
           replacePropertyNames C qb (havingCondition having)
       | Simple => replacePropertyNames C qb (havingCondition having)
       end)
    (S index) havings =
  map (fun having =>
         havingCombinator having ++
         replacePropertyNames C qb (havingCondition having))
    havings.
Proof.
  revert index. induction havings as [|having havings IH]; intros index.
  - reflexivity.
  - cbn [mapWithIndex map]. rewrite IH. f_equal.
    unfold havingCombinator. destruct (type having); reflexivity.
Qed.

(** X8.  In the HAVING clause the first condition is written without a
    combinator whatever its type is ([andHaving] or [orHaving] called first
    compile as [having] does), and every later ["and"] or ["or"] condition
    is written after its combinator. *)
Theorem having_first_without_combinator (qb : SelectQueryBuilder)
    (first : HavingClause) (rest : list HavingClause) :
  ExpressionMap.havings (expressionMap qb) = first :: rest ->
  createHavingExpression C qb =
  let conditions :=
    join " "
      (replacePropertyNames C qb (havingCondition first) ::
       map (fun having =>
              havingCombinator having ++
              replacePropertyNames C qb (havingCondition having))
         rest) in
  if Nat.eqb (String.length conditions) 0 then "" else " HAVING " ++ conditions.
Proof.
  intros Hhavings. unfold createHavingExpression. rewrite Hhavings.
  cbn [mapWithIndex]. rewrite mapWithIndex_later.
  replace (match type first with
           | Simple => replacePropertyNames C qb (havingCondition first)
           | And =>
               (if Nat.ltb 0 0 then "AND " else "") ++
               replacePropertyNames C qb (havingCondition first)
           | Or =>
               (if Nat.ltb 0 0 then "OR " else "") ++
               replacePropertyNames C qb (havingCondition first)
           end)
    with (replacePropertyNames C qb (havingCondition first))
    by (destruct (type first); reflexivity).
  reflexivity.
Qed.

(** X9.  The text [getQuery] returns neither opens nor closes with a
    white-space code point (blank, tab, line break, no-break space and the
    other Unicode spaces); for a sub-query it is such a text in
    parentheses. *)
Theorem getQuery_trimmed (qb : SelectQueryBuilder) (sql : string) :
  getQuery C qb = Return sql ->
  if ExpressionMap.subQuery (expressionMap qb)
  then exists inner, sql = "(" ++ inner ++ ")" /\ isTrimmed inner
  else isTrimmed sql.
Proof.
  unfold getQuery. intros H.
  repeat (apply bindC_Return in H; destruct H as (? & _ & H)).
  injection H as <-.
  destruct (ExpressionMap.subQuery (expressionMap qb)).
  - eexists. split; [reflexivity | split; apply trim_spec].
  - split; apply trim_spec.
Qed.

End ClauseFacts.

(* ===================================================================== *)
(** ** Further facts: orderings *)
(* ===================================================================== *)

Lemma lookupProperty_setProperty_same {V : Type} (o : list (string * V))
    (key : string) (v : V) :
  lookupProperty (setProperty o key v) key = Some v.
Proof.
  induction o as [|[k old] rest IH]; simpl.
  - rewrite String.eqb_refl. reflexivity.
  - destruct (String.eqb k key) eqn:Hk; simpl; rewrite Hk; [reflexivity | exact IH].
Qed.

Lemma lookupProperty_setProperty_other {V : Type} (o : list (string * V))
    (key other : string) (v : V) :
  other <> key ->
  lookupProperty (setProperty o key v) other = lookupProperty o other.
Proof.
  intros Hother.
  induction o as [|[k old] rest IH]; simpl.
  - destruct (String.eqb_spec key other); [congruence | reflexivity].
  - destruct (String.eqb_spec k key) as [->|Hk]; simpl.
    + destruct (String.eqb_spec key other); [congruence | reflexivity].
    + rewrite IH. reflexivity.
Qed.





Lemma prefix_empty (s : string) : prefix "" s = true.
Proof. destruct s; reflexivity. Qed.

Section OrderingFacts.

Variable C : Collaborators.

(** X11.  The distinct-id query of the pagination selects one column per
    primary-key column and orders by each of them: a criterion the ordering
    already holds keeps its value (a user-defined direction is never
    overridden), every primary-key column not yet ordered is added
    ascending, and nothing else is added. *)
Theorem distinct_ids_ordering (qb : SelectQueryBuilder) (mainAliasName : string)
    (primaryColumns : list ColumnMetadata) (orderBys : OrderByCondition) :
  let columnAlias (c : ColumnMetadata) :=
    escape C qb
      (buildAlias C (driver (connection qb)) mainAliasName (databaseName c)) in
  let compiled := distinctQuerySelects C qb mainAliasName primaryColumns orderBys in
  length (fst compiled) = length primaryColumns /\
  forall key,
    lookupProperty (snd compiled) key =
    match lookupProperty orderBys key with
    | Some value => Some value
    | None =>
        if existsb (fun c => String.eqb (columnAlias c) key) primaryColumns
        then Some (OrderOnly ASC)
        else None
    end.
Proof.
  intros columnAlias. cbv zeta.
  revert orderBys.
  induction primaryColumns as [|column columns IH]; intros orderBys.
  - split; [reflexivity|]. intros key. simpl.
    destruct (lookupProperty orderBys key); reflexivity.
  - cbn [distinctQuerySelects existsb]. fold (columnAlias column).
    set (ordered :=
           match lookupProperty orderBys (columnAlias column) with
           | Some _ => orderBys
           | None => setProperty orderBys (columnAlias column) (OrderOnly ASC)
           end).
    specialize (IH ordered).
    destruct (distinctQuerySelects C qb mainAliasName columns ordered)
      as [selects ordering].
    cbn [fst snd length] in *. destruct IH as [Hlength Hlookup].
    split; [now rewrite Hlength|].
    intros key. rewrite Hlookup. subst ordered.
    destruct (lookupProperty orderBys (columnAlias column)) as [given|] eqn:Hgiven.
    + destruct (lookupProperty orderBys key) eqn:Hkey; [reflexivity|].
      destruct (String.eqb_spec (columnAlias column) key) as [Heq|Hne];
        [|reflexivity].
      rewrite Heq in Hgiven. congruence.
    + destruct (String.eqb_spec (columnAlias column) key) as [<-|Hne].
      * rewrite lookupProperty_setProperty_same, Hgiven. reflexivity.
      * rewrite lookupProperty_setProperty_other by congruence. reflexivity.
Qed.

(** X12.  The SELECT head carries the [MAX_EXECUTION_TIME] hint exactly on
    MySQL with a positive time and without [distinct]: asking for DISTINCT
    drops the hint.  It is [SELECT DISTINCT ON (...)] exactly on PostgreSQL
    with a non-empty [distinctOn] list, whether or not [distinct] is set. *)
Theorem distinct_drops_execution_time_hint (qb : SelectQueryBuilder)
    (head : SelectHead.t) :
  (prefix "SELECT /*+ MAX_EXECUTION_TIME("
     (createSelectDistinctExpression C qb head) = true <->
   driver (connection qb) = MysqlDriver /\
   0 < SelectHead.maxExecutionTime head /\
   SelectHead.selectDistinct head = false) /\
  (prefix "SELECT DISTINCT ON (" (createSelectDistinctExpression C qb head) = true <->
   driver (connection qb) = PostgresDriver /\
   SelectHead.selectDistinctOn head <> []).
Proof.
  unfold createSelectDistinctExpression.
  destruct (Z.ltb_spec 0 (SelectHead.maxExecutionTime head)) as [Hpos|Hnot];
    destruct (driver (connection qb));
    destruct (SelectHead.selectDistinctOn head) as [|on ons];
    destruct (SelectHead.selectDistinct head);
    simpl;
    (split;
     (split;
      [ intros H; try discriminate H; repeat split; try assumption;
        try reflexivity; discriminate
      | intros H; decompose [and] H; try discriminate; try lia; try congruence;
        first [reflexivity | apply prefix_empty] ])).
Qed.

End OrderingFacts.

(* ===================================================================== *)
(** ** Further facts: query runner and transaction *)
(* ===================================================================== *)

Lemma emits_weaken {A : Type} (P Q : Event -> Prop) (c : Async A) :
  (forall event, P event -> Q event) -> emits P c -> emits Q c.
Proof.
  intros HPQ Hc t completion t1 H.
  destruct (Hc t completion t1 H) as (events & -> & Hevents).
  exists events. split; [reflexivity|].
  apply Forall_impl with (P := P); assumption.
Qed.

Lemma isDataCall_keepsQueryRunner (event : Event) :
  isDataCall event -> keepsQueryRunner event.
Proof. destruct event; simpl; auto. Qed.

Lemma isDataCall_outsideTransaction (event : Event) :
  isDataCall event -> outsideTransaction event.
Proof. destruct event; simpl; auto. Qed.

Lemma isOwnQueryRunner_given (qb : SelectQueryBuilder) (queryRunner' : QueryRunner) :
  queryRunner qb = Some queryRunner' -> isOwnQueryRunner qb queryRunner' = false.
Proof.
  intros H. unfold isOwnQueryRunner. rewrite H, Nat.eqb_refl. reflexivity.
Qed.

Ltac emits_next :=
  match goal with
  | |- emits _ (ret _) => apply emits_ret
  | |- emits _ (throw _) => apply emits_throw
  | |- emits _ (sync _) => apply emits_sync
  | |- emits _ (call _ _) => apply emits_call
  | |- emits _ (writeToCache _ _ _ _ _ _) => apply emits_writeToCache; intros ?
  | |- emits _ (bind (sync _) _) => apply emits_bind_sync; intros ? ?
  | |- emits _ (bind _ _) => apply emits_bind; [|intros ?]
  | |- emits _ (tryCatch _ _) => apply emits_tryCatch; [|intros ?]
  | |- emits _ (match ?x with _ => _ end) => destruct x eqn:?
  end.

Section RunnerFacts.

Variable C : Collaborators.
Variable E : Environment.

Lemma emits_loadRawResults_data (qb : SelectQueryBuilder)
    (queryRunner' : QueryRunner) :
  emits isDataCall (loadRawResults C E qb queryRunner').
Proof.
  unfold loadRawResults, lookupInCache, readFromCache, storeInCache, runQuery.
  repeat first [ emits_next | exact I ].
Qed.

Lemma emits_hydrate_data (qb : SelectQueryBuilder) (a : Alias)
    (rawResults : list ObjectLiteral) :
  emits isDataCall (hydrate E qb a rawResults).
Proof.
  unfold hydrate. repeat first [ emits_next | exact I ].
Qed.

(** The nested [getRawMany] of the pagination runs on the caller's query
    runner and asks for no transaction: the whole of
    [executeEntitiesAndRawResults] stays on the data path. *)
Lemma emits_executeEntitiesAndRawResults_data (qb : SelectQueryBuilder)
    (queryRunner' : QueryRunner) :
  emits isDataCall (executeEntitiesAndRawResults C E qb queryRunner').
Proof.
  unfold executeEntitiesAndRawResults.
  destruct (ExpressionMap.mainAlias (expressionMap qb)) as [mainAlias|];
    [|apply emits_throw].
  apply emits_bind.
  { unfold checkLockPreconditions, isTransactionActive.
    apply emits_bind; [apply emits_nothing; reflexivity | intros active].
    repeat first [ emits_next | exact I ]. }
  intros _. apply emits_bind_sync. intros transformed _.
  apply emits_bind.
  - destruct (_ && _); [|apply emits_loadRawResults_data].
    unfold loadPaginatedRawResults.
    apply emits_bind_sync. intros idsBuilder Hbuilder.
    apply emits_bind_sync. intros metadata _.
    apply distinctIdsBuilder_shape in Hbuilder.
    destruct Hbuilder as (_ & _ & _ & Hunlocked & Hplain & Hraw & Hgiven).
    apply emits_bind.
    + intros t completion t1 Hids.
      rewrite (getRawMany_on_given_runner C E idsBuilder t Hgiven Hplain Hunlocked),
        Hraw in Hids.
      exact (emits_loadRawResults_data idsBuilder queryRunner' t Hids).
    + intros rawResults. destruct (Nat.ltb 0 (length rawResults)); [|apply emits_ret].
      apply emits_bind_sync. intros [condition' parameters] _.
      apply emits_loadRawResults_data.
  - intros rawResults. apply emits_bind; [|intros ?; apply emits_ret].
    destruct (Nat.ltb 0 (length rawResults));
      [apply emits_hydrate_data | apply emits_ret].
Qed.

Lemma emits_executeCountQuery_data (qb : SelectQueryBuilder)
    (queryRunner' : QueryRunner) :
  emits isDataCall (executeCountQuery C E qb queryRunner').
Proof.
  unfold executeCountQuery.
  apply emits_bind_sync. intros countSql _.
  apply emits_bind; [apply emits_loadRawResults_data | intros results].
  repeat emits_next.
Qed.

(** The data path of [getRawAndEntities]. *)
Lemma emits_entities_data (qb : SelectQueryBuilder) (queryRunner' : QueryRunner) :
  emits isDataCall
    (results <- executeEntitiesAndRawResults C E qb queryRunner';;
     ret (fst results))%async.
Proof.
  apply emits_bind; [apply emits_executeEntitiesAndRawResults_data|].
  intros ?. apply emits_ret.
Qed.

(** The data path of [getManyAndCount]: the entities query, then the count
    query. *)
Lemma emits_manyAndCount_data (qb : SelectQueryBuilder)
    (queryRunner' : QueryRunner) :
  emits isDataCall
    (executed <- executeEntitiesAndRawResults C E qb queryRunner';;
     let (entitiesAndRaw, qb) := executed : EntitiesAndRaw * SelectQueryBuilder in
     let qb := updateExpressionMap (ExpressionMap.set_queryEntity false) qb in
     let cacheId := ExpressionMap.cacheId (expressionMap qb) in
     let qb :=
       updateExpressionMap
         (ExpressionMap.set_cacheId
            (if truthyString cacheId
             then match cacheId with
                  | Some id => Some (id ++ "-count")
                  | None => None
                  end
             else cacheId)) qb in
     count <- executeCountQuery C E qb queryRunner';;
     ret (entities entitiesAndRaw, count))%async.
Proof.
  apply emits_bind; [apply emits_executeEntitiesAndRawResults_data|].
  intros [entitiesAndRaw transformed].
  apply emits_bind; [apply emits_executeCountQuery_data | intros ?; apply emits_ret].
Qed.

(** The frame around the work of a method: what the method adds to the
    trace is the calls of the frame and of its body, closed by the release
    of a query runner of its own. *)
Lemma inOwnTransaction_trace {A : Type} (P : Event -> Prop)
    (qb : SelectQueryBuilder) (queryRunner' : QueryRunner) (body : Async A)
    (t : Trace) :
  (ExpressionMap.useTransaction (expressionMap qb) = true ->
   queryRunner_isTransactionActive E t queryRunner' = false ->
   P (StartTransaction queryRunner') /\ P (CommitTransaction queryRunner') /\
   P (RollbackTransaction queryRunner')) ->
  emits P body ->
  exists events,
    snd (inOwnTransaction E qb queryRunner' body t) =
    (t ++ events ++
     (if isOwnQueryRunner qb queryRunner' then [Release queryRunner'] else []))%list /\
    Forall P events.
Proof.
  intros Htransaction Hbody.
  assert (Hinner : exists events,
    snd ((active <- isTransactionActive E queryRunner';;
     transactionStartedByUs <-
       (if ExpressionMap.useTransaction (expressionMap qb) && negb active
        then startTransaction E queryRunner';; ret true
        else ret false);;
     tryCatch
       (results <- body;;
        (if transactionStartedByUs : bool
         then commitTransaction E queryRunner' else ret tt);;
        ret results)
       (fun error =>
          (if transactionStartedByUs : bool
           then tryCatch (rollbackTransaction E queryRunner') (fun _ => ret tt)
           else ret tt);;
          throw error))%async t) = (t ++ events)%list /\ Forall P events).
  { unfold bind at 1, isTransactionActive at 1.
    destruct (ExpressionMap.useTransaction (expressionMap qb)) eqn:Huse;
      [destruct (queryRunner_isTransactionActive E t queryRunner') eqn:Hactive|];
      cbn [andb negb].
    2: { destruct (Htransaction eq_refl eq_refl) as (Hstart & Hcommit & Hrollback).
         unfold bind, startTransaction, commitTransaction, rollbackTransaction,
           tryCatch, call, ret, throw.
         destruct (queryRunner_startTransaction E t queryRunner') as [[]|message];
           cbn [await].
         - destruct (body (t ++ [StartTransaction queryRunner'])%list)
             as [[results|error] t1] eqn:Hrun;
             destruct (Hbody _ _ _ Hrun) as (events & -> & Hevents).
           + destruct (queryRunner_commitTransaction E _ queryRunner')
               as [[]|message]; cbn [await snd].
             * exists ([StartTransaction queryRunner'] ++ events ++
                       [CommitTransaction queryRunner'])%list.
               split; [now rewrite <- !app_assoc|].
               repeat (apply Forall_app; split); auto.
             * destruct (queryRunner_rollbackTransaction E _ queryRunner');
                 cbn [await snd];
                 (exists ([StartTransaction queryRunner'] ++ events ++
                          [CommitTransaction queryRunner';
                           RollbackTransaction queryRunner'])%list;
                  split; [now rewrite <- !app_assoc|];
                  repeat (apply Forall_app; split); auto).
           + destruct (queryRunner_rollbackTransaction E _ queryRunner');
               cbn [await snd];
               (exists ([StartTransaction queryRunner'] ++ events ++
                        [RollbackTransaction queryRunner'])%list;
                split; [now rewrite <- !app_assoc|];
                repeat (apply Forall_app; split); auto).
         - exists [StartTransaction queryRunner']. split; [reflexivity | auto]. }
    all: unfold bind, tryCatch, ret, throw;
      destruct (body t) as [[results|error] t1] eqn:Hrun;
      destruct (Hbody _ _ _ Hrun) as (events & -> & Hevents);
      exists events; split; auto. }
  destruct Hinner as (events & Hinner & Hevents).
  exists events. split; [|exact Hevents].
  unfold inOwnTransaction, tryFinally.
  match type of Hinner with
  | snd (?inner t) = _ => destruct (inner t) as [completion t1]
  end.
  cbn [snd] in Hinner. subst t1.
  destruct (isOwnQueryRunner qb queryRunner').
  - unfold release, call. rewrite <- app_assoc.
    destruct (await _); reflexivity.
  - unfold ret. rewrite app_nil_r. reflexivity.
Qed.


Lemma emits_inOwnTransaction {A : Type} (P : Event -> Prop)
    (qb : SelectQueryBuilder) (queryRunner' : QueryRunner) (body : Async A) :
  (isOwnQueryRunner qb queryRunner' = true -> P (Release queryRunner')) ->
  (ExpressionMap.useTransaction (expressionMap qb) = true ->
   (exists t, queryRunner_isTransactionActive E t queryRunner' = false) ->
   P (StartTransaction queryRunner') /\ P (CommitTransaction queryRunner') /\
   P (RollbackTransaction queryRunner')) ->
  emits P body ->
  emits P (inOwnTransaction E qb queryRunner' body).
Proof.
  intros Hrelease Htransaction Hbody t completion t1 Hrun.
  destruct (@inOwnTransaction_trace A P qb queryRunner' body t)
    as (events & Htrace & Hevents); [|exact Hbody|].
  { intros Huse Hinactive. apply Htransaction; [exact Huse|].
    exists t. exact Hinactive. }
  rewrite Hrun in Htrace. cbn [snd] in Htrace. subst t1.
  eexists. split; [reflexivity|].
  apply Forall_app. split; [exact Hevents|].
  destruct (isOwnQueryRunner qb queryRunner'); repeat constructor.
  apply Hrelease. reflexivity.
Qed.

(** X13.  A builder that was given its query runner never creates another
    and never releases the one it was given: [getRawMany],
    [getRawAndEntities], [getCount] and [getManyAndCount] make no such
    call, whatever the outcome. *)
Theorem given_runner_kept (qb : SelectQueryBuilder) (queryRunner' : QueryRunner) :
  queryRunner qb = Some queryRunner' ->
  emits keepsQueryRunner (getRawMany C E qb) /\
  emits keepsQueryRunner (getRawAndEntities C E qb) /\
  emits keepsQueryRunner (getCount C E qb) /\
  emits keepsQueryRunner (getManyAndCount C E qb).
Proof.
  intros Hgiven.
  assert (Hframe : forall (A : Type) (m : QueryExpressionMap) (body : QueryRunner -> Async A),
    (forall r, emits isDataCall (body r)) ->
    emits keepsQueryRunner
      (bind (obtainQueryRunner E (withExpressionMap qb m))
         (fun r => inOwnTransaction E (withExpressionMap qb m) r (body r)))).
  { intros A m body Hbody. unfold obtainQueryRunner. cbn [queryRunner withExpressionMap].
    rewrite Hgiven. intros t completion t1 Hrun. unfold bind, ret in Hrun.
    revert t completion t1 Hrun.
    apply emits_inOwnTransaction.
    - rewrite isOwnQueryRunner_given; [discriminate | exact Hgiven].
    - intros _ _. repeat split.
    - apply emits_weaken with (P := isDataCall);
        [exact isDataCall_keepsQueryRunner | apply Hbody]. }
  assert (Hsame : withExpressionMap qb (expressionMap qb) = qb)
    by (destruct qb; reflexivity).
  repeat split.
  - unfold getRawMany. destruct (lockModeIs _ _); [apply emits_throw|].
    apply (Hframe _ _ (fun r => loadRawResults C E _ r)).
    intros r. apply emits_loadRawResults_data.
  - unfold getRawAndEntities. rewrite <- Hsame.
    apply (Hframe _ _ (fun r => bind (executeEntitiesAndRawResults C E _ r) _)).
    intros r. apply emits_entities_data.
  - unfold getCount. destruct (lockModeIs _ _); [apply emits_throw|].
    rewrite <- Hsame.
    apply (Hframe _ _ (fun r => executeCountQuery C E _ r)).
    intros r. apply emits_executeCountQuery_data.
  - unfold getManyAndCount. destruct (lockModeIs _ _); [apply emits_throw|].
    rewrite <- Hsame.
    apply (Hframe _ _ (fun r => bind (executeEntitiesAndRawResults C E _ r) _)).
    intros r. apply emits_manyAndCount_data.
Qed.

(** X14.  A builder without a query runner creates one first and releases
    it as its last call, whatever the outcome of the method, and neither
    creates nor releases any in between. *)
Theorem created_runner_released_last (qb : SelectQueryBuilder)
    (queryRunner' : QueryRunner) (t : Trace) :
  queryRunner qb = None ->
  connection_createQueryRunner E t = Replied queryRunner' ->
  ExpressionMap.lockMode (expressionMap qb) <> Some optimistic ->
  ownsRunnerThroughout t queryRunner' (snd (getRawMany C E qb t)) /\
  ownsRunnerThroughout t queryRunner' (snd (getRawAndEntities C E qb t)) /\
  ownsRunnerThroughout t queryRunner' (snd (getCount C E qb t)) /\
  ownsRunnerThroughout t queryRunner' (snd (getManyAndCount C E qb t)).
Proof.
  intros Hnone Hcreated Hlock.
  assert (Hunlocked :
    lockModeIs (ExpressionMap.lockMode (expressionMap qb)) optimistic = false).
  { destruct (ExpressionMap.lockMode (expressionMap qb)) as [[]|];
      try reflexivity. contradiction Hlock. reflexivity. }
  assert (Hframe : forall (A : Type) (m : QueryExpressionMap)
                     (body : QueryRunner -> Async A),
    (forall r, emits isDataCall (body r)) ->
    ownsRunnerThroughout t queryRunner'
      (snd (bind (obtainQueryRunner E (withExpressionMap qb m))
              (fun r => inOwnTransaction E (withExpressionMap qb m) r (body r))
              t))).
  { intros A m body Hbody. unfold obtainQueryRunner.
    cbn [queryRunner withExpressionMap]. rewrite Hnone.
    unfold bind, call. rewrite Hcreated. cbn [await].
    destruct (@inOwnTransaction_trace A keepsQueryRunner
                (withExpressionMap qb m) queryRunner' (body queryRunner')
                (t ++ [CreateQueryRunner])%list)
      as (events & Htrace & Hevents).
    - intros _ _. repeat split.
    - apply emits_weaken with (P := isDataCall);
        [exact isDataCall_keepsQueryRunner | apply Hbody].
    - exists events. split; [|exact Hevents].
      rewrite Htrace. unfold isOwnQueryRunner.
      cbn [queryRunner withExpressionMap]. rewrite Hnone.
      rewrite <- app_assoc. reflexivity. }
  assert (Hsame : withExpressionMap qb (expressionMap qb) = qb)
    by (destruct qb; reflexivity).
  repeat split.
  - unfold getRawMany. rewrite Hunlocked.
    apply (Hframe _ _ (fun r => loadRawResults C E _ r)).
    intros r. apply emits_loadRawResults_data.
  - unfold getRawAndEntities. rewrite <- Hsame.
    apply (Hframe _ _ (fun r => bind (executeEntitiesAndRawResults C E _ r) _)).
    intros r. apply emits_entities_data.
  - unfold getCount. rewrite Hunlocked. rewrite <- Hsame.
    apply (Hframe _ _ (fun r => executeCountQuery C E _ r)).
    intros r. apply emits_executeCountQuery_data.
  - unfold getManyAndCount. rewrite Hunlocked. rewrite <- Hsame.
    apply (Hframe _ _ (fun r => bind (executeEntitiesAndRawResults C E _ r) _)).
    intros r. apply emits_manyAndCount_data.
Qed.

(** X15.  When the builder does not ask for a transaction, or the query
    runner always has one active, the four methods start, commit and roll
    back no transaction. *)
Theorem no_transaction_unless_requested (qb : SelectQueryBuilder) :
  ExpressionMap.useTransaction (expressionMap qb) = false \/
  (forall t r, queryRunner_isTransactionActive E t r = true) ->
  emits outsideTransaction (getRawMany C E qb) /\
  emits outsideTransaction (getRawAndEntities C E qb) /\
  emits outsideTransaction (getCount C E qb) /\
  emits outsideTransaction (getManyAndCount C E qb).
Proof.
  intros Hcase.
  assert (Hframe : forall (A : Type) (f : QueryExpressionMap -> QueryExpressionMap)
                     (body : QueryRunner -> Async A),
    (forall m, ExpressionMap.useTransaction (f m) = ExpressionMap.useTransaction m) ->
    (forall r, emits isDataCall (body r)) ->
    emits outsideTransaction
      (bind (obtainQueryRunner E (updateExpressionMap f qb))
         (fun r => inOwnTransaction E (updateExpressionMap f qb) r (body r)))).
  { intros A f body Hf Hbody. apply emits_bind.
    - unfold obtainQueryRunner. destruct (queryRunner _);
        [apply emits_ret | apply emits_call; exact I].
    - intros r. apply emits_inOwnTransaction.
      + intros _. exact I.
      + cbn [updateExpressionMap withExpressionMap expressionMap]. rewrite Hf.
        intros Huse [t Hinactive]. destruct Hcase as [Hnot|Hactive].
        * rewrite Hnot in Huse. discriminate Huse.
        * rewrite Hactive in Hinactive. discriminate Hinactive.
      + apply emits_weaken with (P := isDataCall);
          [exact isDataCall_outsideTransaction | apply Hbody]. }
  assert (Hsame : updateExpressionMap (fun m => m) qb = qb)
    by (destruct qb; reflexivity).
  repeat split.
  - unfold getRawMany. destruct (lockModeIs _ _); [apply emits_throw|].
    apply (Hframe _ (ExpressionMap.set_queryEntity false)
             (fun r => loadRawResults C E _ r)); [reflexivity|].
    intros r. apply emits_loadRawResults_data.
  - unfold getRawAndEntities. rewrite <- Hsame.
    apply (Hframe _ (fun m => m)
             (fun r => bind (executeEntitiesAndRawResults C E _ r) _));
      [reflexivity|].
    intros r. apply emits_entities_data.
  - unfold getCount. destruct (lockModeIs _ _); [apply emits_throw|].
    rewrite <- Hsame.
    apply (Hframe _ (fun m => m) (fun r => executeCountQuery C E _ r));
      [reflexivity|].
    intros r. apply emits_executeCountQuery_data.
  - unfold getManyAndCount. destruct (lockModeIs _ _); [apply emits_throw|].
    rewrite <- Hsame.
    apply (Hframe _ (fun m => m)
             (fun r => bind (executeEntitiesAndRawResults C E _ r) _));
      [reflexivity|].
    intros r. apply emits_manyAndCount_data.
Qed.

End RunnerFacts.

(* ===================================================================== *)
(** ** Further facts: the transaction of a method and the result cache *)
(* ===================================================================== *)

Section TransactionFacts.

Variable C : Collaborators.
Variable E : Environment.




(** *** The result cache *)

(** X19.  A cached entry that has not expired is the result: the rows parsed
    from it are returned and no query is dispatched. *)
Theorem cache_hit_skips_query (qb : SelectQueryBuilder)
    (queryRunner' : QueryRunner) (sql : string) (parameters : list JsValue)
    (t : Trace) (saved : QueryResultCacheOptions) (rows : list ObjectLiteral) :
  getQueryAndParameters C qb = Return (sql, parameters) ->
  cachingActive qb = true ->
  let options :=
    {| identifier := ExpressionMap.cacheId (expressionMap qb);
       query := queryIdOf C sql parameters;
       time := None;
       duration := cacheDurationOf qb;
       result := None |} in
  queryResultCache_getFromCache E t options = Replied (Some saved) ->
  queryResultCache_isExpired E (t ++ [GetFromCache options])%list saved =
    Replied false ->
  JSON_parse E (result saved) = Replied rows ->
  loadRawResults C E qb queryRunner' t =
  (Return rows, (t ++ [GetFromCache options; IsExpired saved])%list).
Proof.
  intros Hcompiled Hactive options Hfound Hfresh Hparsed.
  unfold loadRawResults, bind at 1, sync at 1. rewrite Hcompiled, Hactive.
  unfold bind at 1, lookupInCache, tryCatch, readFromCache.
  fold options. unfold bind at 1, call at 1. rewrite Hfound. cbn [await].
  unfold bind at 1, call at 1. rewrite Hfresh. cbn [await negb].
  unfold bind, sync, ret. rewrite Hparsed. cbn [await].
  rewrite <- app_assoc. reflexivity.
Qed.

(** X20.  Without result caching (no cache on the connection, or caching
    neither asked for nor always enabled) a raw load is exactly one query,
    whose completion is the result; the cache is not called. *)
Theorem no_caching_single_query (qb : SelectQueryBuilder)
    (queryRunner' : QueryRunner) (sql : string) (parameters : list JsValue)
    (t : Trace) :
  getQueryAndParameters C qb = Return (sql, parameters) ->
  cachingActive qb = false ->
  loadRawResults C E qb queryRunner' t =
  (await (queryRunner_query E t queryRunner' sql parameters),
   (t ++ [Query queryRunner' sql parameters])%list).
Proof.
  intros Hcompiled Hinactive.
  unfold loadRawResults, bind at 1, sync at 1. rewrite Hcompiled, Hinactive.
  unfold bind, ret, runQuery, call.
  destruct (queryRunner_query E t queryRunner' sql parameters); reflexivity.
Qed.

(** X21.  When the cache holds no entry for the query, or an expired one, the
    query is dispatched and its rows are stored, the expired entry being
    handed to the cache with them. *)
Theorem cache_miss_stores_rows (qb : SelectQueryBuilder)
    (queryRunner' : QueryRunner) (sql : string) (parameters : list JsValue)
    (t : Trace) (found : option QueryResultCacheOptions)
    (rows : list ObjectLiteral) :
  getQueryAndParameters C qb = Return (sql, parameters) ->
  cachingActive qb = true ->
  let options :=
    {| identifier := ExpressionMap.cacheId (expressionMap qb);
       query := queryIdOf C sql parameters;
       time := None;
       duration := cacheDurationOf qb;
       result := None |} in
  let looked :=
    (t ++ GetFromCache options ::
       match found with Some saved => [IsExpired saved] | None => [] end)%list in
  let queried := (looked ++ [Query queryRunner' sql parameters])%list in
  let stored :=
    {| identifier := ExpressionMap.cacheId (expressionMap qb);
       query := queryIdOf C sql parameters;
       time := Some (Date_now E queried);
       duration := cacheDurationOf qb;
       result := Some (JSON_stringify C (JsArray (map JsObject rows))) |} in
  queryResultCache_getFromCache E t options = Replied found ->
  (forall saved,
     found = Some saved ->
     queryResultCache_isExpired E (t ++ [GetFromCache options])%list saved =
     Replied true) ->
  queryRunner_query E looked queryRunner' sql parameters = Replied rows ->
  queryResultCache_storeInCache E queried stored found = Replied tt ->
  loadRawResults C E qb queryRunner' t =
  (Return rows, (queried ++ [StoreInCache stored found])%list).
Proof.
  intros Hcompiled Hactive options looked queried stored Hfound Hexpired
    Hqueried Hstored.
  unfold loadRawResults, bind at 1, sync at 1. rewrite Hcompiled, Hactive.
  assert (Hlookup :
    lookupInCache E qb (queryIdOf C sql parameters) t =
    (Return (NotCached found), looked)).
  { unfold lookupInCache, tryCatch, readFromCache. fold options.
    unfold bind at 1, call at 1. rewrite Hfound. cbn [await].
    subst looked. destruct found as [saved|]; [|reflexivity].
    unfold bind, call. rewrite (Hexpired saved eq_refl). cbn [await negb ret].
    rewrite <- app_assoc. reflexivity. }
  unfold bind at 1. rewrite Hlookup.
  unfold bind at 1, runQuery, call at 1. rewrite Hqueried. cbn [await].
  fold queried.
  unfold bind, storeInCache, tryCatch, writeToCache, call. fold stored.
  rewrite Hstored. reflexivity.
Qed.

End TransactionFacts.

(* ===================================================================== *)
(** ** Further facts: entities, locks and the count query *)
(* ===================================================================== *)

Section EntityFacts.

Variable C : Collaborators.
Variable E : Environment.

(** X22.  With the lock mode ["optimistic"] and a non-zero version number,
    [getOne] returns the first entity when its version column holds that
    number, and otherwise throws [OptimisticLockVersionMismatchError] with
    the entity name, the expected and the actual version. *)
Theorem getOne_checks_version (qb : SelectQueryBuilder) (t t1 : Trace)
    (results : EntitiesAndRaw) (entity : ObjectLiteral) (rest : list ObjectLiteral)
    (expected : Z) (mainAlias : Alias) (metadata : EntityMetadata)
    (column : ColumnMetadata) :
  getRawAndEntities C E qb t = (Return results, t1) ->
  entities results = entity :: rest ->
  ExpressionMap.lockMode (expressionMap qb) = Some optimistic ->
  ExpressionMap.lockVersion (expressionMap qb) = Some (VersionNumber expected) ->
  expected <> 0 ->
  ExpressionMap.mainAlias (expressionMap qb) = Some mainAlias ->
  aliasMetadata mainAlias = Some metadata ->
  versionColumn metadata = Some column ->
  (getEntityValue column entity = JsNumber expected ->
   getOne C E qb t = (Return (Some entity), t1)) /\
  (getEntityValue column entity <> JsNumber expected ->
   getOne C E qb t =
   (Throw (OptimisticLockVersionMismatchError (name metadata)
             (VersionNumber expected) (getEntityValue column entity)), t1)).
Proof.
  intros Hrun Hentities Hmode Hversion Hnonzero Halias Hmetadata Hcolumn.
  assert (Hexpected : (expected =? 0) = false) by (apply Z.eqb_neq; exact Hnonzero).
  assert (Hone :
    getOne C E qb t =
    match getEntityValue column entity with
    | JsNumber actual =>
        if negb (actual =? expected)
        then (Throw (OptimisticLockVersionMismatchError (name metadata)
                       (VersionNumber expected) (JsNumber actual)), t1)
        else (Return (Some entity), t1)
    | actualVersion =>
        (Throw (OptimisticLockVersionMismatchError (name metadata)
                  (VersionNumber expected) actualVersion), t1)
    end).
  { unfold getOne, bind at 1. rewrite Hrun, Hentities. cbn [hd_error].
    rewrite Hmode, Hversion. cbn [lockModeIs LockMode_eqb truthyLockVersion andb].
    rewrite Hexpected. cbn [negb].
    unfold bind, sync, mainAlias_, Alias_metadata.
    rewrite Halias, Hmetadata, Hcolumn.
    destruct (getEntityValue column entity) as [| |b|actual|s|time|items|properties];
      try reflexivity.
    destruct (negb (actual =? expected)); reflexivity. }
  rewrite Hone. split.
  - intros ->. rewrite Z.eqb_refl. reflexivity.
  - intros Hactual.
    destruct (getEntityValue column entity) as [| |b|actual|s|time|items|properties];
      try reflexivity.
    destruct (Z.eqb_spec actual expected) as [Hsame|Hdiffers]; [|reflexivity].
    exfalso. apply Hactual. rewrite Hsame. reflexivity.
Qed.

(** X23.  With the lock mode ["optimistic"] and a [Date] as lock version,
    [getOne] compares the time of the update-date column: it returns the
    first entity when the times are equal, and otherwise throws
    [OptimisticLockVersionMismatchError] with the entity name, the expected
    and the actual date. *)
Theorem getOne_checks_update_date (qb : SelectQueryBuilder) (t t1 : Trace)
    (results : EntitiesAndRaw) (entity : ObjectLiteral) (rest : list ObjectLiteral)
    (expected actual : Z) (mainAlias : Alias) (metadata : EntityMetadata)
    (column : ColumnMetadata) :
  getRawAndEntities C E qb t = (Return results, t1) ->
  entities results = entity :: rest ->
  ExpressionMap.lockMode (expressionMap qb) = Some optimistic ->
  ExpressionMap.lockVersion (expressionMap qb) = Some (VersionDate expected) ->
  ExpressionMap.mainAlias (expressionMap qb) = Some mainAlias ->
  aliasMetadata mainAlias = Some metadata ->
  updateDateColumn metadata = Some column ->
  getEntityValue column entity = JsDate actual ->
  getOne C E qb t =
  if actual =? expected
  then (Return (Some entity), t1)
  else (Throw (OptimisticLockVersionMismatchError (name metadata)
                 (VersionDate expected) (JsDate actual)), t1).
Proof.
  intros Hrun Hentities Hmode Hversion Halias Hmetadata Hcolumn Hactual.
  unfold getOne, bind at 1. rewrite Hrun, Hentities. cbn [hd_error].
  rewrite Hmode, Hversion. cbn [lockModeIs LockMode_eqb truthyLockVersion andb].
  unfold bind, sync, mainAlias_, Alias_metadata.
  rewrite Halias, Hmetadata, Hcolumn, Hactual.
  destruct (actual =? expected); reflexivity.
Qed.

(** X24.  An optimistic lock on an entity that has neither a version column
    nor an update-date column is refused before anything is dispatched. *)
Theorem optimistic_lock_needs_version_column (qb : SelectQueryBuilder)
    (queryRunner' : QueryRunner) (t : Trace) (mainAlias : Alias)
    (metadata : EntityMetadata) :
  ExpressionMap.mainAlias (expressionMap qb) = Some mainAlias ->
  aliasMetadata mainAlias = Some metadata ->
  ExpressionMap.lockMode (expressionMap qb) = Some optimistic ->
  versionColumn metadata = None ->
  updateDateColumn metadata = None ->
  executeEntitiesAndRawResults C E qb queryRunner' t =
  (Throw (NoVersionOrUpdateDateColumnError (name metadata)), t).
Proof.
  intros Halias Hmetadata Hmode Hversion Hdate.
  unfold executeEntitiesAndRawResults. rewrite Halias.
  unfold bind at 1, checkLockPreconditions, bind at 1, isTransactionActive.
  rewrite Hmode. cbn [isPessimistic lockModeIs LockMode_eqb orb andb].
  unfold bind, sync, Alias_metadata. rewrite Hmetadata, Hversion, Hdate.
  reflexivity.
Qed.

(** X25.  Without a window ([skip] and [take] unset or zero) or without a
    join, once the lock preconditions pass, [executeEntitiesAndRawResults]
    loads the raw rows with one [loadRawResults] of the builder itself, as
    the metadata transformers leave it: no distinct-id query is built.  An
    error of that load is the error of the call; no rows give no raw rows
    and no entities, and no loader is called; rows are handed to the
    hydration.  (The loaders of the hydration hold the query runner: what
    they send is part of their calls.) *)
Theorem unpaginated_runs_single_query (qb transformed : SelectQueryBuilder)
    (mainAlias : Alias) (queryRunner' : QueryRunner) (t : Trace) :
  ExpressionMap.mainAlias (expressionMap qb) = Some mainAlias ->
  transformRelationMetadata C qb = Return transformed ->
  truthy (ExpressionMap.skip (expressionMap qb)) ||
  truthy (ExpressionMap.take (expressionMap qb)) = false \/
  ExpressionMap.joinAttributes (expressionMap qb) = [] ->
  checkLockPreconditions E qb mainAlias queryRunner' t = (Return tt, t) ->
  executeEntitiesAndRawResults C E qb queryRunner' t =
  match loadRawResults C E transformed queryRunner' t with
  | (Return [], t1) =>
      (Return ({| entities := []; raw := [] |}, transformed), t1)
  | (Return rawResults, t1) =>
      match hydrate E transformed mainAlias rawResults t1 with
      | (Return entities, t2) =>
          (Return ({| entities := entities; raw := rawResults |}, transformed), t2)
      | (Throw error, t2) => (Throw error, t2)
      end
  | (Throw error, t1) => (Throw error, t1)
  end.
Proof.
  intros Halias Htransformed Hcase Hlocks.
  pose proof Htransformed as Hframe.
  apply transformRelationMetadata_frame in Hframe.
  destruct Hframe as (_ & _ & Hskip & Htake & Hjoined).
  assert (Hsingle :
    (truthy (ExpressionMap.skip (expressionMap transformed)) ||
     truthy (ExpressionMap.take (expressionMap transformed))) &&
    Nat.ltb 0 (length (ExpressionMap.joinAttributes (expressionMap transformed)))
    = false).
  { rewrite Hskip, Htake, Hjoined. destruct Hcase as [-> | ->];
      [reflexivity | apply andb_false_r]. }
  unfold executeEntitiesAndRawResults. rewrite Halias.
  unfold bind at 1. rewrite Hlocks.
  unfold bind at 1, sync at 1. rewrite Htransformed.
  unfold bind at 1. rewrite Hsingle.
  destruct (loadRawResults C E transformed queryRunner' t)
    as [[[|row rows]|error] t1]; reflexivity.
Qed.

(** *** The count query *)

Lemma countQueryBuilder_plain (qb : SelectQueryBuilder) (countSql : string) :
  createLimitOffsetExpression C (countQueryBuilder qb countSql) = Return "" /\
  createGroupByExpression C (countQueryBuilder qb countSql) = "" /\
  ExpressionMap.orderBys (expressionMap (countQueryBuilder qb countSql)) = [] /\
  In "disable-global-order"
    (ExpressionMap.options (expressionMap (countQueryBuilder qb countSql))).
Proof.
  unfold countQueryBuilder, createLimitOffsetExpression, createGroupByExpression,
    clone.
  destruct countSql as [|c countSql]; cbn;
    (repeat split;
     [ destruct (Nat.eqb (length (ExpressionMap.joinAttributes (expressionMap qb))) 0),
         (driver (connection qb)); reflexivity
     | apply in_or_app; right; left; reflexivity ]).
Qed.

(** X26.  Whatever window, grouping and ordering the builder holds, the query
    [executeCountQuery] dispatches has no LIMIT/OFFSET clause, no GROUP BY
    clause and no explicit ordering, and opts out of the global ordering. *)
Theorem count_query_is_plain (qb : SelectQueryBuilder) (queryRunner' : QueryRunner) :
  emits (isPlainQueryOn C queryRunner') (executeCountQuery C E qb queryRunner').
Proof.
  unfold executeCountQuery.
  apply emits_bind_sync. intros countSql _.
  apply emits_bind; [|intros results; repeat emits_next].
  fold (countQueryBuilder qb countSql).
  apply emits_weaken
    with (P := isQueryOf queryRunner'
                 (getQueryAndParameters C (countQueryBuilder qb countSql)));
    [|apply loadRawResults_dispatches].
  intros [] Hevent; try exact I.
  destruct Hevent as [Hrunner Hcompiled].
  split; [exact Hrunner|].
  exists (countQueryBuilder qb countSql).
  split; [exact Hcompiled | apply countQueryBuilder_plain].
Qed.

End EntityFacts.

(* ===================================================================== *)
(** ** Further facts: the queries a method costs *)
(* ===================================================================== *)

Lemma queriesIn_app (before after : list Event) :
  queriesIn (before ++ after) = (queriesIn before + queriesIn after)%nat.
Proof. unfold queriesIn. rewrite filter_app, length_app. reflexivity. Qed.

Lemma atMost_weaken {A : Type} (n m : nat) (c : Async A) :
  (n <= m)%nat -> dispatchesAtMost n c -> dispatchesAtMost m c.
Proof.
  intros Hle Hc t completion t1 H.
  destruct (Hc t completion t1 H) as (events & -> & Hevents).
  exists events. split; [reflexivity | lia].
Qed.

Lemma atMost_nothing {A : Type} (n : nat) (c : Async A) :
  (forall t, snd (c t) = t) -> dispatchesAtMost n c.
Proof.
  intros Hc t completion t1 H. specialize (Hc t). rewrite H in Hc. simpl in Hc.
  subst t1. exists []. split; [symmetry; apply app_nil_r | unfold queriesIn; simpl; lia].
Qed.

Lemma atMost_call {A : Type} (n : nat) (event : Event)
    (reply : Trace -> Reply A) :
  ((if isQuery event then 1 else 0) <= n)%nat ->
  dispatchesAtMost n (call event reply).
Proof.
  intros Hevent t completion t1 H. injection H as _ <-.
  exists [event]. split; [reflexivity|].
  unfold queriesIn. simpl. destruct (isQuery event); simpl; lia.
Qed.

Lemma atMost_bind {A B : Type} (n m : nat) (c : Async A) (k : A -> Async B) :
  dispatchesAtMost n c -> (forall a, dispatchesAtMost m (k a)) ->
  dispatchesAtMost (n + m) (bind c k).
Proof.
  intros Hc Hk t completion t2 H. unfold bind in H.
  destruct (c t) as [[a|e] t1] eqn:Hct;
    destruct (Hc t _ t1 Hct) as (events & -> & Hevents).
  - destruct (Hk a _ _ _ H) as (events' & -> & Hevents').
    exists (events ++ events')%list.
    split; [symmetry; apply app_assoc | rewrite queriesIn_app; lia].
  - injection H as _ <-. exists events. split; [reflexivity | lia].
Qed.

Lemma atMost_bind_sync {A B : Type} (n : nat) (c : Completion A)
    (k : A -> Async B) :
  (forall a, c = Return a -> dispatchesAtMost n (k a)) ->
  dispatchesAtMost n (bind (sync c) k).
Proof.
  intros Hk t completion t1 H. unfold bind, sync in H.
  destruct c as [a|e].
  - exact (Hk a eq_refl _ _ _ H).
  - injection H as _ <-.
    exists []. split; [symmetry; apply app_nil_r | unfold queriesIn; simpl; lia].
Qed.

Lemma atMost_tryCatch {A : Type} (n m : nat) (c : Async A)
    (handler : Error -> Async A) :
  dispatchesAtMost n c -> (forall e, dispatchesAtMost m (handler e)) ->
  dispatchesAtMost (n + m) (tryCatch c handler).
Proof.
  intros Hc Hhandler t completion t2 H. unfold tryCatch in H.
  destruct (c t) as [[a|e] t1] eqn:Hct;
    destruct (Hc t _ t1 Hct) as (events & -> & Hevents).
  - injection H as _ <-. exists events. split; [reflexivity | lia].
  - destruct (Hhandler e _ _ _ H) as (events' & -> & Hevents').
    exists (events ++ events')%list.
    split; [symmetry; apply app_assoc | rewrite queriesIn_app; lia].
Qed.

Lemma atMost_tryFinally {A : Type} (n m : nat) (c : Async A)
    (finalizer : Async unit) :
  dispatchesAtMost n c -> dispatchesAtMost m finalizer ->
  dispatchesAtMost (n + m) (tryFinally c finalizer).
Proof.
  intros Hc Hfinalizer t completion t2 H. unfold tryFinally in H.
  destruct (c t) as [completion' t1] eqn:Hct.
  destruct (Hc t _ t1 Hct) as (events & -> & Hevents).
  destruct (finalizer (t ++ events)%list) as [[[]|e] t3] eqn:Hft;
    destruct (Hfinalizer _ _ _ Hft) as (events' & -> & Hevents');
    injection H as _ <-;
    (exists (events ++ events')%list;
     split; [symmetry; apply app_assoc | rewrite queriesIn_app; lia]).
Qed.

(** One step of a bound on a method free of queries. *)
Ltac no_query :=
  match goal with
  | |- dispatchesAtMost 0 (ret _) => apply atMost_nothing; reflexivity
  | |- dispatchesAtMost 0 (throw _) => apply atMost_nothing; reflexivity
  | |- dispatchesAtMost 0 (sync _) => apply atMost_nothing; reflexivity
  | |- dispatchesAtMost 0 (call _ _) => apply atMost_call; simpl; lia
  | |- dispatchesAtMost 0 (bind _ _) => apply (@atMost_bind _ _ 0 0); [|intros ?]
  | |- dispatchesAtMost 0 (tryCatch _ _) =>
      apply (@atMost_tryCatch _ 0 0); [|intros ?]
  | |- dispatchesAtMost 0 (match ?x with _ => _ end) => destruct x
  end.

Section QueryCountFacts.

Variable C : Collaborators.
Variable E : Environment.

Lemma atMost_lookupInCache (qb : SelectQueryBuilder) (queryId : string) :
  dispatchesAtMost 0 (lookupInCache E qb queryId).
Proof. unfold lookupInCache, readFromCache. repeat no_query. Qed.

Lemma atMost_storeInCache (qb : SelectQueryBuilder) (queryId : string)
    (saved : option QueryResultCacheOptions) (records : list ObjectLiteral) :
  dispatchesAtMost 0 (storeInCache C E qb queryId saved records).
Proof.
  unfold storeInCache. apply (@atMost_tryCatch _ 0 0).
  - intros t completion t1 H. unfold writeToCache, call in H.
    injection H as _ <-. eexists [_]. split; [reflexivity|].
    unfold queriesIn. simpl. lia.
  - intros e. repeat no_query.
Qed.

Lemma atMost_loadRawResults (qb : SelectQueryBuilder) (queryRunner' : QueryRunner) :
  dispatchesAtMost 1 (loadRawResults C E qb queryRunner').
Proof.
  unfold loadRawResults.
  apply atMost_bind_sync. intros [sql parameters] _.
  apply (@atMost_bind _ _ 0 1).
  - destruct (cachingActive qb); [apply atMost_lookupInCache | no_query].
  - intros [records|saved|].
    + apply atMost_nothing. reflexivity.
    + apply (@atMost_bind _ _ 1 0);
        [apply atMost_call; simpl; lia | intros records].
      apply (@atMost_bind _ _ 0 0); [|intros ?; no_query].
      destruct (cachingActive qb); [apply atMost_storeInCache | no_query].
    + apply atMost_call. simpl. lia.
Qed.

Lemma atMost_hydrate (qb : SelectQueryBuilder) (a : Alias)
    (rawResults : list ObjectLiteral) :
  dispatchesAtMost 0 (hydrate E qb a rawResults).
Proof. unfold hydrate. repeat no_query. Qed.

Lemma atMost_executeEntitiesAndRawResults (qb : SelectQueryBuilder)
    (queryRunner' : QueryRunner) :
  dispatchesAtMost 2 (executeEntitiesAndRawResults C E qb queryRunner').
Proof.
  unfold executeEntitiesAndRawResults.
  destruct (ExpressionMap.mainAlias (expressionMap qb)) as [mainAlias|];
    [|apply atMost_nothing; reflexivity].
  apply (@atMost_bind _ _ 0 2).
  { unfold checkLockPreconditions, isTransactionActive.
    apply (@atMost_bind _ _ 0 0); [apply atMost_nothing; reflexivity | intros active].
    repeat no_query. }
  intros _. apply atMost_bind_sync. intros transformed _.
  apply (@atMost_bind _ _ 2 0).
  - destruct (_ && _);
      [|apply atMost_weaken with (n := 1%nat); [lia | apply atMost_loadRawResults]].
    unfold loadPaginatedRawResults.
    apply atMost_bind_sync. intros idsBuilder Hbuilder.
    apply atMost_bind_sync. intros metadata _.
    apply distinctIdsBuilder_shape in Hbuilder.
    destruct Hbuilder as (_ & _ & _ & Hunlocked & Hplain & Hraw & Hgiven).
    apply (@atMost_bind _ _ 1 1).
    + intros t completion t1 Hids.
      rewrite (getRawMany_on_given_runner C E idsBuilder t Hgiven Hplain Hunlocked),
        Hraw in Hids.
      exact (atMost_loadRawResults idsBuilder queryRunner' t Hids).
    + intros rawResults.
      destruct (Nat.ltb 0 (length rawResults));
        [|apply atMost_nothing; reflexivity].
      apply atMost_bind_sync. intros [condition' parameters] _.
      apply atMost_loadRawResults.
  - intros rawResults. apply (@atMost_bind _ _ 0 0); [|intros ?; no_query].
    destruct (Nat.ltb 0 (length rawResults)); [apply atMost_hydrate | no_query].
Qed.

Lemma atMost_executeCountQuery (qb : SelectQueryBuilder)
    (queryRunner' : QueryRunner) :
  dispatchesAtMost 1 (executeCountQuery C E qb queryRunner').
Proof.
  unfold executeCountQuery.
  apply atMost_bind_sync. intros countSql _.
  apply (@atMost_bind _ _ 1 0); [apply atMost_loadRawResults | intros results].
  repeat no_query.
Qed.

Lemma atMost_inOwnTransaction {A : Type} (n : nat) (qb : SelectQueryBuilder)
    (queryRunner' : QueryRunner) (body : Async A) :
  dispatchesAtMost n body ->
  dispatchesAtMost n (inOwnTransaction E qb queryRunner' body).
Proof.
  intros Hbody. unfold inOwnTransaction.
  apply atMost_weaken with (n := (0 + (0 + ((n + (0 + 0)) + (0 + 0))) + 0)%nat);
    [lia|].
  apply atMost_tryFinally.
  - apply atMost_bind; [apply atMost_nothing; reflexivity | intros active].
    apply atMost_bind.
    { unfold startTransaction. destruct (_ && _); repeat no_query. }
    intros started. apply atMost_tryCatch.
    + apply atMost_bind; [exact Hbody | intros results].
      apply atMost_bind; [|intros ?; no_query].
      unfold commitTransaction. destruct started; no_query.
    + intros error. apply atMost_bind; [|intros ?; no_query].
      unfold rollbackTransaction. destruct started; repeat no_query.
  - unfold release. destruct (isOwnQueryRunner qb queryRunner'); no_query.
Qed.

Lemma atMost_obtainQueryRunner (qb : SelectQueryBuilder) :
  dispatchesAtMost 0 (obtainQueryRunner E qb).
Proof. unfold obtainQueryRunner. destruct (queryRunner qb); no_query. Qed.

(** X27.  The builder's own queries ([queryRunner.query] in
    [loadRawResults]) are bounded, whatever the builder, the cache and the
    outcome: [getRawMany] and [getCount] send at most one,
    [getRawAndEntities] (so [getOne] and [getMany]) at most two, the two of
    the pagination, and [getManyAndCount] at most three.  The queries that
    the relation loaders and the result cache send on their own are not
    counted: they are part of the calls to these collaborators. *)
Theorem own_queries_per_method (qb : SelectQueryBuilder) :
  dispatchesAtMost 1 (getRawMany C E qb) /\
  dispatchesAtMost 1 (getCount C E qb) /\
  dispatchesAtMost 2 (getRawAndEntities C E qb) /\
  dispatchesAtMost 2 (getOne C E qb) /\
  dispatchesAtMost 2 (getMany C E qb) /\
  dispatchesAtMost 3 (getManyAndCount C E qb).
Proof.
  assert (Hentities : dispatchesAtMost 2 (getRawAndEntities C E qb)).
  { unfold getRawAndEntities.
    apply (@atMost_bind _ _ 0 2); [apply atMost_obtainQueryRunner | intros r].
    apply atMost_inOwnTransaction.
    apply (@atMost_bind _ _ 2 0);
      [apply atMost_executeEntitiesAndRawResults | intros ?; no_query]. }
  split; [|split; [|split; [|split; [|split]]]].
  - unfold getRawMany. destruct (lockModeIs _ _); [apply atMost_nothing; reflexivity|].
    apply (@atMost_bind _ _ 0 1); [apply atMost_obtainQueryRunner | intros r].
    apply atMost_inOwnTransaction, atMost_loadRawResults.
  - unfold getCount. destruct (lockModeIs _ _); [apply atMost_nothing; reflexivity|].
    apply (@atMost_bind _ _ 0 1); [apply atMost_obtainQueryRunner | intros r].
    apply atMost_inOwnTransaction, atMost_executeCountQuery.
  - exact Hentities.
  - unfold getOne.
    apply (@atMost_bind _ _ 2 0); [exact Hentities | intros results].
    destruct (hd_error (entities results)) as [entity|]; [|no_query].
    destruct (_ && _); [|no_query].
    apply (@atMost_bind_sync _ _ 0). intros mainAlias _.
    apply (@atMost_bind_sync _ _ 0). intros metadata _.
    repeat no_query.
  - unfold getMany. destruct (lockModeIs _ _); [apply atMost_nothing; reflexivity|].
    apply (@atMost_bind _ _ 2 0); [exact Hentities | intros ?; no_query].
  - unfold getManyAndCount.
    destruct (lockModeIs _ _); [apply atMost_nothing; reflexivity|].
    apply (@atMost_bind _ _ 0 3); [apply atMost_obtainQueryRunner | intros r].
    apply atMost_inOwnTransaction.
    apply (@atMost_bind _ _ 2 1);
      [apply atMost_executeEntitiesAndRawResults | intros [entitiesAndRaw transformed]].
    apply (@atMost_bind _ _ 1 0);
      [apply atMost_executeCountQuery | intros ?; no_query].
Qed.

End QueryCountFacts.

(* ===================================================================== *)
(** ** The properties on concrete builders *)
(* ===================================================================== *)

Import Scenario.

(** C2 on joined posts: PostgreSQL counts the distinct primary key. *)
Lemma count_expression_witness :
  (computeCountExpression plain (postsWithCategory PostgresDriver) =
   Return "COUNT(1)" <->
   nothingJoined (expressionMap (postsWithCategory PostgresDriver))) /\
  (~ nothingJoined (expressionMap (postsWithCategory PostgresDriver)) ->
   computeCountExpression plain (postsWithCategory PostgresDriver) =
   Return "COUNT(DISTINCT(p.id))").
Proof.
  exact (@count_expression plain (postsWithCategory PostgresDriver) postAlias
           postMetadata eq_refl eq_refl).
Defined.

(** C2 as stated fails when the main alias carries no entity metadata: the
    function reads [mainAlias!.name] and [mainAlias!.metadata] before it
    looks at the joins, so a builder with nothing joined whose main alias
    is a table, or is not set, throws where the claim has [COUNT(1)]. *)
Lemma count_without_entity_metadata :
  (nothingJoined (expressionMap postsTable) /\
   computeCountExpression plain postsTable =
   Throw (TypeORMError "Cannot get entity metadata for the given alias p") /\
   computeCountExpression plain postsTable <> Return "COUNT(1)") /\
  (nothingJoined (expressionMap (blank PostgresDriver)) /\
   computeCountExpression plain (blank PostgresDriver) =
   Throw (TypeError "Cannot read properties of undefined") /\
   computeCountExpression plain (blank PostgresDriver) <> Return "COUNT(1)").
Proof. repeat split; discriminate. Qed.

(** C3 on MySQL and on SQLite with [offset(20)]. *)
Lemma offset_without_limit_witness :
  createLimitOffsetExpression plain (offset (Some 20) (posts MysqlDriver)) =
  Throw OffsetWithoutLimitNotSupportedError /\
  createLimitOffsetExpression plain
    (offset (Some 20) (posts AbstractSqliteDriver)) =
  Return " LIMIT -1 OFFSET 20".
Proof.
  split.
  - exact (proj1 (@offset_without_limit plain (offset (Some 20) (posts MysqlDriver))
                    20 eq_refl eq_refl eq_refl) eq_refl).
  - exact (proj2 (proj2 (@offset_without_limit plain
                           (offset (Some 20) (posts AbstractSqliteDriver))
                           20 eq_refl eq_refl eq_refl)) eq_refl).
Defined.

(** C4: SQL Server writes OFFSET 0 in its limit-only form. *)
Lemma sqlserver_limit_emits_offset_zero :
  createLimitOffsetExpression plain
    (offset (Some 0) (limit (Some 5) (posts SqlServerDriver))) =
  Return " ORDER BY (SELECT NULL) OFFSET 0 ROWS FETCH NEXT 5 ROWS ONLY" /\
  includes "OFFSET 0"
    " ORDER BY (SELECT NULL) OFFSET 0 ROWS FETCH NEXT 5 ROWS ONLY" = true.
Proof. split; reflexivity. Qed.

(** C5 on a sub-query with every clause, and on a sub-query whose
    concatenation ends with white space, which is trimmed inside the
    parentheses. *)
Lemma getQuery_fixed_order_witness :
  getQuery plain busiest =
  Return
    ("(SELECT * FROM post p LEFT JOIN category c GROUP BY p.id" ++
     " HAVING COUNT(c.id) > 1 ORDER BY p.id DESC LIMIT 10 FOR UPDATE)") /\
  getQuery plain padded =
  Return
    ("(SELECT * FROM post p LEFT JOIN category c GROUP BY p.id" ++
     " HAVING COUNT(c.id) > 1)").
Proof.
  split.
  - pose proof (@getQuery_fixed_order plain busiest "" "SELECT * FROM post p"
                  " LEFT JOIN category c" "" " LIMIT 10" " FOR UPDATE"
                  eq_refl eq_refl eq_refl eq_refl eq_refl eq_refl) as H.
    destruct H as (_ & _ & _ & H). vm_compute in H |- *. exact H.
  - pose proof (@getQuery_fixed_order plain padded "" "SELECT * FROM post p"
                  " LEFT JOIN category c" "" "" ""
                  eq_refl eq_refl eq_refl eq_refl eq_refl eq_refl) as H.
    destruct H as (_ & _ & _ & H). vm_compute in H |- *. exact H.
Defined.

(** C6 on posts locked optimistically at version 1. *)
Lemma optimistic_lock_rejected_witness :
  getRawMany plain (answering [] [firstPost] false false)
    (setLock optimistic (Some (VersionNumber 1)) None (posts PostgresDriver)) [] =
  (Throw OptimisticLockCanNotBeUsedError, []) /\
  getManyAndCount plain (answering [] [firstPost] false false)
    (setLock optimistic (Some (VersionNumber 1)) None (posts PostgresDriver)) [] =
  (Throw OptimisticLockCanNotBeUsedError, []).
Proof.
  pose proof (@optimistic_lock_rejected plain
                (answering [] [firstPost] false false)
                (setLock optimistic (Some (VersionNumber 1)) None
                   (posts PostgresDriver)) [] eq_refl) as (H1 & _ & _ & H4).
  exact (conj H1 H4).
Defined.

(** C7 on posts locked for writing, outside a transaction. *)
Lemma pessimistic_lock_requires_transaction_witness :
  executeEntitiesAndRawResults plain (answering [] [firstPost] false false)
    (setLock pessimistic_write None None (posts PostgresDriver)) 7%nat [] =
  (Throw PessimisticLockTransactionRequiredError, []).
Proof.
  exact (@pessimistic_lock_requires_transaction plain
           (answering [] [firstPost] false false)
           (setLock pessimistic_write None None (posts PostgresDriver))
           postAlias pessimistic_write 7%nat [] eq_refl eq_refl
           (or_intror (or_introl eq_refl)) eq_refl).
Defined.

(** C7 as stated fails without a main alias: the guard on the main alias
    comes first and throws its own error. *)
Lemma pessimistic_lock_without_main_alias :
  ExpressionMap.lockMode
    (expressionMap (setLock pessimistic_read None None (blank PostgresDriver))) =
  Some pessimistic_read /\
  queryRunner_isTransactionActive (answering [] [] false false) [] 7%nat = false /\
  executeEntitiesAndRawResults plain (answering [] [] false false)
    (setLock pessimistic_read None None (blank PostgresDriver)) 7%nat [] =
  (Throw (TypeORMError ("Alias is not set. Use " ++ dquote ++ "from" ++ dquote ++
                        " method to set an alias.")), []).
Proof. repeat split. Qed.

(** C9 on cached posts under a lenient policy: a failing cache read is
    followed by the driver query, whose rows are returned; a failing store
    leaves the rows returned. *)
Lemma cache_errors_follow_policy_witness :
  loadRawResults plain (answering [] [firstPost] true false) (cachedPosts true)
    7%nat [] =
  (Return [firstPost],
   [GetFromCache
      {| identifier := None; query := "SELECT * FROM post p -- PARAMETERS: []";
         time := None; duration := 1000; result := None |};
    Query 7%nat "SELECT * FROM post p" []]) /\
  fst (loadRawResults plain (answering [] [firstPost] false true)
         (cachedPosts true) 7%nat []) = Return [firstPost].
Proof.
  split.
  - pose proof (proj1 (@cache_errors_follow_policy plain
                         (answering [] [firstPost] true false) (cachedPosts true)
                         7%nat "SELECT * FROM post p" [] eq_refl eq_refl)
                  [] (CollaboratorError "cache read")
                  [GetFromCache
                     {| identifier := None;
                        query := "SELECT * FROM post p -- PARAMETERS: []";
                        time := None; duration := 1000; result := None |}])
      as H.
    specialize (H ltac:(vm_compute; reflexivity)).
    vm_compute in H |- *. exact H.
  - pose proof (proj2 (@cache_errors_follow_policy plain
                         (answering [] [firstPost] false true) (cachedPosts true)
                         7%nat "SELECT * FROM post p" [] eq_refl eq_refl)
                  [] None
                  [GetFromCache
                     {| identifier := None;
                        query := "SELECT * FROM post p -- PARAMETERS: []";
                        time := None; duration := 1000; result := None |}]
                  [firstPost] (CollaboratorError "cache store")
                  [GetFromCache
                     {| identifier := None;
                        query := "SELECT * FROM post p -- PARAMETERS: []";
                        time := None; duration := 1000; result := None |};
                   Query 7%nat "SELECT * FROM post p" [];
                   StoreInCache
                     {| identifier := None;
                        query := "SELECT * FROM post p -- PARAMETERS: []";
                        time := Some 2; duration := 1000; result := Some "[]" |}
                     None])
      as H.
    specialize (H ltac:(vm_compute; reflexivity) ltac:(vm_compute; reflexivity)
                  ltac:(vm_compute; reflexivity)).
    apply (f_equal fst) in H. vm_compute in H |- *. exact H.
Defined.

(** The same failures under the strict policy reach the caller. *)
Example cache_errors_strict :
  fst (loadRawResults plain (answering [] [firstPost] true false)
         (cachedPosts false) 7%nat []) = Throw (CollaboratorError "cache read") /\
  fst (loadRawResults plain (answering [] [firstPost] false true)
         (cachedPosts false) 7%nat []) = Throw (CollaboratorError "cache store").
Proof. split; vm_compute; reflexivity. Qed.

(** C10 on posts locked optimistically at version 0: the stored version 3
    is not compared. *)
Lemma getOne_skips_version_check_witness :
  fst (getOne plain (answering [] [firstPost] false false)
         (setLock optimistic (Some (VersionNumber 0)) None (posts PostgresDriver))
         []) = Return (Some firstPost).
Proof.
  pose proof (proj1 (@getOne_skips_version_check plain
                       (answering [] [firstPost] false false)
                       (setLock optimistic (Some (VersionNumber 0)) None
                          (posts PostgresDriver)) []
                       (or_intror (or_intror (or_introl eq_refl))))) as H.
  apply (f_equal fst) in H. vm_compute in H |- *. exact H.
Defined.

(** With a stored version that differs and is not zero, [getOne] throws. *)
Example getOne_version_mismatch :
  fst (getOne plain (answering [] [firstPost] false false)
         (setLock optimistic (Some (VersionNumber 2)) None (posts PostgresDriver))
         []) =
  Throw (OptimisticLockVersionMismatchError "post" (VersionNumber 2) (JsNumber 3)).
Proof. vm_compute. reflexivity. Qed.

(** C1 on a page of joined posts whose window is empty: the
    distinct-id query is the only call. *)
Lemma paginated_join_runs_distinct_ids_query_witness :
  executeEntitiesAndRawResults plain (answering [] [firstPost] false false) page
    7%nat [] =
  (Return ({| entities := []; raw := [] |}, page),
   [Query 7%nat
      ("SELECT DISTINCT distinctAlias.p_id as " ++ dquote ++ "ids_p_id" ++ dquote ++
       " FROM (SELECT * FROM post p LEFT JOIN category c) distinctAlias" ++
       " ORDER BY p_id ASC LIMIT 5") []]).
Proof.
  pose proof (@paginated_join_runs_distinct_ids_query plain
                (answering [] [firstPost] false false) page postAlias
                7%nat [] page pageIdsBuilder eq_refl eq_refl eq_refl eq_refl)
    as H.
  assert (Hjoined : ExpressionMap.joinAttributes (expressionMap page) <> [])
    by discriminate.
  specialize (H Hjoined ltac:(vm_compute; reflexivity)).
  destruct H as (_ & _ & H).
  specialize (H [Query 7%nat
                   ("SELECT DISTINCT distinctAlias.p_id as " ++ dquote ++
                    "ids_p_id" ++ dquote ++
                    " FROM (SELECT * FROM post p LEFT JOIN category c)" ++
                    " distinctAlias ORDER BY p_id ASC LIMIT 5") []]
                ltac:(vm_compute; reflexivity)).
  exact (proj1 H).
Defined.

(** C1 as stated fails with [skip] set to [0]: the joined query is
    dispatched at once, without a distinct-id query before it. *)
Lemma skip_zero_runs_single_query :
  ExpressionMap.skip (expressionMap fromTheStart) = Some 0 /\
  length (ExpressionMap.joinAttributes (expressionMap fromTheStart)) = 1%nat /\
  hd_error
    (snd (executeEntitiesAndRawResults plain
            (answering [] [firstPost] false false) fromTheStart 7%nat [])) =
  Some (Query 7%nat "SELECT * FROM post p LEFT JOIN category c" []) /\
  existsb
    (fun event =>
       match event with
       | Query _ sql _ => includes "DISTINCT" sql
       | _ => false
       end)
    (snd (executeEntitiesAndRawResults plain
            (answering [] [firstPost] false false) fromTheStart 7%nat [])) = false.
Proof. split; [|split; [|split]]; vm_compute; reflexivity. Qed.

(** A page whose window holds one post: the distinct-id query, then the
    joined query restricted to the key found, then the hydration. *)
Example page_with_one_post :
  snd (executeEntitiesAndRawResults plain
         (answering [firstPostId] [firstPost] false false) page 7%nat []) =
  [Query 7%nat
     ("SELECT DISTINCT distinctAlias.p_id as " ++ dquote ++ "ids_p_id" ++ dquote ++
      " FROM (SELECT * FROM post p LEFT JOIN category c) distinctAlias" ++
      " ORDER BY p_id ASC LIMIT 5") [];
   Query 7%nat "SELECT * FROM post p LEFT JOIN category c WHERE p.id IN (1)" [];
   LoadRelationIds [firstPost];
   LoadRelationCounts [firstPost];
   Transform [firstPost];
   LoadSeparateRelations [firstPost];
   BroadcastLoad [firstPost]].
Proof. vm_compute. reflexivity. Qed.

(** A builder without a query runner creates one, opens and commits its
    own transaction around the query and releases the runner. *)
Example own_runner_and_transaction :
  getRawMany plain (answering [] [firstPost] false false) transactionalPosts [] =
  (Return [firstPost],
   [CreateQueryRunner; StartTransaction 1%nat;
    Query 1%nat "SELECT * FROM post p" [];
    CommitTransaction 1%nat; Release 1%nat]).
Proof. vm_compute. reflexivity. Qed.

(** [trim] strips the blanks left by empty leading and trailing clauses. *)
Example trim_blanks : trim "  SELECT 1  " = "SELECT 1".
Proof. reflexivity. Qed.

(* --------------------------------------------------------------------- *)
(** *** The further facts on concrete builders *)

(** X2 on MySQL: [skip(10)] and [take(5)] without joins compile as
    [offset(10)] and [limit(5)]. *)
Lemma skip_take_compile_as_offset_limit_witness :
  createLimitOffsetExpression plain
    (skip (Some 10) (take (Some 5) (posts MysqlDriver))) =
  Return " LIMIT 5 OFFSET 10".
Proof.
  rewrite (@skip_take_compile_as_offset_limit plain
             (skip (Some 10) (take (Some 5) (posts MysqlDriver)))
             eq_refl eq_refl eq_refl).
  reflexivity.
Defined.

(** X3 on joined posts: [skip(10)] and [take(5)] leave the clause empty. *)
Lemma skip_take_ignored_with_joins_witness :
  createLimitOffsetExpression plain
    (skip (Some 10) (take (Some 5) (postsWithCategory PostgresDriver))) =
  Return "".
Proof.
  rewrite (@skip_take_ignored_with_joins plain (postsWithCategory PostgresDriver)
             (Some 10) (Some 5)); [reflexivity | discriminate].
Defined.

(** X4 on SQL Server: a limit without ordering opens with the placeholder
    ordering. *)
Lemma sqlserver_dummy_order_by_witness :
  exists clause,
    createLimitOffsetExpression plain (limit (Some 5) (posts SqlServerDriver)) =
    Return clause /\
    (prefix " ORDER BY (SELECT NULL)" clause = true <->
     allOrderBysOf plain (expressionMap (limit (Some 5) (posts SqlServerDriver))) =
     [] /\
     truthy (compiledLimit (expressionMap (limit (Some 5) (posts SqlServerDriver)))) ||
     truthy (compiledOffset (expressionMap (limit (Some 5) (posts SqlServerDriver))))
     = true).
Proof.
  apply (@sqlserver_dummy_order_by plain (limit (Some 5) (posts SqlServerDriver))
           eq_refl).
  discriminate.
Defined.

(** X5 on MySQL: lock tables are refused. *)
Lemma lock_tables_rejected_witness :
  createLockExpression
    (setLock pessimistic_write None (Some ["post"]) (posts MysqlDriver)) =
  Throw (TypeORMError "Lock tables not supported in selected driver").
Proof.
  apply (@lock_tables_rejected
           (setLock pessimistic_write None (Some ["post"]) (posts MysqlDriver))
           ["post"] eq_refl).
  left. discriminate.
Defined.

(** X7 on PostgreSQL: the skip-locked clause names both tables. *)
Lemma postgres_lock_names_tables_witness :
  exists clause,
    createLockExpression
      (setLock pessimistic_partial_write None (Some ["post"; "category"])
         (posts PostgresDriver)) = Return clause /\
    includes " OF post, category" clause = true.
Proof.
  exact (@postgres_lock_names_tables
           (setLock pessimistic_partial_write None (Some ["post"; "category"])
              (posts PostgresDriver))
           pessimistic_partial_write "post" ["category"]
           eq_refl eq_refl eq_refl eq_refl).
Defined.

(** X8: [andHaving] called first is written without [AND]. *)
Lemma having_first_without_combinator_witness :
  createHavingExpression plain
    (orHaving "SUM(p.views) < 9" None
       (andHaving "COUNT(c.id) > 1" None (posts PostgresDriver))) =
  " HAVING COUNT(c.id) > 1 OR SUM(p.views) < 9".
Proof.
  exact (@having_first_without_combinator plain
           (orHaving "SUM(p.views) < 9" None
              (andHaving "COUNT(c.id) > 1" None (posts PostgresDriver)))
           {| type := And; havingCondition := "COUNT(c.id) > 1" |}
           [{| type := Or; havingCondition := "SUM(p.views) < 9" |}] eq_refl).
Defined.

(** X9 on a sub-query whose HAVING condition ends with blanks and a
    no-break space: the text inside the parentheses closes with [1]. *)
Lemma getQuery_trimmed_witness :
  exists inner,
    "(SELECT * FROM post p LEFT JOIN category c GROUP BY p.id" ++
    " HAVING COUNT(c.id) > 1)" = "(" ++ inner ++ ")" /\
    isTrimmed inner.
Proof.
  exact (@getQuery_trimmed plain padded
           ("(SELECT * FROM post p LEFT JOIN category c GROUP BY p.id" ++
            " HAVING COUNT(c.id) > 1)")
           ltac:(vm_compute; reflexivity)).
Defined.

(** X13 on [posts], which was given runner [7]. *)
Lemma given_runner_kept_witness :
  emits keepsQueryRunner
    (getRawMany plain (answering [] [firstPost] false false) (posts PostgresDriver)) /\
  emits keepsQueryRunner
    (getRawAndEntities plain (answering [] [firstPost] false false)
       (posts PostgresDriver)) /\
  emits keepsQueryRunner
    (getCount plain (answering [] [firstPost] false false) (posts PostgresDriver)) /\
  emits keepsQueryRunner
    (getManyAndCount plain (answering [] [firstPost] false false)
       (posts PostgresDriver)).
Proof.
  exact (@given_runner_kept plain (answering [] [firstPost] false false)
           (posts PostgresDriver) 7%nat eq_refl).
Defined.

(** X14 on a builder without a query runner: runner [1] is created and
    released last. *)
Lemma created_runner_released_last_witness :
  ownsRunnerThroughout [] 1%nat
    (snd (getRawMany plain (answering [] [firstPost] false false)
            transactionalPosts [])) /\
  ownsRunnerThroughout [] 1%nat
    (snd (getRawAndEntities plain (answering [] [firstPost] false false)
            transactionalPosts [])) /\
  ownsRunnerThroughout [] 1%nat
    (snd (getCount plain (answering [] [firstPost] false false)
            transactionalPosts [])) /\
  ownsRunnerThroughout [] 1%nat
    (snd (getManyAndCount plain (answering [] [firstPost] false false)
            transactionalPosts [])).
Proof.
  apply (@created_runner_released_last plain (answering [] [firstPost] false false)
           transactionalPosts 1%nat [] eq_refl eq_refl).
  discriminate.
Defined.

(** X15 on [posts], which asks for no transaction. *)
Lemma no_transaction_unless_requested_witness :
  emits outsideTransaction
    (getRawMany plain (answering [] [firstPost] false false) (posts PostgresDriver)) /\
  emits outsideTransaction
    (getRawAndEntities plain (answering [] [firstPost] false false)
       (posts PostgresDriver)) /\
  emits outsideTransaction
    (getCount plain (answering [] [firstPost] false false) (posts PostgresDriver)) /\
  emits outsideTransaction
    (getManyAndCount plain (answering [] [firstPost] false false)
       (posts PostgresDriver)).
Proof.
  exact (@no_transaction_unless_requested plain
           (answering [] [firstPost] false false) (posts PostgresDriver)
           (or_introl eq_refl)).
Defined.




(** X19: the saved entry has not expired; its rows are returned and the
    driver is not asked. *)
Lemma cache_hit_skips_query_witness :
  loadRawResults plain (remembering savedPosts false [firstPost] [])
    (cachedPosts false) 7%nat [] =
  (Return [firstPost],
   [GetFromCache
      {| identifier := None; query := "SELECT * FROM post p -- PARAMETERS: []";
         time := None; duration := 1000; result := None |};
    IsExpired savedPosts]).
Proof.
  exact (@cache_hit_skips_query plain (remembering savedPosts false [firstPost] [])
           (cachedPosts false) 7%nat "SELECT * FROM post p" [] [] savedPosts
           [firstPost] eq_refl eq_refl eq_refl eq_refl eq_refl).
Defined.

(** X20 on [posts], whose connection has no result cache. *)
Lemma no_caching_single_query_witness :
  loadRawResults plain (answering [] [firstPost] false false)
    (posts PostgresDriver) 7%nat [] =
  (Return [firstPost], [Query 7%nat "SELECT * FROM post p" []]).
Proof.
  exact (@no_caching_single_query plain (answering [] [firstPost] false false)
           (posts PostgresDriver) 7%nat "SELECT * FROM post p" [] []
           eq_refl eq_refl).
Defined.

(** X21: the saved entry has expired; the rows of the query are stored
    and the expired entry is handed to the cache with them. *)
Lemma cache_miss_stores_rows_witness :
  loadRawResults plain (remembering savedPosts true [] [firstPost])
    (cachedPosts false) 7%nat [] =
  (Return [firstPost],
   [GetFromCache
      {| identifier := None; query := "SELECT * FROM post p -- PARAMETERS: []";
         time := None; duration := 1000; result := None |};
    IsExpired savedPosts;
    Query 7%nat "SELECT * FROM post p" [];
    StoreInCache
      {| identifier := None; query := "SELECT * FROM post p -- PARAMETERS: []";
         time := Some 3; duration := 1000; result := Some "[]" |}
      (Some savedPosts)]).
Proof.
  apply (@cache_miss_stores_rows plain (remembering savedPosts true [] [firstPost])
           (cachedPosts false) 7%nat "SELECT * FROM post p" [] []
           (Some savedPosts) [firstPost] eq_refl eq_refl eq_refl).
  - intros saved Hsaved. reflexivity.
  - reflexivity.
  - reflexivity.
Defined.

(** X22: the first post has version [3]; [getOne] returns it when version
    [3] is expected. *)
Lemma getOne_checks_version_witness :
  fst (getOne plain (answering [] [firstPost] false false)
         (setLock optimistic (Some (VersionNumber 3)) None (posts PostgresDriver))
         []) = Return (Some firstPost).
Proof.
  pose proof (@getOne_checks_version plain (answering [] [firstPost] false false)
                (setLock optimistic (Some (VersionNumber 3)) None
                   (posts PostgresDriver))
                []
                [Query 7%nat "SELECT * FROM post p" [];
                 LoadRelationIds [firstPost]; LoadRelationCounts [firstPost];
                 Transform [firstPost]; LoadSeparateRelations [firstPost];
                 BroadcastLoad [firstPost]]
                {| entities := [firstPost]; raw := [firstPost] |}
                firstPost [] 3 postAlias postMetadata versionColumn') as H.
  specialize (H ltac:(vm_compute; reflexivity) eq_refl eq_refl eq_refl
                ltac:(discriminate) eq_refl eq_refl eq_refl).
  destruct H as [H _]. specialize (H eq_refl).
  apply (f_equal fst) in H. exact H.
Defined.

(** X23: the article was updated after the expected date. *)
Lemma getOne_checks_update_date_witness :
  fst (getOne plain (answering [] [firstArticle] false false)
         (setLock optimistic (Some (VersionDate 1600000000000)) None articles)
         []) =
  Throw (OptimisticLockVersionMismatchError "article"
           (VersionDate 1600000000000) (JsDate 1700000000000)).
Proof.
  pose proof (@getOne_checks_update_date plain
                (answering [] [firstArticle] false false)
                (setLock optimistic (Some (VersionDate 1600000000000)) None articles)
                []
                [Query 7%nat "SELECT * FROM article a" [];
                 LoadRelationIds [firstArticle]; LoadRelationCounts [firstArticle];
                 Transform [firstArticle]; LoadSeparateRelations [firstArticle];
                 BroadcastLoad [firstArticle]]
                {| entities := [firstArticle]; raw := [firstArticle] |}
                firstArticle [] 1600000000000 1700000000000
                articleAlias articleMetadata updatedAtColumn) as H.
  specialize (H ltac:(vm_compute; reflexivity) eq_refl eq_refl eq_refl
                eq_refl eq_refl eq_refl eq_refl).
  apply (f_equal fst) in H. exact H.
Defined.

(** X24 on tags, which have no version column. *)
Lemma optimistic_lock_needs_version_column_witness :
  executeEntitiesAndRawResults plain (answering [] [firstPost] false false)
    (setLock optimistic (Some (VersionNumber 1)) None tags) 7%nat [] =
  (Throw (NoVersionOrUpdateDateColumnError "tag"), []).
Proof.
  exact (@optimistic_lock_needs_version_column plain
           (answering [] [firstPost] false false)
           (setLock optimistic (Some (VersionNumber 1)) None tags) 7%nat []
           tagAlias tagMetadata eq_refl eq_refl eq_refl eq_refl eq_refl).
Defined.

(** X25 on joined posts without a window: no row, no hydration. *)
Lemma unpaginated_runs_single_query_witness :
  executeEntitiesAndRawResults plain (answering [] [] false false)
    (postsWithCategory PostgresDriver) 7%nat [] =
  (Return ({| entities := []; raw := [] |}, postsWithCategory PostgresDriver),
   [Query 7%nat "SELECT * FROM post p LEFT JOIN category c" []]).
Proof.
  pose proof (@unpaginated_runs_single_query plain (answering [] [] false false)
                (postsWithCategory PostgresDriver)
                (postsWithCategory PostgresDriver) postAlias 7%nat []
                eq_refl eq_refl (or_introl eq_refl) eq_refl) as H.
  vm_compute in H |- *. exact H.
Defined.

(** X26 on a page of joined posts: the count query carries no window. *)
Lemma count_query_is_plain_witness :
  exists events,
    snd (executeCountQuery plain (answering [] [firstPost] false false) page
           7%nat []) = ([] ++ events)%list /\
    Forall (isPlainQueryOn plain 7%nat) events.
Proof.
  destruct (executeCountQuery plain (answering [] [firstPost] false false) page
              7%nat []) as [completion t1] eqn:Hrun.
  exact (@count_query_is_plain plain (answering [] [firstPost] false false) page
           7%nat [] completion t1 Hrun).
Defined.

(** X1 on MySQL: [skip] without [take] on a builder without joins is an
    offset without a limit. *)
Lemma limit_offset_throws_iff_witness :
  createLimitOffsetExpression plain (skip (Some 10) (posts MysqlDriver)) =
  Throw OffsetWithoutLimitNotSupportedError.
Proof.
  apply (@limit_offset_throws_iff plain (skip (Some 10) (posts MysqlDriver))
           OffsetWithoutLimitNotSupportedError).
  - discriminate.
  - repeat split.
Defined.

(** X12 on MySQL: the hint is written without [distinct] and dropped with
    it. *)
Example distinct_on_mysql :
  createSelectDistinctExpression plain (posts MysqlDriver)
    (maxExecutionTime 500
       {| SelectHead.selectDistinct := false; SelectHead.selectDistinctOn := [];
          SelectHead.maxExecutionTime := 0 |}) =
  "SELECT /*+ MAX_EXECUTION_TIME(500) */ " /\
  createSelectDistinctExpression plain (posts MysqlDriver)
    (distinct None
       (maxExecutionTime 500
          {| SelectHead.selectDistinct := false; SelectHead.selectDistinctOn := [];
             SelectHead.maxExecutionTime := 0 |})) =
  "SELECT DISTINCT ".
Proof. split; reflexivity. Qed.
